(** * Debug credential codec (spsdk/dat/debug_credential.py)

    A shallow embedding of the debug-credential classes: the struct
    [pack]/[unpack_from] primitives they are written with, the class
    registry, the RoT metadata builders, signing, export, parsing and
    equality, followed by the properties established about them. *)

From Stdlib Require Import Arith ZArith Lia List String Ascii Bool.
From Stdlib.Strings Require Import Byte.
From Stdlib Require Import DecimalString HexString.
From stdpp Require Import base option list strings gmap.

Local Open Scope string_scope.
Local Open Scope list_scope.
Local Open Scope Z_scope.

(** ** Python values, exceptions and results *)

Abbreviation bytes := (list Byte.byte).

#[global] Instance byte_eq_dec : EqDecision Byte.byte := Byte.byte_eq_dec.

(** The exceptions the module can raise.  [AssertionError] carries the
    message of the failed [assert]. *)
Inductive exn :=
| AssertionError (msg : string)
| StructError
| KeyError (key : string)
| IndexError
| AttributeError (name : string)
| OverflowError
| TypeError
| ValueError
| NotImplementedError
| ProviderError.

Inductive result (A : Type) :=
| Ok (a : A)
| Raise (e : exn).
Arguments Ok {A} a.
Arguments Raise {A} e.

Definition bind {A B} (r : result A) (k : A -> result B) : result B :=
  match r with
  | Ok a => k a
  | Raise e => Raise e
  end.

Notation "'let*' x ':=' r 'in' k" := (bind r (fun x => k))
  (at level 10, x pattern, r at level 100, k at level 200).

(** The names the specification gives to the failures. *)
Definition SignatureMissing : exn :=
  AssertionError "Debug Credential Signature is not set, call the .sign method first".
Definition NoSignerConfigured : exn :=
  AssertionError "Debug Credential Signature provider is not set".
Definition EmptySignature : exn :=
  AssertionError "Debug Credential Signature provider didn't return any signature".
Definition UnsupportedVariant (version : string) : exn := KeyError version.

(** ** Bytes and integers *)

Definition byte_of_Z (z : Z) : Byte.byte :=
  match Byte.of_N (Z.to_N (z mod 256)) with
  | Some b => b
  | None => Byte.x00
  end.

Definition Z_of_byte (b : Byte.byte) : Z := Z.of_N (Byte.to_N b).

(** [n] little-endian bytes of [v] (the [n] low bytes). *)
Fixpoint le_bytes (n : nat) (v : Z) : bytes :=
  match n with
  | O => []
  | S n' => byte_of_Z v :: le_bytes n' (Z.shiftr v 8)
  end.

Fixpoint le_value (bs : bytes) : Z :=
  match bs with
  | [] => 0
  | b :: bs' => Z.lor (Z_of_byte b) (Z.shiftl (le_value bs') 8)
  end.

Definition zeros (n : nat) : bytes := replicate n Byte.x00.

Definition blen (b : bytes) : Z := Z.of_nat (length b).

(** ** struct: format strings, [pack], [unpack_from], [calcsize]

    Every format string of the module starts with "<": little-endian,
    standard sizes, no alignment.  A format is kept as the list of its
    items, a repeat count written out ("2H" is [FH; FH]). *)
Inductive fmt_item :=
| FH               (* H: unsigned 16-bit *)
| FL               (* L: unsigned 32-bit *)
| FS (n : nat).    (* <n>s: byte string of exactly n bytes *)

Abbreviation format := (list fmt_item).

Inductive pyval :=
| VInt (z : Z)
| VBytes (b : bytes)
| VNone.

Definition item_size (f : fmt_item) : nat :=
  match f with
  | FH => 2
  | FL => 4
  | FS n => n
  end.

Definition calcsize (fmt : format) : nat :=
  sum_list (map item_size fmt).

(** Integers out of range and arguments of the wrong type raise
    struct.error; a byte string too long for its "s" item is cut and one
    too short is padded with zero bytes. *)
Definition pack_item (f : fmt_item) (v : pyval) : result bytes :=
  match f, v with
  | FH, VInt z => if (0 <=? z) && (z <? 2 ^ 16) then Ok (le_bytes 2 z) else Raise StructError
  | FL, VInt z => if (0 <=? z) && (z <? 2 ^ 32) then Ok (le_bytes 4 z) else Raise StructError
  | FS n, VBytes b => Ok (take n b ++ zeros (n - length b))
  | _, _ => Raise StructError
  end.

Fixpoint pack (fmt : format) (vs : list pyval) : result bytes :=
  match fmt, vs with
  | [], [] => Ok []
  | f :: fmt', v :: vs' =>
      let* b := pack_item f v in
      let* bs := pack fmt' vs' in
      Ok (b ++ bs)
  | _, _ => Raise StructError
  end.

Definition unpack_item (f : fmt_item) (b : bytes) : pyval :=
  match f with
  | FH | FL => VInt (le_value b)
  | FS _ => VBytes b
  end.

Fixpoint unpack (fmt : format) (data : bytes) : list pyval :=
  match fmt with
  | [] => []
  | f :: fmt' =>
      unpack_item f (take (item_size f) data) :: unpack fmt' (drop (item_size f) data)
  end.

(** [unpack_from(fmt, buffer, offset)]: a negative offset counts from the
    end of the buffer; the buffer must hold [calcsize fmt] bytes from the
    offset on. *)
Definition unpack_from (fmt : format) (data : bytes) (offset : Z) : result (list pyval) :=
  let off := if offset <? 0 then offset + blen data else offset in
  if (off <? 0) || (blen data - off <? Z.of_nat (calcsize fmt))
  then Raise StructError
  else Ok (unpack fmt (drop (Z.to_nat off) data)).

(** ** The classes *)

(** The concrete classes, those the two registries name.  The abstract
    bases (DebugCredential, DebugCredentialRSA, DebugCredentialECC,
    N4AnalogMixin) are never instantiated by the module.  *)
Inductive klass :=
| DebugCredentialRSA2048
| DebugCredentialRSA4096
| DebugCredentialECC256
| DebugCredentialECC384
| DebugCredentialECC521
| DebugCredentialECC256N4Analog
| DebugCredentialECC384N4Analog.

#[global] Instance klass_eq_dec : EqDecision klass.
Proof. solve_decision. Defined.

Definition is_n4 (k : klass) : bool :=
  match k with
  | DebugCredentialECC256N4Analog | DebugCredentialECC384N4Analog => true
  | _ => false
  end.

Definition is_rsa (k : klass) : bool :=
  match k with
  | DebugCredentialRSA2048 | DebugCredentialRSA4096 => true
  | _ => false
  end.

(** VERSION: the N4 classes define none and inherit '0.0' from the base
    class through DebugCredentialECC. *)
Definition VERSION (k : klass) : string :=
  match k with
  | DebugCredentialRSA2048 => "1.0"
  | DebugCredentialRSA4096 => "1.1"
  | DebugCredentialECC256 => "2.0"
  | DebugCredentialECC384 => "2.1"
  | DebugCredentialECC521 => "2.2"
  | DebugCredentialECC256N4Analog | DebugCredentialECC384N4Analog => "0.0"
  end.

Definition HASH_LENGTH (k : klass) : nat :=
  match k with
  | DebugCredentialECC256N4Analog => 32
  | DebugCredentialECC384N4Analog => 48
  | _ => 0
  end.

Definition KEY_LENGTH (k : klass) : Z :=
  match k with
  | DebugCredentialECC256N4Analog => 256
  | DebugCredentialECC384N4Analog => 384
  | _ => 0
  end.

(** CORD_LENGTH: DebugCredentialECC sets 66 and its three fixed-layout
    subclasses do not override it. *)
Definition CORD_LENGTH (k : klass) : nat :=
  match k with
  | DebugCredentialECC256 | DebugCredentialECC384 | DebugCredentialECC521 => 66
  | DebugCredentialECC256N4Analog => 32
  | DebugCredentialECC384N4Analog => 48
  | _ => 0
  end.

(** The bit size of the class attribute CURVE (ECC classes); sign passes
    it to the public-numbers constructor, which only stores it. *)
Definition CURVE (k : klass) : Z :=
  match k with
  | DebugCredentialECC256 => 256
  | DebugCredentialECC384 => 384
  | DebugCredentialECC521 => 521
  | _ => 256
  end.

(** ** The registries and [_get_class] *)

Definition _version_mapping : gmap string klass :=
  <["1.0" := DebugCredentialRSA2048]>
  (<["1.1" := DebugCredentialRSA4096]>
  (<["2.0" := DebugCredentialECC256]>
  (<["2.1" := DebugCredentialECC384]>
  (<["2.2" := DebugCredentialECC521]> ∅)))).

Definition _n4analog_version_mapping : gmap string klass :=
  <["2.0" := DebugCredentialECC256N4Analog]>
  (<["2.1" := DebugCredentialECC384N4Analog]> ∅).

(** [d[key]] on a dict with string keys. *)
Definition dict_get {V} (d : gmap string V) (key : string) : result V :=
  match d !! key with
  | Some v => Ok v
  | None => Raise (KeyError key)
  end.

Definition _get_class (version : string) (socc : Z) : result klass :=
  if socc =? 4
  then dict_get _n4analog_version_mapping version
  else dict_get _version_mapping version.

(** ** Keys and the external collaborators *)

(** A loaded public key: an RSA key with its public numbers, or an
    elliptic-curve key with its affine point; [key_size] is the bit size
    of the modulus, or of the curve. *)
Inductive public_key :=
| RSAPublicKey (e n : Z) (key_size : Z)
| EllipticCurvePublicKey (x y : Z) (key_size : Z).

Definition key_size (k : public_key) : Z :=
  match k with
  | RSAPublicKey _ _ s => s
  | EllipticCurvePublicKey _ _ s => s
  end.

(** A signature provider is held by reference. *)
Definition provider := positive.

(** What the module imports from spsdk.crypto and the crypto backend;
    none of it is part of this unit, so the development is parametric in
    it. *)
Class Crypto := {
  (* crypto.load_public_key(file_path) *)
  load_public_key : string -> result public_key;
  (* internal_backend.hash(data, algorithm) *)
  hash : string -> bytes -> result bytes;
  (* spsdk.dat.utils.rsa_key_to_bytes(key, exp_length, modulus_length) *)
  rsa_key_to_bytes : Z -> Z -> nat -> option nat -> result bytes;
  (* crypto.utils_cryptography.decode_dss_signature(signature) *)
  decode_dss_signature : bytes -> result (Z * Z);
  (* SignatureProvider.create(params) *)
  SignatureProvider_create : string -> result (option provider);
  (* SignatureProvider.sign(data) *)
  SignatureProvider_sign : provider -> bytes -> result bytes
}.

(** [v.to_bytes(length, 'big')] *)
Definition int_to_bytes_be (v : Z) (len : nat) : result bytes :=
  if (0 <=? v) && (v <? 2 ^ (8 * Z.of_nat len))
  then Ok (rev (le_bytes len v))
  else Raise OverflowError.

(** Modelled from the spec: spsdk.dat.utils.ecc_public_numbers_to_bytes
    is not part of this unit.  The encoding is the concatenation of the
    two big-endian numbers, each zero-padded to [length] bytes. *)
Definition ecc_public_numbers_to_bytes (x y : Z) (len : nat) : result bytes :=
  let* x_bytes := int_to_bytes_be x len in
  let* y_bytes := int_to_bytes_be y len in
  Ok (x_bytes ++ y_bytes).

(** Modelled from the spec: spsdk.dat.utils.ecc_key_to_bytes is not part
    of this unit.  The encoding of a key is the encoding of its public
    numbers. *)
Definition ecc_key_to_bytes (key : public_key) (len : nat) : result bytes :=
  match key with
  | EllipticCurvePublicKey x y _ => ecc_public_numbers_to_bytes x y len
  | RSAPublicKey _ _ _ => Raise (AttributeError "public_numbers")
  end.

(** ** Python helpers *)

(** [l[i]] with Python's negative indices. *)
Definition py_index {A} (l : list A) (i : Z) : result A :=
  let j := if i <? 0 then i + Z.of_nat (length l) else i in
  if j <? 0 then Raise IndexError
  else match l !! Z.to_nat j with
       | Some a => Ok a
       | None => Raise IndexError
       end.

(** [b[lo:hi] = data] on a bytearray, for [0 <= lo <= hi]: both ends are
    clipped to the length, so an assignment past the end appends. *)
Definition slice_assign (b : bytes) (lo hi : nat) (data : bytes) : bytes :=
  take lo b ++ data ++ drop hi b.

Definition string_of_Z (z : Z) : string :=
  DecimalString.NilZero.string_of_int (Z.to_int z).

Definition digit_of_ascii (a : ascii) : option Z :=
  let n := Z.of_N (Ascii.N_of_ascii a) in
  if (48 <=? n) && (n <=? 57) then Some (n - 48) else None.

Fixpoint int_of_digits (acc : Z) (s : string) : result Z :=
  match s with
  | EmptyString => Ok acc
  | String a s' =>
      match digit_of_ascii a with
      | Some d => int_of_digits (10 * acc + d) s'
      | None => Raise ValueError
      end
  end.

(** [int(s)] for the strings of decimal digits the module applies it to. *)
Definition py_int (s : string) : result Z :=
  match s with
  | EmptyString => Raise ValueError
  | _ => int_of_digits 0 s
  end.

(** [s.split('.')] *)
Fixpoint split_dot (cur : string) (s : string) : list string :=
  match s with
  | EmptyString => [cur]
  | String a s' =>
      if Ascii.eqb a "."%char
      then cur :: split_dot EmptyString s'
      else split_dot (cur +:+ String a EmptyString) s'
  end.

Fixpoint mapM {A B} (f : A -> result B) (l : list A) : result (list B) :=
  match l with
  | [] => Ok []
  | a :: l' =>
      let* b := f a in
      let* bs := mapM f l' in
      Ok (b :: bs)
  end.

(** [[int(v) for v in VERSION.split('.')]] *)
Definition version_ints (k : klass) : result (list Z) :=
  mapM py_int (split_dot EmptyString (VERSION k)).

Definition hex_of_ascii (a : ascii) : option Z :=
  let n := Z.of_N (Ascii.N_of_ascii a) in
  if (48 <=? n) && (n <=? 57) then Some (n - 48)
  else if (97 <=? n) && (n <=? 102) then Some (n - 87)
  else if (65 <=? n) && (n <=? 70) then Some (n - 55)
  else None.

Definition is_space (a : ascii) : bool :=
  let n := Z.of_N (Ascii.N_of_ascii a) in
  (n =? 32) || ((9 <=? n) && (n <=? 13)).

(** [bytes.fromhex(s)]: pairs of hexadecimal digits, white space allowed
    between the pairs. *)
Fixpoint fromhex (s : string) : result bytes :=
  match s with
  | EmptyString => Ok []
  | String a s' =>
      if is_space a then fromhex s'
      else match s' with
           | String b s'' =>
               match hex_of_ascii a, hex_of_ascii b with
               | Some h, Some l =>
                   let* rest := fromhex s'' in
                   Ok (byte_of_Z (16 * h + l) :: rest)
               | _, _ => Raise ValueError
               end
           | EmptyString => Raise ValueError
           end
  end.

Section Codec.
Context `{Crypto}.

(** ** RoT metadata, debugger key and RoT public key, per class *)

(** The loop of DebugCredentialRSA._get_rot_meta, from [index] on. *)
Fixpoint RSA_rot_meta_loop (index : nat) (rot_pub_keys : list string)
    (rot_meta : bytes) : result bytes :=
  match rot_pub_keys with
  | [] => Ok rot_meta
  | rot_key :: rest =>
      let* rot := load_public_key rot_key in
      match rot with
      | RSAPublicKey e n _ =>
          let* data := rsa_key_to_bytes e n 3%nat None in
          let* result := hash "sha256" data in
          RSA_rot_meta_loop (S index) rest
            (slice_assign rot_meta (index * 32) ((index + 1) * 32) result)
      | _ => Raise (AssertionError "")
      end
  end.

Definition RSA_get_rot_meta (used_root_cert : Z) (rot_pub_keys : list string)
    : result bytes :=
  RSA_rot_meta_loop 0 rot_pub_keys (zeros 128).

Definition RSA_get_dck (dck_key_path : string) : result bytes :=
  let* dck_key := load_public_key dck_key_path in
  match dck_key with
  | RSAPublicKey e n _ => rsa_key_to_bytes e n 4%nat None
  | _ => Raise (AssertionError "")
  end.

Definition RSA_get_rot_pub (rot_pub_id : Z) (rot_pub_keys : list string)
    : result bytes :=
  let* pub_key_path := py_index rot_pub_keys rot_pub_id in
  let* pub_key := load_public_key pub_key_path in
  match pub_key with
  | RSAPublicKey e n _ => rsa_key_to_bytes e n 4%nat None
  | _ => Raise (AssertionError "")
  end.

(** The loop of DebugCredentialECC._get_rot_meta, from [index] on. *)
Fixpoint ECC_rot_meta_loop (index : nat) (rot_pub_keys : list string)
    (rot_meta : bytes) : result bytes :=
  match rot_pub_keys with
  | [] => Ok rot_meta
  | rot_key :: rest =>
      let* rot := load_public_key rot_key in
      match rot with
      | EllipticCurvePublicKey _ _ _ =>
          let* data := ecc_key_to_bytes rot 66 in
          ECC_rot_meta_loop (S index) rest
            (slice_assign rot_meta (index * 132) ((index + 1) * 132) data)
      | _ => Raise (AssertionError "")
      end
  end.

Definition ECC_get_rot_meta (used_root_cert : Z) (rot_pub_keys : list string)
    : result bytes :=
  ECC_rot_meta_loop 0 rot_pub_keys (zeros 528).

Definition ECC_get_dck (dck_key_path : string) : result bytes :=
  let* dck_key := load_public_key dck_key_path in
  match dck_key with
  | EllipticCurvePublicKey _ _ _ => ecc_key_to_bytes dck_key 66
  | _ => Raise (AssertionError "")
  end.

(** The dict literal of DebugCredentialECC._get_rot_pub, as written. *)
Definition curve_index_table : gmap Z Z :=
  <[256 := 1]> (<[386 := 2]> (<[521 := 3]> ∅)).

Definition ECC_get_rot_pub (rot_pub_id : Z) (rot_pub_keys : list string)
    : result bytes :=
  let* pub_key_path := py_index rot_pub_keys rot_pub_id in
  let* pub_key := load_public_key pub_key_path in
  match pub_key with
  | EllipticCurvePublicKey _ _ size =>
      let* curve_index :=
        match curve_index_table !! size with
        | Some i => Ok i
        | None => Raise (KeyError (string_of_Z size))
        end in
      pack [FH; FH] [VInt rot_pub_id; VInt curve_index]
  | _ => Raise (AssertionError "")
  end.

(** N4AnalogMixin.create_ctrk_table: the loop, then the function. *)
Fixpoint ctrk_table_loop (rot_pub_keys : list string) (ctrk_table : bytes)
    : result bytes :=
  match rot_pub_keys with
  | [] => Ok ctrk_table
  | pub_key_path :: rest =>
      let* pub_key := load_public_key pub_key_path in
      match pub_key with
      | EllipticCurvePublicKey _ _ key_length =>
          let* data := ecc_key_to_bytes pub_key (Z.to_nat (key_length / 8)) in
          let* ctrk_hash := hash ("sha" +:+ string_of_Z key_length) data in
          ctrk_table_loop rest (ctrk_table ++ ctrk_hash)
      | _ => Raise (AssertionError "")
      end
  end.

Definition create_ctrk_table (rot_pub_keys : list string) : result bytes :=
  if (length rot_pub_keys =? 1)%nat then Ok []
  else ctrk_table_loop rot_pub_keys [].

(** The integer N4AnalogMixin.calculate_flags packs. *)
Definition flags_word (used_root_cert : Z) (count : Z) : Z :=
  Z.lor (Z.lor (Z.lor 0 (Z.shiftl 1 31)) (Z.shiftl used_root_cert 8))
        (Z.shiftl count 4).

Definition calculate_flags (used_root_cert : Z) (rot_pub_keys : list string)
    : result bytes :=
  pack [FL] [VInt (flags_word used_root_cert (Z.of_nat (length rot_pub_keys)))].

Definition N4_get_rot_meta (used_root_cert : Z) (rot_pub_keys : list string)
    : result bytes :=
  let* ctrk_hash_table := create_ctrk_table rot_pub_keys in
  let* flags := calculate_flags used_root_cert rot_pub_keys in
  Ok (flags ++ ctrk_hash_table).

Definition N4_get_dck (dck_key_path : string) : result bytes :=
  let* dck_key := load_public_key dck_key_path in
  let len := Z.to_nat (key_size dck_key / 8) in
  match dck_key with
  | EllipticCurvePublicKey _ _ _ => ecc_key_to_bytes dck_key len
  | _ => Raise (AssertionError "")
  end.

Definition N4_get_rot_pub (rot_pub_id : Z) (rot_pub_keys : list string)
    : result bytes :=
  let* root_key := py_index rot_pub_keys rot_pub_id in
  let* root_public_key := load_public_key root_key in
  let len := Z.to_nat (key_size root_public_key / 8) in
  match root_public_key with
  | EllipticCurvePublicKey _ _ _ => ecc_key_to_bytes root_public_key len
  | _ => Raise (AssertionError "")
  end.

(** Method resolution: which implementation a class inherits. *)
Definition _get_rot_meta (k : klass) : Z -> list string -> result bytes :=
  if is_rsa k then RSA_get_rot_meta
  else if is_n4 k then N4_get_rot_meta
  else ECC_get_rot_meta.

Definition _get_dck (k : klass) : string -> result bytes :=
  if is_rsa k then RSA_get_dck
  else if is_n4 k then N4_get_dck
  else ECC_get_dck.

Definition _get_rot_pub (k : klass) : Z -> list string -> result bytes :=
  if is_rsa k then RSA_get_rot_pub
  else if is_n4 k then N4_get_rot_pub
  else ECC_get_rot_pub.

(** ** The credential object *)

(** The instance attributes [__init__] sets, with the class of the
    instance.  [signature] is [None] until the credential is signed.
    [signature_provider] is an attribute that can be deleted from the
    instance: [None] here stands for a deleted attribute, [Some None] for
    the attribute holding Python's None. *)
Record DebugCredential := mkDebugCredential {
  dc_class : klass;
  socc : Z;
  uuid : bytes;
  rot_meta : bytes;
  dck_pub : bytes;
  cc_socu : Z;
  cc_vu : Z;
  cc_beacon : Z;
  rot_pub : bytes;
  signature : option bytes;
  signature_provider : option (option provider)
}.

Definition set_signature (c : DebugCredential) (s : option bytes) : DebugCredential :=
  mkDebugCredential (dc_class c) (socc c) (uuid c) (rot_meta c) (dck_pub c)
    (cc_socu c) (cc_vu c) (cc_beacon c) (rot_pub c) s (signature_provider c).

Definition del_signature_provider (c : DebugCredential) : DebugCredential :=
  mkDebugCredential (dc_class c) (socc c) (uuid c) (rot_meta c) (dck_pub c)
    (cc_socu c) (cc_vu c) (cc_beacon c) (rot_pub c) (signature c) None.

(** A bytes attribute as a [pack] argument. *)
Definition opt_bytes (o : option bytes) : pyval :=
  match o with
  | Some b => VBytes b
  | None => VNone
  end.

(** Truth value of an optional bytes object. *)
Definition truthy (o : option bytes) : bool :=
  match o with
  | Some (_ :: _) => true
  | _ => false
  end.

(** ** Formats *)

(** The class attributes FORMAT_NO_SIG and FORMAT of the fixed-layout
    classes, and the properties of the same names of N4AnalogMixin, which
    depend on the instance. *)
Definition fixed_FORMAT_NO_SIG (k : klass) : format :=
  match k with
  | DebugCredentialRSA2048 =>
      [FH; FH; FL; FS 16; FS 128; FS 260; FL; FL; FL; FS 260]
  | DebugCredentialRSA4096 =>
      [FH; FH; FL; FS 16; FS 128; FS 516; FL; FL; FL; FS 516]
  | _ =>
      [FH; FH; FL; FS 16; FS 528; FS 132; FL; FL; FL; FS 4]
  end.

Definition fixed_FORMAT (k : klass) : format :=
  fixed_FORMAT_NO_SIG k ++
  match k with
  | DebugCredentialRSA2048 => [FS 256]
  | DebugCredentialRSA4096 => [FS 512]
  | _ => [FS 132]
  end.

Definition N4_FORMAT_NO_SIG (k : klass) (rot_meta_len : nat) : format :=
  [FH; FH; FL; FS 16; FL; FL; FL; FS rot_meta_len;
   FS (HASH_LENGTH k * 2); FS (HASH_LENGTH k * 2)].

Definition N4_FORMAT (k : klass) (rot_meta_len : nat) : format :=
  [FH; FH; FL; FS 16; FL; FL; FL; FS rot_meta_len;
   FS (HASH_LENGTH k * 2); FS (HASH_LENGTH k * 2); FS (HASH_LENGTH k * 2)].

(** [klass.FORMAT] read on the class, as DebugCredential.parse does: on an
    N4 class this is the property object, not a format string. *)
Definition class_FORMAT (k : klass) : result format :=
  if is_n4 k then Raise TypeError else Ok (fixed_FORMAT k).

(** ** export and _get_data_to_sign *)

Definition base_export (c : DebugCredential) : result bytes :=
  if truthy (signature c) then
    let* v := version_ints (dc_class c) in
    pack (fixed_FORMAT (dc_class c))
      (map VInt v ++
       [VInt (socc c); VBytes (uuid c); VBytes (rot_meta c); VBytes (dck_pub c);
        VInt (cc_socu c); VInt (cc_vu c); VInt (cc_beacon c); VBytes (rot_pub c);
        opt_bytes (signature c)])
  else Raise SignatureMissing.

Definition N4_export (c : DebugCredential) : result bytes :=
  let* v := version_ints (dc_class c) in
  pack (N4_FORMAT (dc_class c) (length (rot_meta c)))
    (map VInt v ++
     [VInt (socc c); VBytes (uuid c); VInt (cc_socu c); VInt (cc_vu c);
      VInt (cc_beacon c); VBytes (rot_meta c); VBytes (rot_pub c);
      VBytes (dck_pub c); opt_bytes (signature c)]).

Definition export (c : DebugCredential) : result bytes :=
  if is_n4 (dc_class c) then N4_export c else base_export c.

Definition base_get_data_to_sign (c : DebugCredential) : result bytes :=
  let* v := version_ints (dc_class c) in
  pack (fixed_FORMAT_NO_SIG (dc_class c))
    (map VInt v ++
     [VInt (socc c); VBytes (uuid c); VBytes (rot_meta c); VBytes (dck_pub c);
      VInt (cc_socu c); VInt (cc_vu c); VInt (cc_beacon c); VBytes (rot_pub c)]).

Definition N4_get_data_to_sign (c : DebugCredential) : result bytes :=
  let* v := version_ints (dc_class c) in
  pack (N4_FORMAT_NO_SIG (dc_class c) (length (rot_meta c)))
    (map VInt v ++
     [VInt (socc c); VBytes (uuid c); VInt (cc_socu c); VInt (cc_vu c);
      VInt (cc_beacon c); VBytes (rot_meta c); VBytes (rot_pub c);
      VBytes (dck_pub c)]).

Definition _get_data_to_sign (c : DebugCredential) : result bytes :=
  if is_n4 (dc_class c) then N4_get_data_to_sign c else base_get_data_to_sign c.

(** ** sign

    A method that assigns to [self] returns the object as it is left,
    also when it raises. *)
Definition base_sign (c : DebugCredential) : DebugCredential * result unit :=
  match signature_provider c with
  | None => (c, Raise (AttributeError "signature_provider"))
  | Some None => (c, Raise NoSignerConfigured)
  | Some (Some p) =>
      match _get_data_to_sign c with
      | Raise e => (c, Raise e)
      | Ok data =>
          match SignatureProvider_sign p data with
          | Raise e => (c, Raise e)
          | Ok [] => (c, Raise EmptySignature)
          | Ok sig => (set_signature c (Some sig), Ok tt)
          end
      end
  end.

Definition ECC_sign (c : DebugCredential) : DebugCredential * result unit :=
  match base_sign c with
  | (c1, Raise e) => (c1, Raise e)
  | (c1, Ok _) =>
      match signature c1 with
      | Some (b :: bs) =>
          match decode_dss_signature (b :: bs) with
          | Raise e => (c1, Raise e)
          | Ok (r, s) =>
              match ecc_public_numbers_to_bytes r s (CORD_LENGTH (dc_class c1)) with
              | Raise e => (c1, Raise e)
              | Ok sig => (set_signature c1 (Some sig), Ok tt)
              end
          end
      | _ => (c1, Raise (AssertionError "Debug Credential Signature is not set in base class"))
      end
  end.

Definition sign (c : DebugCredential) : DebugCredential * result unit :=
  if is_rsa (dc_class c) then base_sign c else ECC_sign c.

(** ** create_from_yaml_config *)

(** The keys the function reads from the configuration dictionary;
    'sign_provider' and 'rotk' may be missing. *)
Record yaml_config := mkConfig {
  cfg_socc : Z;
  cfg_uuid : string;
  cfg_rot_id : Z;
  cfg_rot_meta : list string;
  cfg_dck : string;
  cfg_cc_socu : Z;
  cfg_cc_vu : Z;
  cfg_cc_beacon : Z;
  cfg_sign_provider : option string;
  cfg_rotk : option string
}.

Definition sign_provider_params (cfg : yaml_config) : result string :=
  match cfg_sign_provider cfg with
  | Some (String a s) => Ok (String a s)
  | _ =>
      match cfg_rotk cfg with
      | Some rotk => Ok ("type=file;file_path=" +:+ rotk)
      | None => Raise (KeyError "rotk")
      end
  end.

Definition create_from_yaml_config (version : string) (cfg : yaml_config)
    : result DebugCredential :=
  let socc := cfg_socc cfg in
  let* klass := _get_class version socc in
  let* uuid := fromhex (cfg_uuid cfg) in
  let* rot_meta := _get_rot_meta klass (cfg_rot_id cfg) (cfg_rot_meta cfg) in
  let* dck_pub := _get_dck klass (cfg_dck cfg) in
  let* rot_pub := _get_rot_pub klass (cfg_rot_id cfg) (cfg_rot_meta cfg) in
  let* params := sign_provider_params cfg in
  let* signature_provider := SignatureProvider_create params in
  Ok (mkDebugCredential klass socc uuid rot_meta dck_pub (cfg_cc_socu cfg)
        (cfg_cc_vu cfg) (cfg_cc_beacon cfg) rot_pub None (Some signature_provider)).

(** ** parse *)

(** DebugCredential.parse, inherited by the fixed-layout classes. *)
Definition base_parse (data : bytes) (offset : Z) : result DebugCredential :=
  let* v := unpack_from [FH; FH] data offset in
  match v with
  | [VInt vh; VInt vl] =>
      let version := string_of_Z vh +:+ "." +:+ string_of_Z vl in
      let* s := unpack_from [FL] data (offset + 4) in
      match s with
      | [VInt socc0] =>
          let* klass := _get_class version socc0 in
          let* fmt := class_FORMAT klass in
          let* vals := unpack_from fmt data offset in
          match vals with
          | [VInt _; VInt _; VInt socc; VBytes uuid; VBytes rot_meta;
             VBytes dck_pub; VInt cc_socu; VInt cc_vu; VInt cc_beacon;
             VBytes rot_pub; VBytes signature] =>
              Ok (mkDebugCredential klass socc uuid rot_meta dck_pub cc_socu
                    cc_vu cc_beacon rot_pub (Some signature) (Some None))
          | _ => Raise TypeError
          end
      | _ => Raise TypeError
      end
  | _ => Raise TypeError
  end.

Definition format_head : format := [FH; FH; FL; FS 16; FL; FL; FL; FL].

(** N4AnalogMixin.parse, called on the class [cls]. *)
Definition N4_parse (cls : klass) (data : bytes) (offset : Z) : result DebugCredential :=
  let* head := unpack_from format_head data 0 in
  match head with
  | [VInt version_major; VInt version_minor; VInt socc; VBytes uuid;
     VInt cc_socu; VInt cc_vu; VInt beacon; VInt flags] =>
      if Z.land flags 0x80000000 =? 0 then Raise (AssertionError "")
      else
        let records_num := Z.shiftr (Z.land flags 0xF0) 4 in
        let* ctrk_hash_table :=
          if 1 <? records_num then
            let* t := unpack_from [FS (Z.to_nat records_num * HASH_LENGTH cls)]
                        data (offset + Z.of_nat (calcsize format_head)) in
            match t with
            | [VBytes b] => Ok b
            | _ => Raise TypeError
            end
          else Ok [] in
        let* flag_bytes := pack [FL] [VInt flags] in
        let rot_meta := flag_bytes ++ ctrk_hash_table in
        let* tail :=
          unpack_from
            [FS (HASH_LENGTH cls * 2); FS (HASH_LENGTH cls * 2); FS (HASH_LENGTH cls * 2)]
            data (offset + Z.of_nat (calcsize format_head) + blen rot_meta - 4) in
        match tail with
        | [VBytes rot_pub; VBytes dck_pub; VBytes signature] =>
            Ok (mkDebugCredential cls socc uuid rot_meta dck_pub cc_socu cc_vu
                  beacon rot_pub (Some signature) (Some None))
        | _ => Raise TypeError
        end
  | _ => Raise TypeError
  end.

Definition parse (cls : klass) (data : bytes) (offset : Z) : result DebugCredential :=
  if is_n4 cls then N4_parse cls data offset else base_parse data offset.

(** ** Equality *)

(** [vars(c)]: the instance attributes; the class is not one of them. *)
Definition vars (c : DebugCredential) :=
  (socc c, uuid c, rot_meta c, dck_pub c, cc_socu c, cc_vu c, cc_beacon c,
   rot_pub c, signature c, signature_provider c).

(** DebugCredential.__eq__: reads both objects, changes neither. *)
Definition base_eq (self other : DebugCredential) : bool :=
  bool_decide (vars self = vars other).

(** Objects live in a store and are passed by reference. *)
Definition loc := positive.

(** [del vars(obj)['signature_provider']] *)
Definition del_provider_at (h : gmap loc DebugCredential) (l : loc)
    : gmap loc DebugCredential * result unit :=
  match h !! l with
  | None => (h, Raise TypeError)
  | Some c =>
      match signature_provider c with
      | None => (h, Raise (KeyError "signature_provider"))
      | Some _ => (<[l := del_signature_provider c]> h, Ok tt)
      end
  end.

(** N4AnalogMixin.__eq__: [vars] returns the attribute dictionary of the
    object itself, so both deletions change the operands. *)
Definition N4_eq (h : gmap loc DebugCredential) (self other : loc)
    : gmap loc DebugCredential * result bool :=
  match del_provider_at h self with
  | (h1, Raise e) => (h1, Raise e)
  | (h1, Ok _) =>
      match del_provider_at h1 other with
      | (h2, Raise e) => (h2, Raise e)
      | (h2, Ok _) =>
          match h2 !! other, h2 !! self with
          | Some other_vars, Some self_vars =>
              (h2, Ok (bool_decide (vars other_vars = vars self_vars)))
          | _, _ => (h2, Raise TypeError)
          end
      end
  end.

(** [self == other] for two credentials of concrete classes. *)
Definition py_eq (h : gmap loc DebugCredential) (self other : loc)
    : gmap loc DebugCredential * result bool :=
  match h !! self, h !! other with
  | Some cs, Some co =>
      if is_n4 (dc_class cs) then N4_eq h self other
      else (h, Ok (base_eq cs co))
  | _, _ => (h, Raise TypeError)
  end.

(** [obj.sign()] on an object of the store. *)
Definition sign_at (h : gmap loc DebugCredential) (l : loc)
    : gmap loc DebugCredential * result unit :=
  match h !! l with
  | None => (h, Raise TypeError)
  | Some c => let '(c', r) := sign c in (<[l := c']> h, r)
  end.

End Codec.

Abbreviation heap := (gmap loc DebugCredential).

(** ** A concrete set of collaborators

    Small stand-ins for the key store, the digest, the DER decoder and
    the signature provider, used to run the definitions on concrete
    inputs. *)
Module Demo.

Definition load (path : string) : result public_key :=
  if String.eqb path "p256_a.pem" then Ok (EllipticCurvePublicKey 11 12 256)
  else if String.eqb path "p256_b.pem" then Ok (EllipticCurvePublicKey 21 22 256)
  else if String.eqb path "p256_c.pem" then Ok (EllipticCurvePublicKey 31 32 256)
  else if String.eqb path "p384_a.pem" then Ok (EllipticCurvePublicKey 41 42 384)
  else if String.eqb path "p384_b.pem" then Ok (EllipticCurvePublicKey 51 52 384)
  else if String.eqb path "p521_a.pem" then Ok (EllipticCurvePublicKey 61 62 521)
  else if String.eqb path "rsa2048_a.pem" then Ok (RSAPublicKey 65537 (2 ^ 2047 + 9) 2048)
  else if String.eqb path "rsa2048_b.pem" then Ok (RSAPublicKey 65537 (2 ^ 2047 + 15) 2048)
  else Raise ValueError.

(** A digest of the right length per algorithm name; its content is the
    byte sum of the data, repeated. *)
Definition digest (algorithm : string) (data : bytes) : result bytes :=
  let fill := byte_of_Z (1 + fold_right (fun b acc => Z_of_byte b + acc) 0 data) in
  if String.eqb algorithm "sha256" then Ok (repeat fill 32)
  else if String.eqb algorithm "sha384" then Ok (repeat fill 48)
  else if String.eqb algorithm "sha512" then Ok (repeat fill 64)
  else Raise ValueError.

Definition rsa_to_bytes (e n : Z) (exp_length : nat) (modulus_length : option nat)
    : result bytes :=
  let* eb := int_to_bytes_be e exp_length in
  let* nb := int_to_bytes_be n (default 256%nat modulus_length) in
  Ok (eb ++ nb).

(** A signature of four bytes: [r] on two big-endian bytes, then [s]. *)
Definition decode (sig : bytes) : result (Z * Z) :=
  match sig with
  | [r1; r0; s1; s0] =>
      Ok (256 * Z_of_byte r1 + Z_of_byte r0, 256 * Z_of_byte s1 + Z_of_byte s0)
  | _ => Raise ValueError
  end.

Definition create (params : string) : result (option provider) := Ok (Some 1%positive).

Definition do_sign (p : provider) (data : bytes) : result bytes :=
  Ok [byte_of_Z 18; byte_of_Z 52; byte_of_Z 86; byte_of_Z (blen data)].

#[export] Instance crypto : Crypto := {
  load_public_key := load;
  hash := digest;
  rsa_key_to_bytes := rsa_to_bytes;
  decode_dss_signature := decode;
  SignatureProvider_create := create;
  SignatureProvider_sign := do_sign
}.

End Demo.

(** ** Vocabulary of the statements *)

Definition fixed_registry (version : string) (k : klass) : Prop :=
  (version = "1.0" /\ k = DebugCredentialRSA2048) \/
  (version = "1.1" /\ k = DebugCredentialRSA4096) \/
  (version = "2.0" /\ k = DebugCredentialECC256) \/
  (version = "2.1" /\ k = DebugCredentialECC384) \/
  (version = "2.2" /\ k = DebugCredentialECC521).

Definition variable_registry (version : string) (k : klass) : Prop :=
  (version = "2.0" /\ k = DebugCredentialECC256N4Analog) \/
  (version = "2.1" /\ k = DebugCredentialECC384N4Analog).

(** What the parser reads as the record count in the flags that start a
    RoT metadata block. *)
Definition records_num_of (rot_meta : bytes) : Z :=
  Z.shiftr (Z.land (le_value (take 4 rot_meta)) 0xF0) 4.

(** Writing the chunks [contents] into consecutive slots from [index] on. *)
Fixpoint fill_slots (stride index : nat) (contents : list bytes) (acc : bytes) : bytes :=
  match contents with
  | [] => acc
  | d :: rest =>
      fill_slots stride (S index) rest
        (slice_assign acc (index * stride) ((index + 1) * stride) d)
  end.

Definition slot_stride (k : klass) : nat := if is_rsa k then 32%nat else 132%nat.

Definition block_size (k : klass) : nat := if is_rsa k then 128%nat else 528%nat.

(** The position in the buffer that [unpack_from] gives to an offset. *)
Definition buffer_pos (data : bytes) (offset : Z) : nat :=
  Z.to_nat (if offset <? 0 then offset + blen data else offset).

(** The value has the width of its format item: nothing is cut, padded
    or out of range. *)
Definition fits (f : fmt_item) (v : pyval) : Prop :=
  match f, v with
  | FH, VInt z => 0 <= z < 2 ^ 16
  | FL, VInt z => 0 <= z < 2 ^ 32
  | FS n, VBytes b => length b = n
  | _, _ => False
  end.

Definition set_signature_provider (c : DebugCredential)
    (p : option (option provider)) : DebugCredential :=
  mkDebugCredential (dc_class c) (socc c) (uuid c) (rot_meta c) (dck_pub c)
    (cc_socu c) (cc_vu c) (cc_beacon c) (rot_pub c) (signature c) p.

(** The arguments base export passes to [pack] after the version. *)
Definition fixed_values (c : DebugCredential) (sig : bytes) : list pyval :=
  [VInt (socc c); VBytes (uuid c); VBytes (rot_meta c); VBytes (dck_pub c);
   VInt (cc_socu c); VInt (cc_vu c); VInt (cc_beacon c); VBytes (rot_pub c);
   VBytes sig].

(** A signed credential of a fixed-layout class each of whose fields has
    the width its format gives it. *)
Definition fixed_fields_fit (c : DebugCredential) : Prop :=
  is_n4 (dc_class c) = false /\ socc c <> 4 /\
  exists v sig,
    version_ints (dc_class c) = Ok v /\
    signature c = Some sig /\ sig <> [] /\
    Forall2 fits (fixed_FORMAT (dc_class c)) (map VInt v ++ fixed_values c sig).

(** The arguments N4 export passes to [pack] after the version. *)
Definition n4_values (c : DebugCredential) (sig : bytes) : list pyval :=
  [VInt (socc c); VBytes (uuid c); VInt (cc_socu c); VInt (cc_vu c);
   VInt (cc_beacon c); VBytes (rot_meta c); VBytes (rot_pub c);
   VBytes (dck_pub c); VBytes sig].

(** RoT metadata as the builder makes it: four flag bytes with bit 31
    set, then the table the record count of the flags announces. *)
Definition n4_rot_meta_ok (k : klass) (m : bytes) : Prop :=
  exists flags table,
    m = le_bytes 4 flags ++ table /\
    0 <= flags < 2 ^ 32 /\
    Z.land flags 0x80000000 <> 0 /\
    length table =
      if 1 <? Z.shiftr (Z.land flags 0xF0) 4
      then (Z.to_nat (Z.shiftr (Z.land flags 0xF0) 4) * HASH_LENGTH k)%nat
      else 0%nat.

(** A signed credential of an N4 class each of whose fields has the
    width its format gives it. *)
Definition n4_fields_fit (c : DebugCredential) : Prop :=
  is_n4 (dc_class c) = true /\
  n4_rot_meta_ok (dc_class c) (rot_meta c) /\
  exists sig,
    signature c = Some sig /\
    Forall2 fits (N4_FORMAT (dc_class c) (length (rot_meta c)))
      (map VInt [0; 0] ++ n4_values c sig).

Section Collaborators.
Context `{Crypto}.

Section PerClass.
Variable cls : klass.

(** The RoT keys are on the curve of the class. *)
Definition keys_on_curve (rot_pub_keys : list string) : Prop :=
  Forall (fun path => exists x y,
            load_public_key path = Ok (EllipticCurvePublicKey x y (KEY_LENGTH cls)))
         rot_pub_keys.

(** The digest named after that curve has the hash length of the class. *)
Definition digest_has_hash_length : Prop :=
  forall data h,
    hash ("sha" +:+ string_of_Z (KEY_LENGTH cls)) data = Ok h ->
    length h = HASH_LENGTH cls.

End PerClass.

(** What the builder of class [k] writes into the slot of the key at
    [path]: for RSA the 32-byte digest of the key's encoding, for ECC the
    encoding of the key itself, both coordinates on 66 bytes. *)
Definition slot_content (k : klass) (path : string) (d : bytes) : Prop :=
  if is_rsa k then
    exists e n s data,
      load_public_key path = Ok (RSAPublicKey e n s) /\
      rsa_key_to_bytes e n 3%nat None = Ok data /\
      hash "sha256" data = Ok d /\ length d = 32%nat
  else
    exists x y s,
      load_public_key path = Ok (EllipticCurvePublicKey x y s) /\
      ecc_key_to_bytes (EllipticCurvePublicKey x y s) 66 = Ok d.

End Collaborators.

(** ** The records of the CTRK table *)

Section TableRecords.
Context `{Crypto}.

(** The record create_ctrk_table appends for the key at [path]: the
    digest, under the algorithm named after the size of the key, of the
    two coordinates of the key on key_size // 8 bytes each. *)
Definition ctrk_record (path : string) (d : bytes) : Prop :=
  exists x y s data,
    load_public_key path = Ok (EllipticCurvePublicKey x y s) /\
    ecc_key_to_bytes (EllipticCurvePublicKey x y s) (Z.to_nat (s / 8)) = Ok data /\
    hash ("sha" +:+ string_of_Z s) data = Ok d.

End TableRecords.

(** ** Inputs run on the stand-in collaborators *)

Definition three_p256_keys : list string :=
  ["p256_a.pem"; "p256_b.pem"; "p256_c.pem"].

(** Configurations run on the stand-in collaborators. *)
Definition cfg_ecc256 : yaml_config :=
  mkConfig 1 "00112233445566778899aabbccddeeff" 0 ["p256_a.pem"] "p256_b.pem"
    1 0 0x1234 None (Some "rotk.pem").

Definition cfg_n4_three : yaml_config :=
  mkConfig 4 "00112233445566778899aabbccddeeff" 1 three_p256_keys "p256_b.pem"
    1 0 0x1234 None (Some "rotk.pem").

Definition demo_ecc256_unsigned : DebugCredential :=
  Eval vm_compute in
    match create_from_yaml_config (H := Demo.crypto) "2.0" cfg_ecc256 with
    | Ok c => c
    | Raise _ => mkDebugCredential DebugCredentialECC256 0 [] [] [] 0 0 0 [] None None
    end.

Definition demo_ecc256_signed : DebugCredential :=
  Eval vm_compute in fst (sign (H := Demo.crypto) demo_ecc256_unsigned).

Definition demo_n4_unsigned : DebugCredential :=
  Eval vm_compute in
    match create_from_yaml_config (H := Demo.crypto) "2.0" cfg_n4_three with
    | Ok c => c
    | Raise _ => mkDebugCredential DebugCredentialECC256N4Analog 0 [] [] [] 0 0 0 [] None None
    end.

Definition demo_n4_signed : DebugCredential :=
  Eval vm_compute in fst (sign (H := Demo.crypto) demo_n4_unsigned).

Definition demo_n4_parsed : DebugCredential :=
  Eval vm_compute in
    match export demo_n4_signed with
    | Ok out =>
        match parse DebugCredentialECC256N4Analog out 0 with
        | Ok c => c
        | Raise _ => demo_n4_unsigned
        end
    | Raise _ => demo_n4_unsigned
    end.

Definition demo_heap : heap :=
  <[1%positive := demo_n4_parsed]> (<[2%positive := demo_n4_signed]> ∅).

Definition demo_n4_blob : bytes :=
  Eval vm_compute in
    match export demo_n4_signed with
    | Ok out => out
    | Raise _ => []
    end.

(** ** info *)

Definition nl : string := String (Ascii.ascii_of_nat 10) EmptyString.

Definition hex_digit_upper (n : Z) : ascii :=
  match n with
  | 0 => "0" | 1 => "1" | 2 => "2" | 3 => "3" | 4 => "4" | 5 => "5"
  | 6 => "6" | 7 => "7" | 8 => "8" | 9 => "9" | 10 => "A" | 11 => "B"
  | 12 => "C" | 13 => "D" | 14 => "E" | _ => "F"
  end%char.

(** [b.hex().upper()] *)
Fixpoint bytes_hex_upper (b : bytes) : string :=
  match b with
  | [] => EmptyString
  | x :: rest =>
      String (hex_digit_upper (Z_of_byte x / 16))
        (String (hex_digit_upper (Z_of_byte x mod 16)) (bytes_hex_upper rest))
  end.

(** [hex(n)] *)
Definition py_hex (n : Z) : string := HexString.of_Z n.

(** DebugCredential.info, inherited by the fixed-layout classes. *)
Definition base_info (c : DebugCredential) : string :=
  ("Version : " +:+ VERSION (dc_class c) +:+ nl) +:+
  ("SOCC    : " +:+ string_of_Z (socc c) +:+ nl) +:+
  ("UUID    : " +:+ bytes_hex_upper (uuid c) +:+ nl) +:+
  ("CC_SOCC : " +:+ py_hex (cc_socu c) +:+ nl) +:+
  ("CC_VU   : " +:+ py_hex (cc_vu c) +:+ nl) +:+
  ("BEACON  : " +:+ string_of_Z (cc_beacon c) +:+ nl).

(** [i == b] for an int [i] and a bytes object [b]: objects of the two
    types never compare equal. *)
Definition int_eq_bytes (i : Z) (b : bytes) : bool := false.

(** The line N4AnalogMixin.info ends with. *)
Definition ctrk_line (ctrk_records_num : Z) : string :=
  if ctrk_records_num =? 1 then "CRTK table not present " +:+ nl
  else "CRTK table has " +:+ string_of_Z ctrk_records_num +:+ " entries" +:+ nl.

(** N4AnalogMixin.info *)
Definition N4_info (c : DebugCredential) : result string :=
  let msg :=
    ("Version : " +:+ VERSION (dc_class c) +:+ nl) +:+
    ("SOCC    : " +:+ string_of_Z (socc c) +:+ nl) +:+
    ("UUID    : " +:+ bytes_hex_upper (uuid c) +:+ nl) +:+
    ("CC_SOCC : " +:+ py_hex (cc_socu c) +:+ nl) +:+
    ("CC_VU   : " +:+ py_hex (cc_vu c) +:+ nl) +:+
    ("BEACON  : " +:+ string_of_Z (cc_beacon c) +:+ nl) in
  let* b3 := py_index (rot_meta c) 3 in
  let msg :=
    if int_eq_bytes (Z_of_byte b3) [byte_of_Z 0x80]
    then msg +:+ "CA FLAG IS SET " +:+ nl
    else msg in
  let* b0 := py_index (rot_meta c) 0 in
  let ctrk_records_num := Z.shiftr (Z_of_byte b0) 4 in
  Ok (msg +:+ ctrk_line ctrk_records_num).

Definition info (c : DebugCredential) : result string :=
  if is_n4 (dc_class c) then N4_info c else Ok (base_info c).

(** ** Vocabulary of the further properties *)

(** The width of the signature field of a class. *)
Definition signature_size (k : klass) : nat :=
  match k with
  | DebugCredentialRSA2048 => 256
  | DebugCredentialRSA4096 => 512
  | DebugCredentialECC256 | DebugCredentialECC384 | DebugCredentialECC521 => 132
  | DebugCredentialECC256N4Analog => 64
  | DebugCredentialECC384N4Analog => 96
  end.

(** The text [str] gives for a number is read back by [int] and has no
    dot in it; checked on a run of numbers. *)
Fixpoint has_dot (s : string) : bool :=
  match s with
  | EmptyString => false
  | String a s' => Ascii.eqb a "."%char || has_dot s'
  end.

Definition decimal_ok (v : Z) : bool :=
  match py_int (string_of_Z v) with
  | Ok v' => (v' =? v) && negb (has_dot (string_of_Z v))
  | Raise _ => false
  end.

Fixpoint decimal_ok_from (n : nat) (v : Z) : bool :=
  match n with
  | O => true
  | S n' => decimal_ok v && decimal_ok_from n' (v + 1)
  end.

(** The value can be packed under the item: an integer in range, or any
    byte string. *)
Definition packable (f : fmt_item) (v : pyval) : Prop :=
  match f, v with
  | FH, VInt z => 0 <= z < 2 ^ 16
  | FL, VInt z => 0 <= z < 2 ^ 32
  | FS _, VBytes _ => True
  | _, _ => False
  end.

(** ** Further inputs *)

Definition demo_ecc256_blob : bytes :=
  Eval vm_compute in
    match export demo_ecc256_signed with
    | Ok out => out
    | Raise _ => []
    end.

Definition demo_ecc256_parsed : DebugCredential :=
  Eval vm_compute in
    match base_parse demo_ecc256_blob 0 with
    | Ok c => c
    | Raise _ => demo_ecc256_unsigned
    end.

(** The store of [demo_heap] with a third object, an N4 credential that
    has its signature provider. *)
Definition demo_heap3 : heap := <[3%positive := demo_n4_unsigned]> demo_heap.

(** The bytes of the N4 credential with the version 2.0 in the first
    four bytes, as a buffer from elsewhere may carry it. *)
Definition demo_n4_blob_v2 : bytes :=
  [byte_of_Z 2; byte_of_Z 0; byte_of_Z 0; byte_of_Z 0] ++ drop 4 demo_n4_blob.

(** The stand-in collaborators with a signer whose three bytes the
    decoder refuses. *)
Module DemoShort.

Definition do_sign (p : provider) (data : bytes) : result bytes :=
  Ok [byte_of_Z 1; byte_of_Z 2; byte_of_Z 3].

Definition crypto : Crypto := {|
  load_public_key := Demo.load;
  hash := Demo.digest;
  rsa_key_to_bytes := Demo.rsa_to_bytes;
  decode_dss_signature := Demo.decode;
  SignatureProvider_create := Demo.create;
  SignatureProvider_sign := do_sign
|}.

End DemoShort.

(** A credential of a fixed-layout class with a device identifier of
    three bytes. *)
Definition demo_short_uuid : DebugCredential :=
  mkDebugCredential DebugCredentialECC256 1 [byte_of_Z 1; byte_of_Z 2; byte_of_Z 3]
    [] [] 1 0 0x1234 [] (Some [byte_of_Z 7]) (Some None).

(** * The EdgeLock 2GO client utilities (spsdk/el2go/api_utils.py)

    The parts of the module that compute: job sizes, the split of device
    identifiers into jobs, the domain check, the ignored fuse indexes, the
    reading of a generation-status response, the serialization of
    downloaded provisionings and the user-configuration block.  The HTTP
    requests, the device database, base64 and the float division under
    [math.ceil] are collaborators and are taken as parameters. *)
Module El2go.

Inductive exn :=
| SPSDKError (msg : string)
| SPSDKHTTPClientError (status_code : Z)
| SPSDKUnsupportedOperation (msg : string)
| ZeroDivisionError
| IndexError
| KeyError (key : string)
| StopIteration
| OverflowError
| StructError
| ValueError
| DecodeError.

Inductive result (A : Type) :=
| Ok (a : A)
| Raise (e : exn).
Arguments Ok {A} a.
Arguments Raise {A} e.

Definition bind {A B} (r : result A) (k : A -> result B) : result B :=
  match r with
  | Ok a => k a
  | Raise e => Raise e
  end.

Notation "'do*' x ':=' r 'in' k" := (bind r (fun x => k))
  (at level 10, x pattern, r at level 100, k at level 200).

(** ** calculate_jobs and split_uuids_to_jobs *)

(** The ceiling of the exact quotient, for a positive divisor. *)
Definition exact_ceil_div (a b : Z) : Z := (a + b - 1) / b.

(** What [math.ceil(a / b)] is taken to be for two ints: division by
    zero raises; for [0 <= a < 2^53] and [0 < b < 2^53] the float
    quotient is close enough to the exact one for its ceiling to be the
    exact ceiling.  Outside this range nothing is assumed. *)
Definition ceil_div_spec (ceil_div : Z -> Z -> result Z) : Prop :=
  (forall a, ceil_div a 0 = Raise ZeroDivisionError) /\
  (forall a b, 0 <= a < 2 ^ 53 -> 0 < b < 2 ^ 53 ->
               ceil_div a b = Ok (exact_ceil_div a b)).

(** A division that meets [ceil_div_spec], exact on all ints. *)
Definition exact_ceil (a b : Z) : result Z :=
  if b =? 0 then Raise ZeroDivisionError else Ok (exact_ceil_div a b).

Section Jobs.
Variable ceil_div : Z -> Z -> result Z.

(** [for i in range(n): result[i] -= 1], from index [i] on. *)
Fixpoint decrement_loop (n i : nat) (res : list Z) : result (list Z) :=
  match n with
  | O => Ok res
  | S n' =>
      match res !! i with
      | Some x => decrement_loop n' (S i) (<[i := x - 1]> res)
      | None => Raise IndexError
      end
  end.

Definition calculate_jobs (uuid_count max_job_size : Z) : result (list Z) :=
  do* jobs := ceil_div uuid_count max_job_size in
  do* size := ceil_div uuid_count jobs in
  let res := replicate (Z.to_nat jobs) size in
  let extra := size * jobs - uuid_count in
  decrement_loop (Z.to_nat extra) 0 res.

(** [[next(iterator) for _ in range(n)]]: the items taken and the rest of
    the iterator. *)
Fixpoint next_n (n : nat) (iterator : list string)
    : result (list string * list string) :=
  match n with
  | O => Ok ([], iterator)
  | S n' =>
      match iterator with
      | [] => Raise StopIteration
      | x :: rest =>
          do* gr := next_n n' rest in
          Ok (x :: fst gr, snd gr)
      end
  end.

Fixpoint split_loop (job_sizes : list Z) (iterator : list string)
    : result (list (list string)) :=
  match job_sizes with
  | [] => Ok []
  | job_size :: sizes =>
      do* gr := next_n (Z.to_nat job_size) iterator in
      do* jobs := split_loop sizes (snd gr) in
      Ok (fst gr :: jobs)
  end.

Definition split_uuids_to_jobs (uuids : list string) (max_job_size : Z)
    : result (list (list string)) :=
  do* job_sizes := calculate_jobs (Z.of_nat (length uuids)) max_job_size in
  split_loop job_sizes uuids.

End Jobs.

(** ** _sanitize_domains *)

Definition EL2GO_DOMAINS : list string := ["MATTER"; "RTP"].

(** [str.upper] on ASCII text: the letters a to z are raised, every other
    character stays. *)
Definition upper_ascii (a : ascii) : ascii :=
  let n := Ascii.N_of_ascii a in
  if ((97 <=? n) && (n <=? 122))%N then Ascii.ascii_of_N (n - 32) else a.

Fixpoint ascii_upper (s : string) : string :=
  match s with
  | EmptyString => EmptyString
  | String a s' => String (upper_ascii a) (ascii_upper s')
  end.

(** The text has no character outside ASCII. *)
Fixpoint ascii_text (s : string) : bool :=
  match s with
  | EmptyString => true
  | String a s' => (Ascii.N_of_ascii a <? 128)%N && ascii_text s'
  end.

Fixpoint check_domains (sanitized : list string) : result unit :=
  match sanitized with
  | [] => Ok tt
  | domain :: rest =>
      if bool_decide (domain ∈ EL2GO_DOMAINS) then check_domains rest
      else Raise (SPSDKError ("Invalid domain type: " +:+ domain))
  end.

Section Domains.
(** [str.upper] on text with a character outside ASCII, where Python
    follows the case tables of Unicode: taken as given. *)
Variable unicode_upper : string -> string.

(** [str.upper] *)
Definition py_upper (s : string) : string :=
  if ascii_text s then ascii_upper s else unicode_upper s.

Definition _sanitize_domains (domains : list string) : result (list string) :=
  let sanitized := map py_upper domains in
  do* _ := check_domains sanitized in
  Ok sanitized.

End Domains.

(** ** _get_ignored_otp_indexes *)

(** [l[0::2]] and [l[1::2]] *)
Fixpoint evens {A} (l : list A) : list A :=
  match l with
  | [] => []
  | a :: rest => a :: match rest with [] => [] | _ :: rest' => evens rest' end
  end.

Definition odds {A} (l : list A) : list A :=
  match l with
  | [] => []
  | _ :: rest => evens rest
  end.

(** [range(a, b)] *)
Definition py_range (a b : Z) : list Z :=
  map (fun i => a + Z.of_nat i) (seq 0 (Z.to_nat (b - a))).

(** The function, after the two database lists are read. *)
Definition _get_ignored_otp_indexes (ignored_otp ignored_otp_ranges : list Z)
    : list Z :=
  ignored_otp ++
  concat (map (fun se => py_range (fst se) (snd se + 1))
              (zip (evens ignored_otp_ranges) (odds ignored_otp_ranges))).

(** ** get_generation_status *)

Definition OK_STATES : list string :=
  ["GENERATION_COMPLETED"; "GENERATION_ON_CONNECTION"; "PROVISIONING_COMPLETED"].
Definition BAD_STATES : list string := ["GENERATION_FAILED"; "PROVISIONING_FAILED"].
Definition WAIT_STATES : list string := ["GENERATION_TRIGGERED"].

(** A response: its status code and, of its JSON body, the
    provisioningState of each entry of "content". *)
Record status_response := mkStatusResponse {
  status_code : Z;
  content : list string
}.

(** response_handling: a status code of 400 or more raises; of the error
    only the status code is kept. *)
Definition response_handling (code : Z) : result unit :=
  if 400 <=? code then Raise (SPSDKHTTPClientError code) else Ok tt.

Fixpoint status_loop (correlation_id : string) (content : list string)
    : result string :=
  match content with
  | [] => Ok "GENERATION_COMPLETED"
  | state :: rest =>
      if bool_decide (state ∈ BAD_STATES) then
        Raise (SPSDKError
                 ("Generating of Secure Objects failed. Correlation ID: " +:+ correlation_id))
      else if bool_decide (state ∈ WAIT_STATES) then Ok state
      else status_loop correlation_id rest
  end.

(** [", ".join(l)] *)
Fixpoint join_comma (l : list string) : string :=
  match l with
  | [] => EmptyString
  | [a] => a
  | a :: rest => a +:+ ", " +:+ join_comma rest
  end.

(** A state that decides nothing: neither a failure nor a waiting state. *)
Definition neutral (state : string) : Prop :=
  (state ∉ BAD_STATES) /\ (state ∉ WAIT_STATES).

(** get_generation_status once the request has returned [response]. *)
Definition get_generation_status (correlation_id device_id : string)
    (domains : list string) (response : status_response) : result string :=
  do* _ := response_handling (status_code response) in
  match content response with
  | [] =>
      Raise (SPSDKError ("No Secure Objects found for device " +:+ device_id +:+
                         " using domain(s): " +:+ join_comma domains))
  | _ => status_loop correlation_id (content response)
  end.

(** ** _find_device_group_id *)

(** A group identifier, an int or a string as the JSON or the caller has
    it; [str] of it, and its truth value. *)
Inductive group_id :=
| GInt (z : Z)
| GStr (s : string).

Definition str_id (g : group_id) : string :=
  match g with
  | GInt z => string_of_Z z
  | GStr s => s
  end.

Definition truthy_id (g : option group_id) : bool :=
  match g with
  | None => false
  | Some (GInt z) => negb (z =? 0)
  | Some (GStr s) => negb (String.eqb s "")
  end.

(** A response: its status code and, of its JSON body, the "id" of each
    entry of "content". *)
Record groups_response := mkGroupsResponse {
  code : Z;
  ids : list group_id
}.

Section FindGroup.
(** The request, as a function of the URL, and [repr] of a list. *)
Variable request : string -> groups_response.
Variable repr_list : list group_id -> string.
Variable nc12 : string.

Definition groups_url : string :=
  "/api/v1/products/" +:+ nc12 +:+ "/device-groups".

Definition device_url (check_id : group_id) (device_id : string) : string :=
  "/api/v1/products/" +:+ nc12 +:+ "/device-groups/" +:+ str_id check_id +:+
  "/devices/" +:+ device_id.

(** A candidate the search goes past: its answer is not 200 and is 404
    or another code below 400. *)
Definition passed (device_id : string) (check_id : group_id) : Prop :=
  code (request (device_url check_id device_id)) <> 200 /\
  (code (request (device_url check_id device_id)) = 404 \/
   code (request (device_url check_id device_id)) < 400).

Fixpoint find_loop (device_id : string) (candidates : list group_id)
    : result (option string) :=
  match candidates with
  | [] => Ok None
  | check_id :: rest =>
      let response := request (device_url check_id device_id) in
      if code response =? 200 then Ok (Some (str_id check_id))
      else if code response =? 404 then find_loop device_id rest
      else
        do* _ := response_handling (code response) in
        find_loop device_id rest
  end.

(** The groups of the product, as the server lists them. *)
Definition listed_groups : result (list group_id) :=
  let response := request groups_url in
  do* _ := response_handling (code response) in
  Ok (ids response).

Definition find_candidates (group : option group_id) : result (list group_id) :=
  match group with
  | Some g => if truthy_id group then Ok [g] else listed_groups
  | None => listed_groups
  end.

Definition _find_device_group_id (device_id : string) (group : option group_id)
    : result string :=
  do* candidates := find_candidates group in
  do* found := find_loop device_id candidates in
  match found with
  | Some s => Ok s
  | None =>
      Raise (SPSDKError ("Device " +:+ device_id +:+ " was not found in product " +:+
                         nc12 +:+ " for group(s): " +:+ repr_list candidates))
  end.

End FindGroup.

(** A server that lists three groups and has the device "dev" in the
    second. *)
Definition demo_request (url : string) : groups_response :=
  if String.eqb url "/api/v1/products/123/device-groups"
  then mkGroupsResponse 200 [GInt 7; GInt 8; GInt 9]
  else if String.eqb url "/api/v1/products/123/device-groups/8/devices/dev"
  then mkGroupsResponse 200 []
  else mkGroupsResponse 404 [].

(** ** get_el2go_otp_binary: the records written *)

(** A register as the function reads it: its fuse index, its width in
    bits and its value. *)
Record RegsRegister := mkRegsRegister {
  otp_index : Z;
  width : Z;
  reg_value : Z
}.

(** [struct.pack(">BBHBB", b0, b1, h, b2, b3)] *)
Definition pack_BBHBB (b0 b1 h b2 b3 : Z) : result bytes :=
  if (0 <=? b0) && (b0 <? 256) && (0 <=? b1) && (b1 <? 256) &&
     (0 <=? h) && (h <? 65536) &&
     (0 <=? b2) && (b2 <? 256) && (0 <=? b3) && (b3 <? 256)
  then Ok [byte_of_Z b0; byte_of_Z b1; byte_of_Z (h / 256); byte_of_Z h;
           byte_of_Z b2; byte_of_Z b3]
  else Raise StructError.

(** [int.to_bytes(v, length=len, byteorder="big")] *)
Definition to_bytes_be (v len : Z) : result bytes :=
  if len <? 0 then Raise ValueError
  else if (0 <=? v) && (v <? 2 ^ (8 * len))
       then Ok (rev (le_bytes (Z.to_nat len) v))
       else Raise OverflowError.

(** The value of bytes read as a big-endian number. *)
Definition be_value (b : bytes) : Z := le_value (rev b).

Fixpoint otp_loop (ignored : list Z) (user_regs : list RegsRegister) (data : bytes)
    : result bytes :=
  match user_regs with
  | [] => Ok data
  | user_reg :: rest =>
      if bool_decide (otp_index user_reg ∈ ignored) then otp_loop ignored rest data
      else
        do* head := pack_BBHBB 0x40 2 (otp_index user_reg) 0x41 (width user_reg / 8) in
        do* value := to_bytes_be (reg_value user_reg) (width user_reg / 8) in
        otp_loop ignored rest ((data ++ head) ++ value)
  end.

(** get_el2go_otp_binary from the point where the registers of the user
    configuration are decoded, the ignored indexes being those of the two
    database lists. *)
Definition otp_binary (ignored_otp ignored_otp_ranges : list Z)
    (user_regs : list RegsRegister) : result bytes :=
  match user_regs with
  | [] => Raise (SPSDKError "No OTP fuses were decoded from the user configuration.")
  | _ => otp_loop (_get_ignored_otp_indexes ignored_otp ignored_otp_ranges) user_regs []
  end.

(** The record of one register: tag 0x40, length 2, the index; tag 0x41,
    the length of the value, the value. *)
Definition otp_record (user_reg : RegsRegister) : result bytes :=
  do* head := pack_BBHBB 0x40 2 (otp_index user_reg) 0x41 (width user_reg / 8) in
  do* value := to_bytes_be (reg_value user_reg) (width user_reg / 8) in
  Ok (head ++ value).

(** ** serialize_provisionings *)

(** An entry of "rtpProvisionings", a JSON object, as the serializers
    read it: the text under "state" when the key is there; what
    ["apdus"]["createApdu"]["apdu"] gives, a text or the KeyError of the
    first key that is missing; whether "provisioningId" is there. *)
Record rtp_prov := mkRtpProv {
  state : option string;
  apdu : result string;
  provisioningId : option string
}.

(** [rtp_prov["state"]] *)
Definition get_state (p : rtp_prov) : result string :=
  match state p with
  | Some st => Ok st
  | None => Raise (KeyError "state")
  end.

(** The warning of the serializers, of which the reading of
    [rtp_prov['provisioningId']] for its text is kept. *)
Definition warn_provisioning_id (p : rtp_prov) : result unit :=
  match provisioningId p with
  | Some _ => Ok tt
  | None => Raise (KeyError "provisioningId")
  end.

Section Serialize.
Variable b64decode : string -> result bytes.

(** The body of the loop over the entries: the three tests in their
    order. *)
Definition serialize_entry (data : bytes) (p : rtp_prov) : result bytes :=
  do* st := get_state p in
  do* data :=
    if String.eqb st "GENERATION_COMPLETED" then
      do* text := apdu p in
      do* decoded := b64decode text in
      Ok (data ++ decoded)
    else Ok data in
  do* _ :=
    if String.eqb st "GENERATION_ON_CONNECTION" then warn_provisioning_id p
    else Ok tt in
  do* _ :=
    if String.eqb st "PROVISIONING_COMPLETED" then warn_provisioning_id p
    else Ok tt in
  Ok data.

(** What one entry adds to the bytes: the decoded text of an entry in
    state GENERATION_COMPLETED, nothing for an entry in another state,
    which must carry its "provisioningId" when the state is one of the
    two the serializers warn about. *)
Definition entry_bytes (p : rtp_prov) (chunk : bytes) : Prop :=
  exists st,
    state p = Some st /\
    if String.eqb st "GENERATION_COMPLETED"
    then exists text, apdu p = Ok text /\ b64decode text = Ok chunk
    else chunk = [] /\
         (st = "GENERATION_ON_CONNECTION" \/ st = "PROVISIONING_COMPLETED" ->
          provisioningId p <> None).

Fixpoint serialize_entries (data : bytes) (ps : list rtp_prov) : result bytes :=
  match ps with
  | [] => Ok data
  | p :: rest =>
      do* data' := serialize_entry data p in
      serialize_entries data' rest
  end.

(** _serialize_single_provisioning, on the "rtpProvisionings" of one
    device. *)
Definition _serialize_single_provisioning (provisioning : list rtp_prov)
    : result bytes :=
  serialize_entries [] provisioning.

Fixpoint serialize_devices (data : bytes) (provisionings : list (list rtp_prov))
    : result bytes :=
  match provisionings with
  | [] => Ok data
  | dev_prov :: rest =>
      do* data' := serialize_entries data dev_prov in
      serialize_devices data' rest
  end.

Definition serialize_provisionings (provisionings : list (list rtp_prov))
    : result bytes :=
  serialize_devices [] provisionings.

End Serialize.

(** ** create_user_config *)

Inductive ProvisioningMethod := DISPATCH_FW | FW_USER_CONFIG | FW_DATA_SPLIT.

(** [v.to_bytes(length=4, byteorder="little")] *)
Definition to_bytes_le4 (v : Z) : result bytes :=
  if (0 <=? v) && (v <? 2 ^ 32) then Ok (le_bytes 4 v) else Raise OverflowError.

Definition ELUC : bytes := [x45; x4c; x55; x43]%byte.

(** The function on a client with the given provisioning method and
    secure-objects address, the two other addresses being those of the
    device database. *)
Definition create_user_config (prov_method : ProvisioningMethod)
    (fw_read_address user_data_address tp_data_address : Z)
    : result (bytes * Z * Z) :=
  match prov_method with
  | FW_USER_CONFIG =>
      do* ud := to_bytes_le4 user_data_address in
      do* tp := to_bytes_le4 tp_data_address in
      Ok (ELUC ++ ud ++ tp ++ zeros 20, fw_read_address, user_data_address)
  | FW_DATA_SPLIT => Ok ([], fw_read_address, tp_data_address)
  | DISPATCH_FW => Ok ([], 0, tp_data_address)
  end.

End El2go.

(** * Properties *)

(** ** The inputs above are what the code builds *)

Lemma demo_credentials_built :
  create_from_yaml_config (H := Demo.crypto) "2.0" cfg_ecc256 = Ok demo_ecc256_unsigned /\
  sign (H := Demo.crypto) demo_ecc256_unsigned = (demo_ecc256_signed, Ok tt) /\
  create_from_yaml_config (H := Demo.crypto) "2.0" cfg_n4_three = Ok demo_n4_unsigned /\
  sign (H := Demo.crypto) demo_n4_unsigned = (demo_n4_signed, Ok tt) /\
  export demo_n4_signed = Ok demo_n4_blob /\
  parse DebugCredentialECC256N4Analog demo_n4_blob 0 = Ok demo_n4_parsed.
Proof. repeat split; vm_compute; reflexivity. Qed.

(** ** Class resolution *)

Lemma version_mapping_lookup (version : string) :
  _version_mapping !! version =
    if decide (version = "1.0") then Some DebugCredentialRSA2048
    else if decide (version = "1.1") then Some DebugCredentialRSA4096
    else if decide (version = "2.0") then Some DebugCredentialECC256
    else if decide (version = "2.1") then Some DebugCredentialECC384
    else if decide (version = "2.2") then Some DebugCredentialECC521
    else None.
Proof.
  unfold _version_mapping.
  repeat (rewrite lookup_insert; case_decide; [ subst; try done | ]);
    repeat (case_decide; [ congruence | ]).
  apply lookup_empty.
Qed.

Lemma n4analog_version_mapping_lookup (version : string) :
  _n4analog_version_mapping !! version =
    if decide (version = "2.0") then Some DebugCredentialECC256N4Analog
    else if decide (version = "2.1") then Some DebugCredentialECC384N4Analog
    else None.
Proof.
  unfold _n4analog_version_mapping.
  repeat (rewrite lookup_insert; case_decide; [ subst; try done | ]);
    repeat (case_decide; [ congruence | ]).
  apply lookup_empty.
Qed.

Lemma get_class_fixed (version : string) (socc : Z) (k : klass) :
  socc <> 4 ->
  _get_class version socc = Ok k <-> fixed_registry version k.
Proof.
  intros Hs. unfold _get_class, dict_get, fixed_registry.
  destruct (Z.eqb_spec socc 4) as [->|_]; [done|].
  rewrite version_mapping_lookup.
  repeat case_decide; subst; split; intros Hk;
    try (injection Hk as <-); try discriminate; try tauto;
    try (destruct Hk as [[? ?]|[[? ?]|[[? ?]|[[? ?]|[? ?]]]]];
         subst; try done; congruence).
Qed.

Lemma get_class_variable (version : string) (k : klass) :
  _get_class version 4 = Ok k <-> variable_registry version k.
Proof.
  unfold _get_class, dict_get, variable_registry. simpl.
  rewrite n4analog_version_mapping_lookup.
  repeat case_decide; subst; split; intros Hk;
    try (injection Hk as <-); try discriminate; try tauto;
    try (destruct Hk as [[? ?]|[? ?]]; subst; try done; congruence).
Qed.

Lemma get_class_raises (version : string) (socc : Z) :
  _get_class version socc = Raise (UnsupportedVariant version) \/
  exists k, _get_class version socc = Ok k.
Proof.
  unfold _get_class, dict_get.
  destruct (socc =? 4).
  - destruct (_n4analog_version_mapping !! version); eauto.
  - destruct (_version_mapping !! version); eauto.
Qed.

(** C8. Resolution dispatches on two levels: soc_class 4 resolves the
    version in the variable-layout registry, any other soc_class resolves
    it in the fixed-layout registry; version "2.0" names a different
    class in each; a pair without an entry raises the lookup error
    (UnsupportedVariant), as "9.9" with soc_class 1 does. *)
Theorem get_class_two_level_dispatch :
  (forall version socc k,
      _get_class version socc = Ok k <->
      (socc = 4 /\ variable_registry version k) \/
      (socc <> 4 /\ fixed_registry version k)) /\
  (forall version socc,
      (forall k, _get_class version socc <> Ok k) <->
      _get_class version socc = Raise (UnsupportedVariant version)) /\
  _get_class "2.0" 4 = Ok DebugCredentialECC256N4Analog /\
  (forall socc, _get_class "2.0" socc =
     Ok (if socc =? 4 then DebugCredentialECC256N4Analog else DebugCredentialECC256)) /\
  _get_class "9.9" 1 = Raise (UnsupportedVariant "9.9").
Proof.
  split; [|split; [|split; [|split]]].
  - intros version socc k. destruct (decide (socc = 4)) as [->|Hs].
    + rewrite get_class_variable. split; [tauto|]. intros [[_ ?]|[? _]]; done.
    + rewrite (get_class_fixed _ _ _ Hs). split; [tauto|]. intros [[? _]|[_ ?]]; done.
  - intros version socc. split.
    + intros Hno. destruct (get_class_raises version socc) as [?|[k Hk]]; [done|].
      by destruct (Hno k).
    + intros -> k. discriminate.
  - reflexivity.
  - intros socc. unfold _get_class. by destruct (socc =? 4).
  - reflexivity.
Qed.

(** ** Bytes and little-endian integers *)

Lemma Z_of_byte_range (b : Byte.byte) : 0 <= Z_of_byte b < 256.
Proof.
  unfold Z_of_byte. pose proof (Byte.to_N_bounded b) as Hb. lia.
Qed.

Lemma Z_of_byte_of_Z (z : Z) : Z_of_byte (byte_of_Z z) = z mod 256.
Proof.
  unfold Z_of_byte, byte_of_Z.
  assert (Hm : 0 <= z mod 256 < 256) by (apply Z.mod_pos_bound; lia).
  destruct (Byte.of_N (Z.to_N (z mod 256))) as [b|] eqn:Hb.
  - apply Byte.to_of_N in Hb. rewrite Hb. lia.
  - apply Byte.of_N_None_iff in Hb. lia.
Qed.

Lemma byte_of_Z_of_byte (b : Byte.byte) : byte_of_Z (Z_of_byte b) = b.
Proof.
  unfold byte_of_Z. pose proof (Z_of_byte_range b) as Hr.
  rewrite Z.mod_small by lia. unfold Z_of_byte.
  rewrite N2Z.id, Byte.of_to_N. reflexivity.
Qed.

Lemma lor_low_high (a x : Z) :
  0 <= a < 256 -> Z.lor a (Z.shiftl x 8) = a + 256 * x.
Proof.
  intros Ha. rewrite Z.shiftl_mul_pow2 by lia.
  replace (a + 256 * x) with (x * 2 ^ 8 + a) by lia.
  rewrite <- Z.lor_comm.
  symmetry. rewrite <- Z.shiftl_mul_pow2 by lia.
  apply Z.add_nocarry_lor.
  apply Z.bits_inj'. intros n Hn. rewrite Z.land_spec, Z.bits_0.
  destruct (Z.lt_ge_cases n 8).
  - rewrite Z.shiftl_spec_low by lia. reflexivity.
  - replace a with (a mod 2 ^ 8) by (apply Z.mod_small; lia).
    rewrite Z.mod_pow2_bits_high by lia. apply andb_false_r.
Qed.

Lemma le_bytes_length (n : nat) (v : Z) : length (le_bytes n v) = n.
Proof. revert v. induction n; intros; simpl; auto. Qed.

Lemma le_value_range (bs : bytes) : 0 <= le_value bs < 2 ^ (8 * blen bs).
Proof.
  unfold blen. induction bs as [|b bs IH]; simpl le_value.
  - simpl. lia.
  - pose proof (Z_of_byte_range b).
    rewrite lor_low_high by lia.
    replace (8 * Z.of_nat (length (b :: bs))) with (8 + 8 * Z.of_nat (length bs))
      by (simpl length; lia).
    rewrite Z.pow_add_r by lia. change (2 ^ 8) with 256. lia.
Qed.

Lemma le_value_le_bytes (n : nat) (v : Z) :
  0 <= v < 2 ^ (8 * Z.of_nat n) -> le_value (le_bytes n v) = v.
Proof.
  revert v. induction n as [|n IH]; intros v Hv.
  - simpl in *. lia.
  - simpl le_bytes. simpl le_value.
    rewrite Z_of_byte_of_Z.
    assert (0 <= v mod 256 < 256) by (apply Z.mod_pos_bound; lia).
    rewrite lor_low_high by lia.
    rewrite Z.shiftr_div_pow2 by lia. change (2 ^ 8) with 256.
    rewrite IH.
    + pose proof (Z.div_mod v 256). lia.
    + replace (8 * Z.of_nat (S n)) with (8 + 8 * Z.of_nat n) in Hv by lia.
      rewrite Z.pow_add_r in Hv by lia. change (2 ^ 8) with 256 in Hv.
      split; [apply Z.div_pos; lia|].
      apply Z.div_lt_upper_bound; lia.
Qed.

Lemma le_bytes_le_value (bs : bytes) : le_bytes (length bs) (le_value bs) = bs.
Proof.
  induction bs as [|b bs IH]; [reflexivity|].
  simpl length. simpl le_value. simpl le_bytes.
  pose proof (Z_of_byte_range b).
  rewrite lor_low_high by lia.
  rewrite Z.shiftr_div_pow2 by lia. change (2 ^ 8) with 256.
  f_equal.
  - rewrite <- (byte_of_Z_of_byte b) at 2. unfold byte_of_Z.
    replace ((Z_of_byte b + 256 * le_value bs) mod 256) with (Z_of_byte b mod 256);
      [reflexivity|].
    replace (Z_of_byte b + 256 * le_value bs) with (Z_of_byte b + le_value bs * 256) by lia.
    rewrite Z.mod_add by lia. reflexivity.
  - replace ((Z_of_byte b + 256 * le_value bs) / 256) with (le_value bs); [exact IH|].
    replace (Z_of_byte b + 256 * le_value bs) with (Z_of_byte b + le_value bs * 256) by lia.
    rewrite Z.div_add by lia.
    rewrite (Z.div_small (Z_of_byte b)) by lia. lia.
Qed.

(** ** The flags word of the N4 RoT metadata *)

Lemma pack_L_ok (v : Z) (b : bytes) :
  pack [FL] [VInt v] = Ok b ->
  0 <= v < 2 ^ 32 /\ b = le_bytes 4 v.
Proof.
  simpl. destruct (0 <=? v) eqn:H0; destruct (v <? 2 ^ 32) eqn:H1; simpl;
    try discriminate.
  intros [= <-]. split; [lia|reflexivity].
Qed.

Lemma pack_L_total (v : Z) :
  0 <= v < 2 ^ 32 -> pack [FL] [VInt v] = Ok (le_bytes 4 v).
Proof.
  intros Hv. simpl.
  destruct (Z.leb_spec 0 v); [|lia]. destruct (Z.ltb_spec v (2 ^ 32)); [|lia].
  reflexivity.
Qed.

Lemma flags_word_bit31 (used_root_cert count : Z) :
  Z.testbit (flags_word used_root_cert count) 31 = true.
Proof.
  unfold flags_word. rewrite !Z.lor_spec.
  replace (Z.testbit (Z.shiftl 1 31) 31) with true by reflexivity.
  rewrite orb_true_r. reflexivity.
Qed.

Lemma flags_word_sum (i n : Z) :
  0 <= i < 16 -> 0 <= n < 16 ->
  flags_word i n = 2 ^ 31 + 256 * i + 16 * n.
Proof.
  intros Hi Hn.
  replace i with (Z.of_nat (Z.to_nat i)) by lia.
  replace n with (Z.of_nat (Z.to_nat n)) by lia.
  set (a := Z.to_nat i). set (b := Z.to_nat n).
  assert (Ha : (a < 16)%nat) by lia. assert (Hb : (b < 16)%nat) by lia.
  clearbody a b. clear Hi Hn.
  do 16 (destruct a as [|a];
         [do 16 (destruct b as [|b]; [reflexivity|]); lia|]).
  lia.
Qed.

(** The flags are packed as soon as the index and the count fit their
    four-bit fields. *)
Lemma calculate_flags_total (used_root_cert : Z) (rot_pub_keys : list string) :
  0 <= used_root_cert < 16 -> (length rot_pub_keys < 16)%nat ->
  calculate_flags used_root_cert rot_pub_keys
  = Ok (le_bytes 4 (2 ^ 31 + 256 * used_root_cert + 16 * Z.of_nat (length rot_pub_keys))).
Proof.
  intros Hi Hn. unfold calculate_flags.
  set (n := Z.of_nat (length rot_pub_keys)).
  assert (Hn' : 0 <= n < 16) by lia.
  assert (Hw : flags_word used_root_cert n = 2 ^ 31 + 256 * used_root_cert + 16 * n).
  { apply flags_word_sum; lia. }
  rewrite Hw. apply pack_L_total. lia.
Qed.

(** C7, counterexample. With three RoT keys and selected index 1 the
    flags word is 0x80000130, not 0x80000132. *)
Lemma calculate_flags_scenario_counterexample :
  exists b, calculate_flags 1 ["k0"; "k1"; "k2"] = Ok b /\
            le_value b = 0x80000130 /\ le_value b <> 0x80000132.
Proof.
  eexists. split; [reflexivity|]. split; [reflexivity|]. discriminate.
Qed.

(** C7, amended. Whenever the flags are packed, they are the four
    little-endian bytes of (1 << 31) | (index << 8) | (count << 4), with
    bit 31 set; with three RoT keys and selected index 1 the word is
    0x80000130. *)
Theorem calculate_flags_word (used_root_cert : Z) (rot_pub_keys : list string)
    (b : bytes) :
  calculate_flags used_root_cert rot_pub_keys = Ok b ->
  length b = 4%nat /\
  le_value b =
    Z.lor (Z.lor (Z.shiftl 1 31) (Z.shiftl used_root_cert 8))
          (Z.shiftl (Z.of_nat (length rot_pub_keys)) 4) /\
  Z.testbit (le_value b) 31 = true /\
  (used_root_cert = 1 -> length rot_pub_keys = 3%nat -> le_value b = 0x80000130).
Proof.
  unfold calculate_flags. intros Hb.
  apply pack_L_ok in Hb as [Hr ->].
  rewrite le_bytes_length, le_value_le_bytes by exact Hr.
  split; [reflexivity|]. split; [reflexivity|].
  split; [apply flags_word_bit31|].
  intros -> ->. reflexivity.
Qed.

Lemma calculate_flags_word_witness :
  calculate_flags 1 ["k0"; "k1"; "k2"] = Ok [x30; x01; x00; x80]%byte /\
  length [x30; x01; x00; x80]%byte = 4%nat /\
  le_value [x30; x01; x00; x80]%byte =
    Z.lor (Z.lor (Z.shiftl 1 31) (Z.shiftl 1 8))
          (Z.shiftl (Z.of_nat (length ["k0"; "k1"; "k2"])) 4) /\
  Z.testbit (le_value [x30; x01; x00; x80]%byte) 31 = true /\
  (1 = 1 -> length ["k0"; "k1"; "k2"] = 3%nat ->
   le_value [x30; x01; x00; x80]%byte = 0x80000130).
Proof.
  split; [reflexivity|].
  apply (calculate_flags_word 1 ["k0"; "k1"; "k2"] [x30; x01; x00; x80]%byte).
  reflexivity.
Defined.

(** ** Length of the N4 RoT metadata *)

Lemma unpack_from_ok (fmt : format) (data : bytes) (offset : Z) (vs : list pyval) :
  unpack_from fmt data offset = Ok vs ->
  exists off : nat,
    (off + calcsize fmt <= length data)%nat /\
    Z.of_nat off = (if offset <? 0 then offset + blen data else offset) /\
    vs = unpack fmt (drop off data).
Proof.
  unfold unpack_from, blen.
  set (o := if offset <? 0 then offset + Z.of_nat (length data) else offset).
  destruct (o <? 0) eqn:Ho; [discriminate|].
  destruct (Z.of_nat (length data) - o <? Z.of_nat (calcsize fmt)) eqn:Hs;
    [discriminate|].
  simpl. intros [= <-]. exists (Z.to_nat o).
  apply Z.ltb_ge in Ho, Hs. repeat split; lia.
Qed.

Lemma take_drop_length {A} (k off : nat) (l : list A) :
  (off + k <= length l)%nat -> length (take k (drop off l)) = k.
Proof. intros Hl. rewrite length_take, length_drop. lia. Qed.

Section RotMetaLength.
Context `{Crypto}.
Variable cls : klass.

Lemma ctrk_table_loop_length (rot_pub_keys : list string) (acc t : bytes) :
  keys_on_curve cls rot_pub_keys -> digest_has_hash_length cls ->
  ctrk_table_loop rot_pub_keys acc = Ok t ->
  length t = (length acc + length rot_pub_keys * HASH_LENGTH cls)%nat.
Proof.
  intros Hk Hh. revert acc. induction Hk as [|path rest (x & y & Hload) _ IH];
    intros acc; simpl.
  - intros [= <-]. lia.
  - rewrite Hload. simpl.
    destruct (ecc_public_numbers_to_bytes x y _) as [d|]; simpl; [|discriminate].
    destruct (hash _ d) as [h|] eqn:Hd; simpl; [|discriminate].
    intros Ht. apply IH in Ht. rewrite Ht, length_app, (Hh _ _ Hd). lia.
Qed.

Lemma N4_parse_rot_meta (data : bytes) (offset : Z) (c : DebugCredential) :
  N4_parse cls data offset = Ok c ->
  exists flags table,
    0 <= flags < 2 ^ 32 /\
    rot_meta c = le_bytes 4 flags ++ table /\
    length table =
      if 1 <? Z.shiftr (Z.land flags 0xF0) 4
      then (Z.to_nat (Z.shiftr (Z.land flags 0xF0) 4) * HASH_LENGTH cls)%nat
      else 0%nat.
Proof.
  unfold N4_parse.
  destruct (unpack_from format_head data 0) as [head|] eqn:Hh; [|discriminate].
  apply unpack_from_ok in Hh as (off & _ & _ & ->).
  cbn [bind unpack format_head unpack_item item_size].
  set (flags := le_value _).
  destruct (Z.land flags 0x80000000 =? 0); [discriminate|].
  set (n := Z.shiftr (Z.land flags 0xF0) 4).
  destruct (1 <? n) eqn:Hn.
  - destruct (unpack_from _ data (offset + _)) as [t|] eqn:Ht; [|discriminate].
    apply unpack_from_ok in Ht as (o1 & Hlen & _ & ->).
    cbn [bind unpack unpack_item item_size].
    destruct (pack [FL] [VInt flags]) as [fb|] eqn:Hp; [|discriminate].
    apply pack_L_ok in Hp as [Hr ->].
    cbn [bind].
    destruct (unpack_from _ data _) as [tl|] eqn:Htl; [|discriminate].
    apply unpack_from_ok in Htl as (o2 & _ & _ & ->).
    cbn [bind unpack unpack_item item_size].
    intros [= <-]. cbn [rot_meta].
    eexists flags, _. split; [exact Hr|]. split; [reflexivity|].
    fold n. rewrite Hn. apply take_drop_length.
    unfold calcsize in Hlen. simpl in Hlen. lia.
  - cbn [bind].
    destruct (pack [FL] [VInt flags]) as [fb|] eqn:Hp; [|discriminate].
    apply pack_L_ok in Hp as [Hr ->].
    cbn [bind].
    destruct (unpack_from _ data _) as [tl|] eqn:Htl; [|discriminate].
    apply unpack_from_ok in Htl as (o2 & _ & _ & ->).
    cbn [bind unpack unpack_item item_size].
    intros [= <-]. cbn [rot_meta].
    exists flags, []. split; [exact Hr|]. split; [reflexivity|].
    fold n. rewrite Hn. reflexivity.
Qed.

Lemma records_num_of_app (flags : Z) (table : bytes) :
  0 <= flags < 2 ^ 32 ->
  records_num_of (le_bytes 4 flags ++ table) = Z.shiftr (Z.land flags 0xF0) 4.
Proof.
  intros Hr. unfold records_num_of.
  rewrite take_app_length' by (symmetry; apply le_bytes_length).
  rewrite le_value_le_bytes by exact Hr. reflexivity.
Qed.

(** The table loop returns exactly when every key has its record; the
    table is the records one after the other, in the order of the keys. *)
Lemma ctrk_table_loop_records (rot_pub_keys : list string) (acc t : bytes) :
  ctrk_table_loop rot_pub_keys acc = Ok t <->
  exists digests,
    Forall2 ctrk_record rot_pub_keys digests /\ t = acc ++ concat digests.
Proof.
  revert acc. induction rot_pub_keys as [|path rest IH]; intros acc.
  - cbn [ctrk_table_loop]. split.
    + intros [= <-]. exists []. split; [constructor|]. cbn. by rewrite app_nil_r.
    + intros (digests & Hf & ->). apply Forall2_nil_inv_l in Hf as ->.
      cbn. by rewrite app_nil_r.
  - cbn [ctrk_table_loop]. split.
    + destruct (load_public_key path) as [[e n s|x y s]|] eqn:Hload; cbn [bind];
        try discriminate.
      destruct (ecc_key_to_bytes (EllipticCurvePublicKey x y s) (Z.to_nat (s / 8)))
        as [data|] eqn:Hdata; cbn [bind]; [|discriminate].
      destruct (hash ("sha" +:+ string_of_Z s) data) as [d|] eqn:Hd; cbn [bind];
        [|discriminate].
      intros (digests & Hf & ->)%IH. exists (d :: digests). split.
      * constructor; [|exact Hf]. by exists x, y, s, data.
      * cbn. by rewrite app_assoc.
    + intros (digests & Hf & ->).
      apply Forall2_cons_inv_l in Hf
        as (d & digests' & (x & y & s & data & Hload & Hdata & Hd) & Hf & ->).
      rewrite Hload. cbn [bind]. rewrite Hdata. cbn [bind]. rewrite Hd. cbn [bind].
      apply IH. exists digests'. split; [exact Hf|]. cbn. by rewrite app_assoc.
Qed.

(** C4, amended. With one RoT key the metadata is the four flag bytes,
    whatever the key is.  With any other number of keys the table built
    is one digest per key, in the order of the keys: the digest, under the
    algorithm named after the size of the key, of the two coordinates of
    the key on key_size // 8 bytes each; with the keys on the curve of the
    class and a digest of the hash length of the class, that is
    count * hash_length bytes after the four flag bytes.  The parser, when
    the flags give a count above 1, takes count * hash_length bytes as
    the table. *)
Theorem ctrk_table_length (rot_pub_keys : list string) :
  (length rot_pub_keys = 1%nat ->
   create_ctrk_table rot_pub_keys = Ok [] /\
   forall used_root_cert m,
     N4_get_rot_meta used_root_cert rot_pub_keys = Ok m ->
     calculate_flags used_root_cert rot_pub_keys = Ok m /\ length m = 4%nat) /\
  (length rot_pub_keys <> 1%nat ->
   forall t,
     create_ctrk_table rot_pub_keys = Ok t <->
     exists digests,
       Forall2 ctrk_record rot_pub_keys digests /\ t = concat digests) /\
  (length rot_pub_keys <> 1%nat ->
   keys_on_curve cls rot_pub_keys -> digest_has_hash_length cls ->
   forall t,
     create_ctrk_table rot_pub_keys = Ok t ->
     length t = (length rot_pub_keys * HASH_LENGTH cls)%nat /\
     forall used_root_cert m,
       N4_get_rot_meta used_root_cert rot_pub_keys = Ok m ->
       length m = (4 + length rot_pub_keys * HASH_LENGTH cls)%nat /\
       drop 4 m = t) /\
  (forall data offset c, N4_parse cls data offset = Ok c ->
     length (rot_meta c) =
       if 1 <? records_num_of (rot_meta c)
       then (4 + Z.to_nat (records_num_of (rot_meta c)) * HASH_LENGTH cls)%nat
       else 4%nat).
Proof.
  split; [|split; [|split]].
  - intros H1. unfold N4_get_rot_meta, create_ctrk_table. rewrite H1.
    change (1 =? 1)%nat with true. split; [reflexivity|].
    intros i m. cbn [bind].
    destruct (calculate_flags i rot_pub_keys) as [fb|] eqn:Hf; cbn [bind];
      [|discriminate].
    intros [= <-]. rewrite app_nil_r. split; [reflexivity|].
    unfold calculate_flags in Hf. apply pack_L_ok in Hf as [_ ->].
    apply le_bytes_length.
  - intros Hne t. unfold create_ctrk_table.
    destruct (Nat.eqb_spec (length rot_pub_keys) 1); [done|].
    rewrite ctrk_table_loop_records. by cbn [app].
  - intros Hne Hk Hh t Ht.
    assert (Hlen : length t = (length rot_pub_keys * HASH_LENGTH cls)%nat).
    { unfold create_ctrk_table in Ht.
      destruct (Nat.eqb_spec (length rot_pub_keys) 1); [done|].
      by apply ctrk_table_loop_length in Ht. }
    split; [exact Hlen|].
    intros i m. unfold N4_get_rot_meta. rewrite Ht. cbn [bind].
    unfold calculate_flags.
    destruct (pack [FL] _) as [fb|] eqn:Hp; [|discriminate].
    cbn [bind]. intros [= <-].
    apply pack_L_ok in Hp as [_ Hfb].
    assert (Hl4 : length fb = 4%nat) by (rewrite Hfb; apply le_bytes_length).
    split.
    + rewrite length_app, Hl4, Hlen. reflexivity.
    + by rewrite drop_app_length'.
  - intros data offset c Hc.
    apply N4_parse_rot_meta in Hc as (flags & table & Hr & -> & Hlen).
    rewrite records_num_of_app by exact Hr.
    rewrite length_app, le_bytes_length, Hlen.
    by destruct (1 <? _).
Qed.

End RotMetaLength.

Lemma demo_keys_on_curve :
  keys_on_curve (H := Demo.crypto) DebugCredentialECC256N4Analog three_p256_keys.
Proof. repeat constructor; eexists _, _; reflexivity. Qed.

Lemma demo_digest_has_hash_length (cls : klass) :
  is_n4 cls = true -> digest_has_hash_length (H := Demo.crypto) cls.
Proof.
  intros Hn data h. destruct cls; try discriminate; cbn;
    intros [= <-]; reflexivity.
Qed.

(** C4, counterexample. Three RoT keys give a table of three digests,
    96 bytes for the 256-bit class, where (count - 1) * hash_length is 64. *)
Lemma ctrk_table_three_keys_counterexample :
  exists t, create_ctrk_table (H := Demo.crypto) three_p256_keys = Ok t /\
            length t = 96%nat /\
            length t <> ((3 - 1) * HASH_LENGTH DebugCredentialECC256N4Analog)%nat.
Proof.
  eexists. split; [vm_compute; reflexivity|]. split; [reflexivity|]. discriminate.
Qed.

Lemma ctrk_table_length_witness :
  (create_ctrk_table (H := Demo.crypto) ["p384_a.pem"] = Ok [] /\
   forall used_root_cert m,
     N4_get_rot_meta (H := Demo.crypto) used_root_cert ["p384_a.pem"] = Ok m ->
     calculate_flags used_root_cert ["p384_a.pem"] = Ok m /\ length m = 4%nat) /\
  (forall t,
     create_ctrk_table (H := Demo.crypto) three_p256_keys = Ok t ->
     length t = (3 * 32)%nat /\
     forall used_root_cert m,
       N4_get_rot_meta (H := Demo.crypto) used_root_cert three_p256_keys = Ok m ->
       length m = (4 + 3 * 32)%nat /\ drop 4 m = t).
Proof.
  split.
  - exact (proj1 (ctrk_table_length (H := Demo.crypto) DebugCredentialECC256N4Analog
                    ["p384_a.pem"]) eq_refl).
  - apply (proj1 (proj2 (proj2 (ctrk_table_length (H := Demo.crypto)
                    DebugCredentialECC256N4Analog three_p256_keys)))).
    + discriminate.
    + exact demo_keys_on_curve.
    + exact (demo_digest_has_hash_length DebugCredentialECC256N4Analog eq_refl).
Defined.

(** ** RoT metadata of the fixed-layout classes *)

Lemma int_to_bytes_be_length (v : Z) (len : nat) (b : bytes) :
  int_to_bytes_be v len = Ok b -> length b = len.
Proof.
  unfold int_to_bytes_be. destruct (_ && _); [|discriminate].
  intros [= <-]. by rewrite List.length_rev, le_bytes_length.
Qed.

Lemma ecc_public_numbers_to_bytes_length (x y : Z) (len : nat) (b : bytes) :
  ecc_public_numbers_to_bytes x y len = Ok b -> length b = (2 * len)%nat.
Proof.
  unfold ecc_public_numbers_to_bytes.
  destruct (int_to_bytes_be x len) as [xb|] eqn:Hx; [|discriminate].
  destruct (int_to_bytes_be y len) as [yb|] eqn:Hy; [|discriminate].
  cbn [bind]. intros [= <-].
  apply int_to_bytes_be_length in Hx, Hy. rewrite length_app. lia.
Qed.

Lemma fill_slots_spec (stride index : nat) (contents : list bytes) (acc : bytes) :
  Forall (fun d => length d = stride) contents ->
  ((index + length contents) * stride <= length acc)%nat ->
  fill_slots stride index contents acc =
    take (index * stride) acc ++ concat contents ++
    drop ((index + length contents) * stride) acc.
Proof.
  intros Hc. revert index acc.
  induction Hc as [|d rest Hd _ IH]; intros index acc Hlen.
  - simpl. rewrite Nat.add_0_r. by rewrite take_drop.
  - cbn [fill_slots concat]. cbn [length] in Hlen.
    assert (Hexp : ((index + S (length rest)) * stride =
                    index * stride + stride + length rest * stride)%nat) by ring.
    assert (Hacc : (index * stride + stride <= length acc)%nat)
      by (rewrite Hexp in Hlen; clear -Hlen; lia).
    rewrite IH.
    + unfold slice_assign.
      assert (Ht : length (take (index * stride) acc) = (index * stride)%nat)
        by (rewrite length_take; lia).
      replace (S index * stride)%nat with (index * stride + stride)%nat by lia.
      rewrite take_app_ge by lia. rewrite Ht.
      replace (index * stride + stride - index * stride)%nat with stride by lia.
      rewrite take_app_length' by done.
      rewrite drop_app_ge by lia. rewrite Ht.
      rewrite drop_app_ge by lia. rewrite Hd, drop_drop.
      rewrite <- !app_assoc. do 2 f_equal. cbn [length]. f_equal.
      replace ((S index + length rest) * stride)%nat
        with (index * stride + stride + length rest * stride)%nat by ring.
      replace ((index + 1) * stride)%nat with (index * stride + stride)%nat by ring.
      rewrite Hexp. f_equal. lia.
    + unfold slice_assign. rewrite !length_app, length_take, length_drop.
      replace ((S index + length rest) * stride)%nat
        with (index * stride + stride + length rest * stride)%nat by ring.
      replace ((index + 1) * stride)%nat with (index * stride + stride)%nat by ring.
      lia.
Qed.

Lemma concat_slot (stride : nat) (contents : list bytes) (tl : bytes)
    (idx : nat) (d : bytes) :
  Forall (fun d => length d = stride) contents ->
  contents !! idx = Some d ->
  take stride (drop (idx * stride) (concat contents ++ tl)) = d.
Proof.
  intros Hc. revert idx. induction Hc as [|c rest Hd _ IH]; intros idx Hi.
  - done.
  - destruct idx as [|idx]; cbn [concat] in *.
    + injection Hi as ->. rewrite drop_0, <- app_assoc.
      by rewrite take_app_length'.
    + rewrite <- app_assoc.
      replace (S idx * stride)%nat with (length c + idx * stride)%nat by lia.
      rewrite <- drop_drop, drop_app_length. by apply IH.
Qed.

Lemma concat_length_stride (stride : nat) (contents : list bytes) :
  Forall (fun d => length d = stride) contents ->
  length (concat contents) = (length contents * stride)%nat.
Proof.
  induction 1 as [|c rest Hd _ IH]; [done|].
  cbn [concat length]. rewrite length_app, IH, Hd. lia.
Qed.

Lemma unused_slot (stride total : nat) (contents : list bytes) (idx : nat) :
  Forall (fun d => length d = stride) contents ->
  (length contents <= idx)%nat -> ((idx + 1) * stride <= total)%nat ->
  take stride (drop (idx * stride)
    (concat contents ++ zeros (total - length contents * stride))) = zeros stride.
Proof.
  intros Hc Hi Ht. pose proof (concat_length_stride _ _ Hc) as Hl.
  rewrite drop_app_ge by nia. rewrite Hl. unfold zeros.
  rewrite drop_replicate, take_replicate. f_equal. nia.
Qed.

Section FixedRotMeta.
Context `{Crypto}.

Lemma slot_content_length (k : klass) (path : string) (d : bytes) :
  slot_content k path d -> length d = slot_stride k.
Proof.
  unfold slot_content, slot_stride. destruct (is_rsa k).
  - intros (e & n & s & data & _ & _ & _ & Hl). exact Hl.
  - intros (x & y & s & _ & He). cbn in He.
    by apply ecc_public_numbers_to_bytes_length in He.
Qed.

Lemma RSA_rot_meta_loop_fill (index : nat) (keys : list string)
    (contents : list bytes) (acc : bytes) :
  Forall2 (slot_content DebugCredentialRSA2048) keys contents ->
  RSA_rot_meta_loop index keys acc = Ok (fill_slots 32 index contents acc).
Proof.
  intros Hc. revert index acc.
  induction Hc as [|path d keys contents Hd _ IH]; intros index acc; [done|].
  destruct Hd as (e & n & s & data & Hl & Hb & Hh & _).
  cbn [RSA_rot_meta_loop fill_slots]. rewrite Hl. cbn [bind].
  rewrite Hb. cbn [bind]. rewrite Hh. cbn [bind]. apply IH.
Qed.

Lemma ECC_rot_meta_loop_fill (index : nat) (keys : list string)
    (contents : list bytes) (acc : bytes) :
  Forall2 (slot_content DebugCredentialECC256) keys contents ->
  ECC_rot_meta_loop index keys acc = Ok (fill_slots 132 index contents acc).
Proof.
  intros Hc. revert index acc.
  induction Hc as [|path d keys contents Hd _ IH]; intros index acc; [done|].
  destruct Hd as (x & y & s & Hl & He).
  cbn [ECC_rot_meta_loop fill_slots]. rewrite Hl. cbn [bind].
  rewrite He. cbn [bind]. apply IH.
Qed.

Lemma get_rot_meta_fill (k : klass) (used_root_cert : Z) (keys : list string)
    (contents : list bytes) :
  is_n4 k = false ->
  Forall2 (slot_content k) keys contents ->
  _get_rot_meta k used_root_cert keys
  = Ok (fill_slots (slot_stride k) 0 contents (zeros (block_size k))).
Proof.
  intros Hk Hc. destruct k; try discriminate; cbn.
  1,2: by apply RSA_rot_meta_loop_fill.
  all: by apply ECC_rot_meta_loop_fill.
Qed.

(** C3. What the builders of the fixed-layout classes return for a list
    of at most four RoT keys: a block of 128 bytes (RSA) or 528 bytes
    (ECC) in which slot i, of stride 32 (RSA) or 132 (ECC), holds for RSA
    the digest of the encoding of key i and for ECC the encoding of key i
    itself, which DebugCredentialECC._get_rot_meta does not hash; the
    slots after the last key are zero. *)
Theorem fixed_rot_meta_slots (k : klass) (used_root_cert : Z)
    (keys : list string) (contents : list bytes) :
  is_n4 k = false ->
  (length keys <= 4)%nat ->
  Forall2 (slot_content k) keys contents ->
  exists m,
    _get_rot_meta k used_root_cert keys = Ok m /\
    length m = block_size k /\
    (forall idx d, contents !! idx = Some d ->
       take (slot_stride k) (drop (idx * slot_stride k) m) = d) /\
    (forall idx, (length keys <= idx < 4)%nat ->
       take (slot_stride k) (drop (idx * slot_stride k) m) = zeros (slot_stride k)).
Proof.
  intros Hk Hlen Hc.
  assert (Hst : Forall (fun d => length d = slot_stride k) contents).
  { clear Hlen. induction Hc; constructor; eauto using slot_content_length. }
  pose proof (Forall2_length _ _ _ Hc) as Hl.
  assert (Hb : block_size k = (4 * slot_stride k)%nat)
    by (unfold block_size, slot_stride; destruct (is_rsa k); reflexivity).
  eexists. split; [by apply get_rot_meta_fill|].
  rewrite fill_slots_spec; [|done|].
  2: { unfold zeros. rewrite length_replicate, Hb. rewrite <- Hl. nia. }
  rewrite take_0, Nat.add_0_l. cbn [app]. unfold zeros at 1 2 3.
  rewrite drop_replicate. fold (zeros (block_size k - length contents * slot_stride k)).
  split; [|split].
  - rewrite length_app, (concat_length_stride _ _ Hst). unfold zeros.
    rewrite length_replicate, Hb. nia.
  - intros idx d Hd. by apply concat_slot.
  - intros idx Hi. apply unused_slot; [done|lia|rewrite Hb; nia].
Qed.

End FixedRotMeta.

(** C3, at the failing inputs. The slot of an ECC key holds the key's
    coordinates, not a digest of them; and five RSA keys make the block
    160 bytes long. *)
Lemma fixed_rot_meta_counterexample :
  (exists m, RSA_get_rot_meta (H := Demo.crypto) 0 (replicate 5 "rsa2048_a.pem") = Ok m /\
             length m = 160%nat /\ length m <> 128%nat) /\
  (exists m enc dg,
     ECC_get_rot_meta (H := Demo.crypto) 0 ["p256_a.pem"] = Ok m /\
     ecc_key_to_bytes (EllipticCurvePublicKey 11 12 256) 66 = Ok enc /\
     hash (Crypto := Demo.crypto) "sha256" enc = Ok dg /\
     take 132 m = enc /\ take (length dg) m <> dg).
Proof.
  split.
  - eexists. split; [vm_compute; reflexivity|]. split; [reflexivity|]. discriminate.
  - eexists _, _, _. split; [vm_compute; reflexivity|].
    split; [vm_compute; reflexivity|]. split; [vm_compute; reflexivity|].
    split; [reflexivity|]. vm_compute. discriminate.
Qed.

Lemma fixed_rot_meta_slots_witness :
  exists m,
    _get_rot_meta (H := Demo.crypto) DebugCredentialECC256 0
      ["p256_a.pem"; "p256_b.pem"] = Ok m /\
    length m = 528%nat /\
    (forall idx d,
       [rev (le_bytes 66 11) ++ rev (le_bytes 66 12);
        rev (le_bytes 66 21) ++ rev (le_bytes 66 22)] !! idx = Some d ->
       take 132 (drop (idx * 132) m) = d) /\
    (forall idx, (2 <= idx < 4)%nat -> take 132 (drop (idx * 132) m) = zeros 132).
Proof.
  apply (fixed_rot_meta_slots (H := Demo.crypto) DebugCredentialECC256 0
           ["p256_a.pem"; "p256_b.pem"]
           [rev (le_bytes 66 11) ++ rev (le_bytes 66 12);
            rev (le_bytes 66 21) ++ rev (le_bytes 66 22)]).
  - reflexivity.
  - simpl. lia.
  - repeat constructor; eexists _, _, _; (split; [reflexivity|]); reflexivity.
Defined.

(** ** The RoT public key field *)

Lemma get_class_is_n4 (version : string) (socc : Z) (k : klass) :
  _get_class version socc = Ok k -> is_n4 k = (socc =? 4).
Proof.
  intros Hk. destruct (Z.eqb_spec socc 4) as [->|Hs].
  - apply get_class_variable in Hk as [[_ ->]|[_ ->]]; reflexivity.
  - apply (get_class_fixed _ _ _ Hs) in Hk
      as [[_ ->]|[[_ ->]|[[_ ->]|[[_ ->]|[_ ->]]]]]; reflexivity.
Qed.

Section RotPub.
Context `{Crypto}.

Lemma create_from_yaml_config_fields (version : string) (cfg : yaml_config)
    (c : DebugCredential) :
  create_from_yaml_config version cfg = Ok c ->
  _get_class version (cfg_socc cfg) = Ok (dc_class c) /\
  socc c = cfg_socc cfg /\
  fromhex (cfg_uuid cfg) = Ok (uuid c) /\
  _get_rot_meta (dc_class c) (cfg_rot_id cfg) (cfg_rot_meta cfg) = Ok (rot_meta c) /\
  _get_dck (dc_class c) (cfg_dck cfg) = Ok (dck_pub c) /\
  _get_rot_pub (dc_class c) (cfg_rot_id cfg) (cfg_rot_meta cfg) = Ok (rot_pub c) /\
  cc_socu c = cfg_cc_socu cfg /\ cc_vu c = cfg_cc_vu cfg /\
  cc_beacon c = cfg_cc_beacon cfg /\
  signature c = None /\
  exists p, signature_provider c = Some p.
Proof.
  unfold create_from_yaml_config.
  destruct (_get_class _ _) as [k|] eqn:Hk; [|discriminate]. cbn [bind].
  destruct (fromhex _) as [u|] eqn:Hu; [|discriminate]. cbn [bind].
  destruct (_get_rot_meta _ _ _) as [m|] eqn:Hm; [|discriminate]. cbn [bind].
  destruct (_get_dck _ _) as [d|] eqn:Hd; [|discriminate]. cbn [bind].
  destruct (_get_rot_pub _ _ _) as [r|] eqn:Hr; [|discriminate]. cbn [bind].
  destruct (sign_provider_params _) as [ps|]; [|discriminate]. cbn [bind].
  destruct (SignatureProvider_create _) as [sp|]; [|discriminate]. cbn [bind].
  intros [= <-]. cbn. repeat split; eauto.
Qed.

Lemma pack_HH_ok (a b : Z) (bs : bytes) :
  pack [FH; FH] [VInt a; VInt b] = Ok bs ->
  bs = le_bytes 2 a ++ le_bytes 2 b.
Proof.
  cbn [pack pack_item].
  destruct (_ && _); [|discriminate]. cbn [bind].
  destruct (_ && _); [|discriminate]. cbn [bind].
  intros [= <-]. reflexivity.
Qed.

(** C2, amended. In a built credential the rot_pub field of a
    variable-family credential (soc_class 4) is the encoding of the two
    coordinates of the selected RoT key, each on key_size // 8 bytes
    (32 bytes for a 256-bit key, 48 for a 384-bit key); that of a
    fixed-family RSA credential is the encoding of the selected RoT key
    with a 4-byte exponent; that of a fixed-family ECC credential is the
    pair (key index, curve identifier) on two 16-bit little-endian words,
    the identifier being 1 for a 256-bit curve and 3 for a 521-bit
    curve. *)
Theorem rot_pub_by_family (version : string) (cfg : yaml_config)
    (c : DebugCredential) :
  create_from_yaml_config version cfg = Ok c ->
  exists path key,
    py_index (cfg_rot_meta cfg) (cfg_rot_id cfg) = Ok path /\
    load_public_key path = Ok key /\
    if cfg_socc cfg =? 4 then
      exists x y s,
        key = EllipticCurvePublicKey x y s /\
        ecc_public_numbers_to_bytes x y (Z.to_nat (s / 8)) = Ok (rot_pub c) /\
        length (rot_pub c) = (2 * Z.to_nat (s / 8))%nat /\
        (s = 256 -> length (rot_pub c) = (2 * 32)%nat) /\
        (s = 384 -> length (rot_pub c) = (2 * 48)%nat)
    else if is_rsa (dc_class c) then
      exists e n s,
        key = RSAPublicKey e n s /\
        rsa_key_to_bytes e n 4%nat None = Ok (rot_pub c)
    else
      exists x y s curve_index,
        key = EllipticCurvePublicKey x y s /\
        curve_index_table !! s = Some curve_index /\
        rot_pub c = le_bytes 2 (cfg_rot_id cfg) ++ le_bytes 2 curve_index /\
        (s = 256 -> curve_index = 1) /\ (s = 521 -> curve_index = 3).
Proof.
  intros Hc.
  apply create_from_yaml_config_fields in Hc
    as (Hk & _ & _ & _ & _ & Hr & _).
  apply get_class_is_n4 in Hk. rewrite <- Hk. clear Hk.
  unfold _get_rot_pub in Hr.
  destruct (is_rsa (dc_class c)) eqn:Hrsa.
  - assert (Hn : is_n4 (dc_class c) = false) by (by destruct (dc_class c)).
    rewrite Hn. unfold RSA_get_rot_pub in Hr.
    destruct (py_index _ _) as [path|]; [|discriminate]. cbn [bind] in Hr.
    destruct (load_public_key path) as [key|] eqn:Hl; [|discriminate].
    cbn [bind] in Hr. exists path, key. split; [done|]. split; [done|].
    destruct key; [|discriminate]. eauto.
  - destruct (is_n4 (dc_class c)).
    + unfold N4_get_rot_pub in Hr.
      destruct (py_index _ _) as [path|]; [|discriminate]. cbn [bind] in Hr.
      destruct (load_public_key path) as [key|] eqn:Hl; [|discriminate].
      cbn [bind] in Hr. exists path, key. split; [done|]. split; [done|].
      destruct key as [|x y s]; [discriminate|]. cbn in Hr.
      pose proof (ecc_public_numbers_to_bytes_length _ _ _ _ Hr) as Hlen.
      exists x, y, s. split; [done|]. split; [done|]. split; [done|].
      split; intros ->; exact Hlen.
    + unfold ECC_get_rot_pub in Hr.
      destruct (py_index _ _) as [path|]; [|discriminate]. cbn [bind] in Hr.
      destruct (load_public_key path) as [key|] eqn:Hl; [|discriminate].
      cbn [bind] in Hr. exists path, key. split; [done|]. split; [done|].
      destruct key as [|x y s]; [discriminate|].
      destruct (curve_index_table !! s) as [ci|] eqn:Hci; [|discriminate].
      cbn [bind] in Hr. apply pack_HH_ok in Hr.
      exists x, y, s, ci. repeat split; try done.
      * intros ->. vm_compute in Hci. congruence.
      * intros ->. vm_compute in Hci. congruence.
Qed.

End RotPub.

(** C2, counterexample. A fixed-family credential (soc_class 1, version
    2.0) has the four-byte pair as rot_pub, which is no encoding of the
    key's coordinates; a variable-family one (soc_class 4) has the 64-byte
    encoding of the coordinates, not the four-byte pair. *)
Lemma rot_pub_family_counterexample :
  (exists c, create_from_yaml_config (H := Demo.crypto) "2.0" cfg_ecc256 = Ok c /\
             rot_pub c = [x00; x00; x01; x00]%byte /\
             forall len enc,
               ecc_key_to_bytes (EllipticCurvePublicKey 11 12 256) len = Ok enc ->
               rot_pub c <> enc) /\
  (exists c, create_from_yaml_config (H := Demo.crypto) "2.0" cfg_n4_three = Ok c /\
             ecc_key_to_bytes (EllipticCurvePublicKey 21 22 256) 32 = Ok (rot_pub c) /\
             length (rot_pub c) = 64%nat /\
             pack [FH; FH] [VInt 1; VInt 1] <> Ok (rot_pub c)).
Proof.
  split.
  - eexists. split; [vm_compute; reflexivity|]. split; [reflexivity|].
    cbn [rot_pub]. intros len enc Henc Heq. subst enc.
    pose proof (ecc_public_numbers_to_bytes_length _ _ _ _ Henc) as Hl.
    cbn [length] in Hl. assert (len = 2%nat) as -> by lia.
    vm_compute in Henc. discriminate.
  - eexists. split; [vm_compute; reflexivity|].
    split; [vm_compute; reflexivity|]. split; [reflexivity|].
    vm_compute. discriminate.
Qed.

(** The curve table has its second entry under 386: building the
    fixed-layout credential of a 384-bit RoT key raises on the lookup. *)
Lemma ecc384_rot_pub_raises :
  ECC_get_rot_pub (H := Demo.crypto) 0 ["p384_a.pem"] = Raise (KeyError "384") /\
  create_from_yaml_config (H := Demo.crypto) "2.1"
    (mkConfig 1 "00112233445566778899aabbccddeeff" 0 ["p384_a.pem"] "p384_b.pem"
       1 0 0x1234 None (Some "rotk.pem"))
  = Raise (KeyError "384").
Proof. split; vm_compute; reflexivity. Qed.

Lemma rot_pub_by_family_witness :
  (exists c, create_from_yaml_config (H := Demo.crypto) "2.0" cfg_ecc256 = Ok c /\
   exists path key,
     py_index (cfg_rot_meta cfg_ecc256) (cfg_rot_id cfg_ecc256) = Ok path /\
     load_public_key (Crypto := Demo.crypto) path = Ok key /\
     exists x y s curve_index,
       key = EllipticCurvePublicKey x y s /\
       curve_index_table !! s = Some curve_index /\
       rot_pub c = le_bytes 2 (cfg_rot_id cfg_ecc256) ++ le_bytes 2 curve_index /\
       (s = 256 -> curve_index = 1) /\ (s = 521 -> curve_index = 3)) /\
  (exists c, create_from_yaml_config (H := Demo.crypto) "2.0" cfg_n4_three = Ok c /\
   exists path key,
     py_index (cfg_rot_meta cfg_n4_three) (cfg_rot_id cfg_n4_three) = Ok path /\
     load_public_key (Crypto := Demo.crypto) path = Ok key /\
     exists x y s,
       key = EllipticCurvePublicKey x y s /\
       ecc_public_numbers_to_bytes x y (Z.to_nat (s / 8)) = Ok (rot_pub c) /\
       length (rot_pub c) = (2 * Z.to_nat (s / 8))%nat /\
       (s = 256 -> length (rot_pub c) = (2 * 32)%nat) /\
       (s = 384 -> length (rot_pub c) = (2 * 48)%nat)).
Proof.
  split.
  - eexists. split; [vm_compute; reflexivity|].
    exact (rot_pub_by_family (H := Demo.crypto) "2.0" cfg_ecc256 _ eq_refl).
  - eexists. split; [vm_compute; reflexivity|].
    exact (rot_pub_by_family (H := Demo.crypto) "2.0" cfg_n4_three _ eq_refl).
Defined.

(** ** Signing *)

Section Sign.
Context `{Crypto}.

Lemma base_sign_ok (c c' : DebugCredential) :
  base_sign c = (c', Ok tt) ->
  exists p data raw,
    signature_provider c = Some (Some p) /\
    _get_data_to_sign c = Ok data /\
    SignatureProvider_sign p data = Ok raw /\ raw <> [] /\
    c' = set_signature c (Some raw).
Proof.
  unfold base_sign.
  destruct (signature_provider c) as [[p|]|]; try (intros [= ]; fail).
  destruct (_get_data_to_sign c) as [data|]; [|intros [= ]].
  destruct (SignatureProvider_sign p data) as [[|b raw]|] eqn:Hs; intros [= <-].
  exists p, data, (b :: raw). repeat split; done.
Qed.

Lemma ECC_sign_ok (c c' : DebugCredential) :
  ECC_sign c = (c', Ok tt) ->
  exists p data raw r s sig,
    signature_provider c = Some (Some p) /\
    _get_data_to_sign c = Ok data /\
    SignatureProvider_sign p data = Ok raw /\ raw <> [] /\
    decode_dss_signature raw = Ok (r, s) /\
    ecc_public_numbers_to_bytes r s (CORD_LENGTH (dc_class c)) = Ok sig /\
    c' = set_signature c (Some sig).
Proof.
  unfold ECC_sign.
  destruct (base_sign c) as [c1 [[]|e]] eqn:Hb; [|intros [= ]].
  apply base_sign_ok in Hb as (p & data & raw & Hp & Hd & Hs & Hne & ->).
  cbn [signature set_signature dc_class].
  destruct raw as [|b raw]; [done|].
  destruct (decode_dss_signature (b :: raw)) as [[r s]|] eqn:Hdec; [|intros [= ]].
  destruct (ecc_public_numbers_to_bytes r s _) as [sig|] eqn:He; intros [= <-].
  exists p, data, (b :: raw), r, s, sig. repeat split; done.
Qed.

(** Signing completes for every pair (r, s) that fits the coordinate
    width of the class. *)
Lemma ECC_sign_total (c : DebugCredential) (p : provider) (data raw : bytes)
    (r s : Z) :
  signature_provider c = Some (Some p) ->
  _get_data_to_sign c = Ok data ->
  SignatureProvider_sign p data = Ok raw -> raw <> [] ->
  decode_dss_signature raw = Ok (r, s) ->
  0 <= r < 2 ^ (8 * Z.of_nat (CORD_LENGTH (dc_class c))) ->
  0 <= s < 2 ^ (8 * Z.of_nat (CORD_LENGTH (dc_class c))) ->
  ECC_sign c =
    (set_signature c
       (Some (rev (le_bytes (CORD_LENGTH (dc_class c)) r) ++
              rev (le_bytes (CORD_LENGTH (dc_class c)) s))), Ok tt).
Proof.
  intros Hp Hd Hs Hne Hdec Hr Hs'.
  unfold ECC_sign, base_sign. rewrite Hp, Hd, Hs.
  destruct raw as [|b raw]; [done|].
  cbn [signature set_signature dc_class]. rewrite Hdec.
  unfold ecc_public_numbers_to_bytes, int_to_bytes_be.
  destruct (Z.leb_spec 0 r); [|lia]. destruct (Z.ltb_spec r (2 ^ (8 * Z.of_nat (CORD_LENGTH (dc_class c))))); [|lia].
  destruct (Z.leb_spec 0 s); [|lia]. destruct (Z.ltb_spec s (2 ^ (8 * Z.of_nat (CORD_LENGTH (dc_class c))))); [|lia].
  reflexivity.
Qed.

(** C5, amended. When signing an ECC credential completes, the signature
    stored is exactly 2 * CORD_LENGTH bytes whatever the values (r, s)
    are; the coordinate width is 66 bytes for each of the three
    fixed-layout ECC classes (256, 384 and 521 bits), and for the variable
    family it is the hash length of the class (32 or 48). *)
Theorem ecc_sign_signature_length (c c' : DebugCredential) :
  is_rsa (dc_class c) = false ->
  sign c = (c', Ok tt) ->
  exists sig,
    signature c' = Some sig /\
    dc_class c' = dc_class c /\
    length sig = (2 * CORD_LENGTH (dc_class c))%nat /\
    CORD_LENGTH (dc_class c) =
      (if is_n4 (dc_class c) then HASH_LENGTH (dc_class c) else 66%nat).
Proof.
  intros Hrsa. unfold sign. rewrite Hrsa. intros Hs.
  apply ECC_sign_ok in Hs as (p & data & raw & r & s & sig & _ & _ & _ & _ & _ & He & ->).
  exists sig. split; [reflexivity|]. split; [reflexivity|].
  split; [by apply ecc_public_numbers_to_bytes_length in He|].
  by destruct (dc_class c).
Qed.

End Sign.

(** C5, counterexample. Signing the fixed-layout credential of the
    256-bit class stores 132 bytes, two coordinates of 66 bytes, not
    2 * 32. *)
Lemma ecc256_signature_length_counterexample :
  exists c c' sig,
    create_from_yaml_config (H := Demo.crypto) "2.0" cfg_ecc256 = Ok c /\
    dc_class c = DebugCredentialECC256 /\
    sign (H := Demo.crypto) c = (c', Ok tt) /\
    signature c' = Some sig /\
    length sig = 132%nat /\ length sig <> (2 * 32)%nat.
Proof.
  eexists _, _, _. split; [vm_compute; reflexivity|]. split; [reflexivity|].
  split; [vm_compute; reflexivity|]. split; [reflexivity|].
  split; [reflexivity|]. discriminate.
Qed.

Lemma ecc_sign_signature_length_witness :
  is_rsa (dc_class demo_ecc256_unsigned) = false /\
  sign (H := Demo.crypto) demo_ecc256_unsigned = (demo_ecc256_signed, Ok tt) /\
  exists sig,
    signature demo_ecc256_signed = Some sig /\
    dc_class demo_ecc256_signed = dc_class demo_ecc256_unsigned /\
    length sig = (2 * CORD_LENGTH (dc_class demo_ecc256_unsigned))%nat /\
    CORD_LENGTH (dc_class demo_ecc256_unsigned) =
      (if is_n4 (dc_class demo_ecc256_unsigned)
       then HASH_LENGTH (dc_class demo_ecc256_unsigned) else 66%nat).
Proof.
  split; [reflexivity|]. split; [vm_compute; reflexivity|].
  apply (ecc_sign_signature_length (H := Demo.crypto) demo_ecc256_unsigned
           demo_ecc256_signed); [reflexivity|vm_compute; reflexivity].
Defined.

(** ** export without a signature *)

Lemma pack_item_raise (f : fmt_item) (v : pyval) (e : exn) :
  pack_item f v = Raise e -> e = StructError.
Proof.
  destruct f, v; cbn; try (intros [= <-]; reflexivity);
    destruct (_ && _); intros [= <-]; reflexivity.
Qed.

Lemma pack_raise (fmt : format) (vs : list pyval) (e : exn) :
  pack fmt vs = Raise e -> e = StructError.
Proof.
  revert vs. induction fmt as [|f fmt IH]; intros [|v vs]; cbn [pack];
    try (intros [= <-]; reflexivity).
  destruct (pack_item f v) as [b|e1] eqn:Hi; cbn [bind].
  - destruct (pack fmt vs) as [bs|e2] eqn:Hp; cbn [bind]; [intros [= ]|].
    intros [= <-]. by apply IH in Hp.
  - intros [= <-]. by apply pack_item_raise in Hi.
Qed.

Lemma pack_last_None (fmt : format) (vs : list pyval) :
  pack fmt (vs ++ [VNone]) = Raise StructError.
Proof.
  revert fmt. induction vs as [|v vs IH]; intros [|f fmt]; cbn [app pack];
    try reflexivity.
  - by destruct f.
  - destruct (pack_item f v) as [b|e] eqn:Hi; cbn [bind].
    + by rewrite IH.
    + by apply pack_item_raise in Hi as ->.
Qed.

Lemma version_ints_n4 (k : klass) :
  is_n4 k = true -> version_ints k = Ok [0; 0].
Proof. by destruct k. Qed.

(** C6. export on a credential whose signature is absent ([None], or empty,
    which [assert self.signature] rejects alike).  The fixed-layout
    classes raise the assertion (SignatureMissing).  N4AnalogMixin.export
    has no such assertion: with [None] it fails inside [pack] with
    struct.error, and with an empty signature any failure is a
    struct.error of another field. *)
Theorem export_without_signature (c : DebugCredential) :
  truthy (signature c) = false ->
  (is_n4 (dc_class c) = false -> export c = Raise SignatureMissing) /\
  (is_n4 (dc_class c) = true -> signature c = None ->
     export c = Raise StructError) /\
  (is_n4 (dc_class c) = true -> forall e, export c = Raise e -> e = StructError).
Proof.
  intros Ht. unfold export. split; [|split].
  - intros ->. unfold base_export. by rewrite Ht.
  - intros Hn Hs. rewrite Hn. unfold N4_export.
    rewrite (version_ints_n4 _ Hn), Hs. cbn [bind opt_bytes].
    change [VInt (socc c); VBytes (uuid c); VInt (cc_socu c); VInt (cc_vu c);
            VInt (cc_beacon c); VBytes (rot_meta c); VBytes (rot_pub c);
            VBytes (dck_pub c); VNone]
      with ([VInt (socc c); VBytes (uuid c); VInt (cc_socu c); VInt (cc_vu c);
            VInt (cc_beacon c); VBytes (rot_meta c); VBytes (rot_pub c);
            VBytes (dck_pub c)] ++ [VNone]).
    rewrite app_assoc. apply pack_last_None.
  - intros Hn e. rewrite Hn. unfold N4_export.
    rewrite (version_ints_n4 _ Hn). cbn [bind]. apply pack_raise.
Qed.

(** An N4 credential whose signature is the empty byte string is exported:
    the signature field of the output is zero bytes. *)
Lemma n4_export_empty_signature :
  exists out,
    export (set_signature demo_n4_unsigned (Some [])) = Ok out /\
    length out = 328%nat /\
    drop 264 out = zeros 64.
Proof.
  eexists. split; [vm_compute; reflexivity|]. split; reflexivity.
Qed.

Lemma export_without_signature_witness :
  truthy (signature demo_n4_unsigned) = false /\
  is_n4 (dc_class demo_n4_unsigned) = true /\
  signature demo_n4_unsigned = None /\
  export demo_n4_unsigned = Raise StructError /\
  export demo_n4_unsigned <> Raise SignatureMissing /\
  export demo_ecc256_unsigned = Raise SignatureMissing.
Proof.
  split; [reflexivity|]. split; [reflexivity|]. split; [reflexivity|].
  split; [|split].
  - exact (proj1 (proj2 (export_without_signature demo_n4_unsigned eq_refl))
             eq_refl eq_refl).
  - rewrite (proj1 (proj2 (export_without_signature demo_n4_unsigned eq_refl))
               eq_refl eq_refl).
    discriminate.
  - exact (proj1 (export_without_signature demo_ecc256_unsigned eq_refl) eq_refl).
Defined.

(** ** Equality of N4 credentials changes its operands *)

Lemma del_provider_at_ok (h h' : heap) (l : loc) :
  del_provider_at h l = (h', Ok tt) ->
  exists c, h !! l = Some c /\ signature_provider c <> None /\
            h' = <[l := del_signature_provider c]> h.
Proof.
  unfold del_provider_at. destruct (h !! l) as [c|]; [|intros [= ]].
  destruct (signature_provider c) eqn:Hp; intros [= <-].
  exists c. rewrite Hp. done.
Qed.

Lemma N4_eq_ok (h h' : heap) (self other : loc) (r : bool) :
  N4_eq h self other = (h', Ok r) ->
  exists cs co,
    self <> other /\
    h !! self = Some cs /\ h !! other = Some co /\
    signature_provider cs <> None /\ signature_provider co <> None /\
    h' = <[other := del_signature_provider co]>
           (<[self := del_signature_provider cs]> h) /\
    r = bool_decide (vars (del_signature_provider co) = vars (del_signature_provider cs)).
Proof.
  unfold N4_eq.
  destruct (del_provider_at h self) as [h1 [[]|e]] eqn:H1; [|intros [= ]].
  destruct (del_provider_at h1 other) as [h2 [[]|e]] eqn:H2; [|intros [= ]].
  apply del_provider_at_ok in H1 as (cs & Hs & Hps & ->).
  apply del_provider_at_ok in H2 as (co & Ho & Hpo & ->).
  destruct (decide (self = other)) as [->|Hne].
  { rewrite lookup_insert_eq in Ho. injection Ho as <-. done. }
  rewrite lookup_insert_ne in Ho by done.
  rewrite lookup_insert_eq, lookup_insert_ne, lookup_insert_eq by done.
  intros [= <- <-]. exists cs, co. done.
Qed.

(** The comparison returns whenever the operands are two different
    objects that both still have the attribute. *)
Lemma N4_eq_total (h : heap) (self other : loc) (cs co : DebugCredential) :
  self <> other ->
  h !! self = Some cs -> h !! other = Some co ->
  signature_provider cs <> None -> signature_provider co <> None ->
  exists h' r, N4_eq h self other = (h', Ok r).
Proof.
  intros Hne Hs Ho Hps Hpo. unfold N4_eq, del_provider_at. rewrite Hs.
  destruct (signature_provider cs); [|done].
  rewrite lookup_insert_ne, Ho by done.
  destruct (signature_provider co); [|done].
  rewrite lookup_insert_eq, lookup_insert_ne, lookup_insert_eq by done.
  eauto.
Qed.

(** X10. Comparing an N4 credential with itself raises: the second deletion finds
    the attribute gone. *)
Lemma N4_eq_same_object (h : heap) (self : loc) (cs : DebugCredential) :
  h !! self = Some cs -> signature_provider cs <> None ->
  snd (N4_eq h self self) = Raise (KeyError "signature_provider").
Proof.
  intros Hs Hps. unfold N4_eq, del_provider_at. rewrite Hs.
  destruct (signature_provider cs); [|done].
  by rewrite lookup_insert_eq.
Qed.

Section EqualityEffect.
Context `{Crypto}.

Lemma sign_without_provider (c : DebugCredential) :
  signature_provider c = None ->
  sign c = (c, Raise (AttributeError "signature_provider")).
Proof.
  intros Hp. unfold sign, ECC_sign, base_sign. rewrite Hp.
  by destruct (is_rsa (dc_class c)).
Qed.

(** C9, amended. Comparing a variable-family credential with another
    credential deletes the signature-provider attribute of both objects:
    when the comparison has returned, the two objects are what they were
    without the attribute, nothing else in the store has changed, the
    result is the comparison of the remaining attributes, and sign() on
    either object raises.  The comparison returns for two different
    objects that both have the attribute; with a left operand that has
    lost it, it raises KeyError and changes nothing. *)
Theorem n4_eq_removes_signer (h : heap) (self other : loc)
    (cs co : DebugCredential) :
  h !! self = Some cs -> h !! other = Some co -> is_n4 (dc_class cs) = true ->
  (forall h' r,
     py_eq h self other = (h', Ok r) ->
     self <> other /\
     signature_provider cs <> None /\ signature_provider co <> None /\
     h' = <[other := del_signature_provider co]>
            (<[self := del_signature_provider cs]> h) /\
     h' !! self = Some (del_signature_provider cs) /\
     h' !! other = Some (del_signature_provider co) /\
     r = bool_decide (vars (del_signature_provider co) = vars (del_signature_provider cs)) /\
     snd (sign_at h' self) = Raise (AttributeError "signature_provider") /\
     snd (sign_at h' other) = Raise (AttributeError "signature_provider")) /\
  (self <> other -> signature_provider cs <> None -> signature_provider co <> None ->
   exists h' r, py_eq h self other = (h', Ok r)) /\
  (signature_provider cs = None ->
   py_eq h self other = (h, Raise (KeyError "signature_provider"))).
Proof.
  intros Hs Ho Hn. unfold py_eq. rewrite Hs, Ho, Hn. split; [|split].
  - intros h' r Heq.
    apply N4_eq_ok in Heq as (cs1 & co1 & Hne & Hs1 & Ho1 & Hps & Hpo & -> & ->).
    assert (cs1 = cs) as -> by congruence.
    assert (co1 = co) as -> by congruence.
    assert (Hls : (<[other := del_signature_provider co]>
                     (<[self := del_signature_provider cs]> h)) !! self
                  = Some (del_signature_provider cs))
      by (by rewrite lookup_insert_ne, lookup_insert_eq).
    assert (Hlo : (<[other := del_signature_provider co]>
                     (<[self := del_signature_provider cs]> h)) !! other
                  = Some (del_signature_provider co))
      by (by rewrite lookup_insert_eq).
    do 7 (split; [done|]). split.
    + unfold sign_at. rewrite Hls. by rewrite sign_without_provider.
    + unfold sign_at. rewrite Hlo. by rewrite sign_without_provider.
  - intros Hne Hps Hpo. by apply (N4_eq_total h self other cs co).
  - intros Hp. unfold N4_eq, del_provider_at. by rewrite Hs, Hp.
Qed.

End EqualityEffect.

Lemma n4_eq_removes_signer_witness :
  exists h',
    py_eq demo_heap 1%positive 2%positive = (h', Ok true) /\
    h' = <[2%positive := del_signature_provider demo_n4_signed]>
           (<[1%positive := del_signature_provider demo_n4_parsed]> demo_heap) /\
    h' !! 1%positive = Some (del_signature_provider demo_n4_parsed) /\
    h' !! 2%positive = Some (del_signature_provider demo_n4_signed) /\
    snd (sign_at (H := Demo.crypto) h' 1%positive)
      = Raise (AttributeError "signature_provider") /\
    snd (sign_at (H := Demo.crypto) h' 2%positive)
      = Raise (AttributeError "signature_provider").
Proof.
  eexists. split; [vm_compute; reflexivity|].
  destruct (proj1 (n4_eq_removes_signer (H := Demo.crypto) demo_heap
                     1%positive 2%positive demo_n4_parsed demo_n4_signed
                     eq_refl eq_refl eq_refl) _ true
              ltac:(vm_compute; reflexivity))
    as (_ & _ & _ & Hh & Hs & Ho & _ & Hss & Hso).
  repeat split; assumption.
Defined.

(** C9, counterexample. An equality test that raises leaves its right
    operand alone: after a first comparison has taken the attribute from
    object 1, comparing object 1 with object 3 raises KeyError, object 3
    still has its signature provider and sign() on it returns. *)
Lemma n4_eq_raising_counterexample :
  exists h1,
    py_eq demo_heap3 1%positive 2%positive = (h1, Ok true) /\
    py_eq h1 1%positive 3%positive = (h1, Raise (KeyError "signature_provider")) /\
    (exists c, h1 !! 3%positive = Some c /\
               signature_provider c = Some (Some 1%positive)) /\
    snd (sign_at (H := Demo.crypto) h1 3%positive) = Ok tt.
Proof.
  eexists. split; [vm_compute; reflexivity|].
  split; [vm_compute; reflexivity|].
  split; [eexists; split; vm_compute; reflexivity|].
  vm_compute. reflexivity.
Qed.

(** ** Where the N4 parser reads its fields *)

Lemma unpack_from_pos (fmt : format) (data : bytes) (offset : Z) (vs : list pyval) :
  unpack_from fmt data offset = Ok vs ->
  (buffer_pos data offset + calcsize fmt <= length data)%nat /\
  vs = unpack fmt (drop (buffer_pos data offset) data).
Proof.
  intros Hv. apply unpack_from_ok in Hv as (off & Hlen & Hoff & ->).
  unfold buffer_pos. rewrite <- Hoff, Nat2Z.id. done.
Qed.

Lemma le_bytes_le_value_n (n : nat) (bs : bytes) :
  length bs = n -> le_bytes n (le_value bs) = bs.
Proof. intros <-. apply le_bytes_le_value. Qed.

(** The value N4AnalogMixin.parse returns, written out. *)
Lemma N4_parse_inv (cls : klass) (data : bytes) (offset : Z) (c : DebugCredential) :
  N4_parse cls data offset = Ok c ->
  let flags := le_value (take 4 (drop 36 data)) in
  let n := Z.shiftr (Z.land flags 0xF0) 4 in
  let table :=
    if 1 <? n
    then take (Z.to_nat n * HASH_LENGTH cls) (drop (buffer_pos data (offset + 40)) data)
    else [] in
  let tail_pos := buffer_pos data (offset + 40 + (4 + blen table) - 4) in
  (40 <= length data)%nat /\
  Z.land flags 0x80000000 <> 0 /\
  (tail_pos + 3 * (HASH_LENGTH cls * 2) <= length data)%nat /\
  length table = (if 1 <? n then (Z.to_nat n * HASH_LENGTH cls)%nat else 0%nat) /\
  c = mkDebugCredential cls
        (le_value (take 4 (drop 4 data)))
        (take 16 (drop 8 data))
        (take 4 (drop 36 data) ++ table)
        (take (HASH_LENGTH cls * 2) (drop (tail_pos + HASH_LENGTH cls * 2) data))
        (le_value (take 4 (drop 24 data)))
        (le_value (take 4 (drop 28 data)))
        (le_value (take 4 (drop 32 data)))
        (take (HASH_LENGTH cls * 2) (drop tail_pos data))
        (Some (take (HASH_LENGTH cls * 2)
                 (drop (tail_pos + HASH_LENGTH cls * 2 + HASH_LENGTH cls * 2) data)))
        (Some None).
Proof.
  unfold N4_parse.
  destruct (unpack_from format_head data 0) as [head|] eqn:Hh; [|discriminate].
  apply unpack_from_pos in Hh as (Hlen0 & ->).
  change (buffer_pos data 0) with 0%nat in Hlen0 |- *. rewrite drop_0.
  change (calcsize format_head) with 40%nat in Hlen0 |- *.
  cbn [bind unpack format_head unpack_item item_size].
  rewrite !drop_drop. cbn [Nat.add].
  set (flags := le_value (take 4 (drop 36 data))).
  destruct (Z.eqb_spec (Z.land flags 0x80000000) 0) as [|Hflag]; [discriminate|].
  set (n := Z.shiftr (Z.land flags 0xF0) 4).
  assert (Hfb : le_bytes 4 flags = take 4 (drop 36 data)).
  { apply le_bytes_le_value_n. rewrite length_take, length_drop. lia. }
  intros Hc. cbn zeta. change (Z.of_nat 40) with 40 in Hc.
  assert (Htab : exists table,
    (if 1 <? n
     then let* t := unpack_from [FS (Z.to_nat n * HASH_LENGTH cls)] data (offset + 40) in
          match t with [VBytes b] => Ok b | _ => Raise TypeError end
     else Ok []) = Ok table /\
    table = (if 1 <? n
             then take (Z.to_nat n * HASH_LENGTH cls)
                    (drop (buffer_pos data (offset + 40)) data)
             else []) /\
    length table = (if 1 <? n then (Z.to_nat n * HASH_LENGTH cls)%nat else 0%nat)).
  { destruct (1 <? n).
    - destruct (unpack_from _ data (offset + 40)) as [t|] eqn:Ht; [|discriminate].
      apply unpack_from_pos in Ht as (Hlen1 & ->).
      cbn [bind unpack unpack_item item_size].
      eexists. split; [reflexivity|]. split; [reflexivity|].
      unfold calcsize in Hlen1. simpl in Hlen1.
      apply take_drop_length. lia.
    - exists []. done. }
  destruct Htab as (table & Ht & Htable & Htlen).
  rewrite Ht in Hc. cbn [bind] in Hc.
  destruct (pack [FL] [VInt flags]) as [fb|] eqn:Hp; [|discriminate].
  apply pack_L_ok in Hp as [_ Hfbe]. rewrite Hfb in Hfbe. cbn [bind] in Hc.
  assert (Hfl : blen (fb ++ table) = 4 + blen table).
  { unfold blen. rewrite length_app, Hfbe, length_take, length_drop. lia. }
  rewrite Hfl in Hc.
  destruct (unpack_from _ data _) as [tl|] eqn:Htl; [|discriminate].
  apply unpack_from_pos in Htl as (Hlen2 & ->).
  cbn [bind unpack unpack_item item_size] in Hc.
  rewrite !drop_drop in Hc.
  unfold calcsize in Hlen2. simpl in Hlen2.
  rewrite <- Htable.
  split; [lia|]. split; [done|]. split; [lia|]. split; [done|].
  rewrite <- Hfbe. congruence.
Qed.

Lemma unpack_from_0 (fmt : format) (data : bytes) :
  (calcsize fmt <= length data)%nat ->
  unpack_from fmt data 0 = Ok (unpack fmt data).
Proof.
  intros Hl. unfold unpack_from, blen. cbn [Z.ltb Z.compare orb].
  destruct (Z.ltb_spec (Z.of_nat (length data) - 0) (Z.of_nat (calcsize fmt))); [lia|].
  reflexivity.
Qed.

Lemma unpack_from_nat (fmt : format) (data : bytes) (off : nat) :
  (off + calcsize fmt <= length data)%nat ->
  unpack_from fmt data (Z.of_nat off) = Ok (unpack fmt (drop off data)).
Proof.
  intros Hl. unfold unpack_from, blen.
  destruct (Z.ltb_spec (Z.of_nat off) 0); [lia|]. cbn [orb].
  destruct (Z.ltb_spec (Z.of_nat off) 0); [lia|].
  destruct (Z.ltb_spec (Z.of_nat (length data) - Z.of_nat off)
              (Z.of_nat (calcsize fmt))); [lia|].
  by rewrite Nat2Z.id.
Qed.

(** A position counted from the end of the buffer is read as the same
    position counted from the start. *)
Lemma unpack_from_from_end (fmt : format) (data : bytes) (k : Z) :
  0 <= k < blen data ->
  unpack_from fmt data (- blen data + k) = unpack_from fmt data (0 + k).
Proof.
  intros Hk. unfold unpack_from.
  destruct (Z.ltb_spec (- blen data + k) 0); [|lia].
  destruct (Z.ltb_spec (0 + k) 0); [lia|].
  replace (- blen data + k + blen data) with (0 + k) by lia. reflexivity.
Qed.

(** A buffer that parses at offset 0 parses to the same credential at
    the offset that counts its whole length from the end. *)
Lemma N4_parse_from_end (cls : klass) (data : bytes) (c : DebugCredential) :
  is_n4 cls = true ->
  N4_parse cls data 0 = Ok c ->
  N4_parse cls data (- blen data) = Ok c.
Proof.
  intros Hn Hc. pose proof Hc as Hinv.
  apply N4_parse_inv in Hinv as (Hlen & Hbit & Htail & Htl & _). cbv zeta in *.
  assert (HL : (32 <= HASH_LENGTH cls)%nat) by (destruct cls; try discriminate; cbn; lia).
  set (flags := le_value (take 4 (drop 36 data))) in *.
  set (n := Z.shiftr (Z.land flags 0xF0) 4) in *.
  set (table := if 1 <? n then _ else _) in *.
  assert (Hpos : buffer_pos data (0 + 40 + (4 + blen table) - 4) = (40 + length table)%nat)
    by (unfold buffer_pos, blen;
        destruct (Z.ltb_spec (0 + 40 + (4 + Z.of_nat (length table)) - 4) 0); lia).
  rewrite Hpos in Htail.
  rewrite <- Hc. unfold N4_parse.
  rewrite unpack_from_0 by (change (calcsize format_head) with 40%nat; lia).
  cbn [bind unpack format_head unpack_item item_size].
  rewrite !drop_drop. cbn [Nat.add]. fold flags. fold n.
  destruct (Z.land flags 0x80000000 =? 0); [reflexivity|].
  change (Z.of_nat (calcsize format_head)) with 40.
  assert (Hbig : 40 + blen table + 192 <= blen data) by (unfold blen; lia).
  rewrite (unpack_from_from_end _ data 40) by (unfold blen in *; lia).
  match goal with
  | |- context [if 1 <? n then ?a else Ok []] =>
      destruct (if 1 <? n then a else Ok []) as [tb|] eqn:Htb; [|reflexivity]
  end.
  cbn [bind].
  destruct (pack [FL] [VInt flags]) as [fb|] eqn:Hp; [|reflexivity].
  cbn [bind].
  assert (Hfb : length fb = 4%nat).
  { apply pack_L_ok in Hp as [_ ->]. apply le_bytes_length. }
  assert (Htab : tb = table).
  { unfold table. destruct (1 <? n); [|by injection Htb].
    destruct (unpack_from _ data (0 + 40)) as [t|] eqn:Hu; [|discriminate].
    apply unpack_from_pos in Hu as (_ & ->).
    cbn [bind unpack unpack_item item_size] in Htb. by injection Htb. }
  subst tb.
  replace (- blen data + 40 + blen (fb ++ table) - 4)
    with (- blen data + (40 + blen (fb ++ table) - 4)) by lia.
  replace (0 + 40 + blen (fb ++ table) - 4)
    with (0 + (40 + blen (fb ++ table) - 4)) by lia.
  rewrite unpack_from_from_end; [reflexivity|].
  unfold blen in *. rewrite length_app, Hfb. lia.
Qed.

(** C10, amended. N4AnalogMixin.parse reads the header (soc_class, uuid,
    the two constraints, the beacon and the flags) at the absolute
    positions 4, 8, 24, 28, 32 and 36 of the buffer, whatever the offset
    argument is; the CTRK table is read at offset + 40 and the three tail
    fields after it, relative to the offset.  At offset 0 these are the
    positions of the layout, the table at 40 and the tail after it; and a
    buffer parsed at offset 0 gives the same credential at the offset
    that counts its whole length from the end. *)
Theorem N4_parse_field_positions (cls : klass) (data : bytes) (offset : Z)
    (c : DebugCredential) :
  N4_parse cls data offset = Ok c ->
  let n := records_num_of (rot_meta c) in
  let table_pos := buffer_pos data (offset + 40) in
  let tail_pos := buffer_pos data (offset + 40 + blen (rot_meta c) - 4) in
  (socc c = le_value (take 4 (drop 4 data)) /\
   uuid c = take 16 (drop 8 data) /\
   cc_socu c = le_value (take 4 (drop 24 data)) /\
   cc_vu c = le_value (take 4 (drop 28 data)) /\
   cc_beacon c = le_value (take 4 (drop 32 data)) /\
   take 4 (rot_meta c) = take 4 (drop 36 data) /\
   drop 4 (rot_meta c) =
     (if 1 <? n
      then take (Z.to_nat n * HASH_LENGTH cls) (drop table_pos data)
      else []) /\
   rot_pub c = take (HASH_LENGTH cls * 2) (drop tail_pos data) /\
   dck_pub c = take (HASH_LENGTH cls * 2) (drop (tail_pos + HASH_LENGTH cls * 2) data) /\
   signature c =
     Some (take (HASH_LENGTH cls * 2)
             (drop (tail_pos + HASH_LENGTH cls * 2 + HASH_LENGTH cls * 2) data))) /\
  (offset = 0 ->
   table_pos = 40%nat /\ tail_pos = (36 + length (rot_meta c))%nat /\
   (is_n4 cls = true -> N4_parse cls data (- blen data) = Ok c)).
Proof.
  intros Hc. cbv zeta. split.
  - apply N4_parse_inv in Hc as (Hlen & _ & _ & _ & ->).
    cbn [socc uuid cc_socu cc_vu cc_beacon rot_meta rot_pub dck_pub signature].
    assert (Hl4 : length (take 4 (drop 36 data)) = 4%nat)
      by (rewrite length_take, length_drop; lia).
    set (table := if 1 <? _ then _ else _) in *.
    assert (Hn : records_num_of (take 4 (drop 36 data) ++ table)
                 = Z.shiftr (Z.land (le_value (take 4 (drop 36 data))) 0xF0) 4).
    { unfold records_num_of. by rewrite take_app_length'. }
    rewrite Hn.
    assert (Hb : blen (take 4 (drop 36 data) ++ table) = 4 + blen table).
    { unfold blen. rewrite length_app, Hl4. lia. }
    rewrite Hb.
    repeat split; try reflexivity.
    + by rewrite take_app_length'.
    + by rewrite drop_app_length'.
  - intros ->. split; [reflexivity|]. split.
    + unfold buffer_pos, blen.
      destruct (Z.ltb_spec (0 + 40 + Z.of_nat (length (rot_meta c)) - 4) 0); lia.
    + intros Hn. by apply N4_parse_from_end.
Qed.

(** The header does not move with the offset: two parses of one buffer
    at different offsets return the same header fields. *)
Corollary N4_parse_header_ignores_offset (cls : klass) (data : bytes)
    (o1 o2 : Z) (c1 c2 : DebugCredential) :
  N4_parse cls data o1 = Ok c1 -> N4_parse cls data o2 = Ok c2 ->
  socc c1 = socc c2 /\ uuid c1 = uuid c2 /\ cc_socu c1 = cc_socu c2 /\
  cc_vu c1 = cc_vu c2 /\ cc_beacon c1 = cc_beacon c2 /\
  take 4 (rot_meta c1) = take 4 (rot_meta c2).
Proof.
  intros H1 H2.
  apply N4_parse_inv in H1 as (Hlen & _ & _ & _ & ->).
  apply N4_parse_inv in H2 as (_ & _ & _ & _ & ->).
  cbn [socc uuid cc_socu cc_vu cc_beacon rot_meta].
  assert (Hl4 : length (take 4 (drop 36 data)) = 4%nat)
    by (rewrite length_take, length_drop; lia).
  repeat split. by rewrite !take_app_length'.
Qed.

(** A credential placed after eight other bytes is not parsed at offset
    8: the header is still taken from the start of the buffer, where the
    flags are then read from the vendor constraint. *)
Lemma N4_parse_offset_example :
  N4_parse DebugCredentialECC256N4Analog demo_n4_blob 0 = Ok demo_n4_parsed /\
  N4_parse DebugCredentialECC256N4Analog (zeros 8 ++ demo_n4_blob) 8
    = Raise (AssertionError "").
Proof. split; vm_compute; reflexivity. Qed.

Lemma N4_parse_field_positions_witness :
  (exists c,
     N4_parse DebugCredentialECC256N4Analog (demo_n4_blob ++ demo_n4_blob) 328 = Ok c /\
     let data := demo_n4_blob ++ demo_n4_blob in
     let n := records_num_of (rot_meta c) in
     let table_pos := buffer_pos data (328 + 40) in
     let tail_pos := buffer_pos data (328 + 40 + blen (rot_meta c) - 4) in
     socc c = le_value (take 4 (drop 4 data)) /\
     uuid c = take 16 (drop 8 data) /\
     cc_socu c = le_value (take 4 (drop 24 data)) /\
     cc_vu c = le_value (take 4 (drop 28 data)) /\
     cc_beacon c = le_value (take 4 (drop 32 data)) /\
     take 4 (rot_meta c) = take 4 (drop 36 data) /\
     drop 4 (rot_meta c) =
       (if 1 <? n
        then take (Z.to_nat n * 32) (drop table_pos data)
        else []) /\
     rot_pub c = take 64 (drop tail_pos data) /\
     dck_pub c = take 64 (drop (tail_pos + 64) data) /\
     signature c = Some (take 64 (drop (tail_pos + 64 + 64) data))) /\
  (N4_parse DebugCredentialECC256N4Analog demo_n4_blob 0 = Ok demo_n4_parsed /\
   buffer_pos demo_n4_blob (0 + 40) = 40%nat /\
   buffer_pos demo_n4_blob (0 + 40 + blen (rot_meta demo_n4_parsed) - 4)
     = (36 + length (rot_meta demo_n4_parsed))%nat /\
   (is_n4 DebugCredentialECC256N4Analog = true ->
    N4_parse DebugCredentialECC256N4Analog demo_n4_blob (- blen demo_n4_blob)
      = Ok demo_n4_parsed)).
Proof.
  split.
  - exists demo_n4_parsed. split; [vm_compute; reflexivity|].
    apply (N4_parse_field_positions DebugCredentialECC256N4Analog
             (demo_n4_blob ++ demo_n4_blob) 328 demo_n4_parsed).
    vm_compute; reflexivity.
  - split; [vm_compute; reflexivity|].
    apply (N4_parse_field_positions DebugCredentialECC256N4Analog
             demo_n4_blob 0 demo_n4_parsed); [vm_compute; reflexivity|reflexivity].
Defined.

(** C10, counterexample. Offset 0 is not the only offset at which all
    fields come from the positions of the layout: the offset -328 on the
    buffer of 328 bytes denotes position 0 as well, and the parse there
    returns the credential of offset 0, every field from its place. *)
Lemma N4_parse_offset_counterexample :
  - blen demo_n4_blob = -328 /\ -328 <> 0 /\
  N4_parse DebugCredentialECC256N4Analog demo_n4_blob 0 = Ok demo_n4_parsed /\
  N4_parse DebugCredentialECC256N4Analog demo_n4_blob (-328) = Ok demo_n4_parsed /\
  socc demo_n4_parsed = le_value (take 4 (drop 4 demo_n4_blob)) /\
  uuid demo_n4_parsed = take 16 (drop 8 demo_n4_blob) /\
  cc_socu demo_n4_parsed = le_value (take 4 (drop 24 demo_n4_blob)) /\
  cc_vu demo_n4_parsed = le_value (take 4 (drop 28 demo_n4_blob)) /\
  cc_beacon demo_n4_parsed = le_value (take 4 (drop 32 demo_n4_blob)) /\
  rot_meta demo_n4_parsed = take 100 (drop 36 demo_n4_blob) /\
  rot_pub demo_n4_parsed = take 64 (drop 136 demo_n4_blob) /\
  dck_pub demo_n4_parsed = take 64 (drop 200 demo_n4_blob) /\
  signature demo_n4_parsed = Some (take 64 (drop 264 demo_n4_blob)).
Proof. repeat split; vm_compute; congruence. Qed.

(** ** pack followed by unpack *)

Lemma pack_item_fits (f : fmt_item) (v : pyval) :
  fits f v ->
  exists b, pack_item f v = Ok b /\ length b = item_size f /\ unpack_item f b = v.
Proof.
  destruct f, v; cbn [fits]; try done; intros Hf.
  - exists (le_bytes 2 z). cbn [pack_item item_size unpack_item].
    destruct (Z.leb_spec 0 z); [|lia]. destruct (Z.ltb_spec z (2 ^ 16)); [|lia].
    split; [done|]. split; [apply le_bytes_length|].
    by rewrite le_value_le_bytes.
  - exists (le_bytes 4 z). cbn [pack_item item_size unpack_item].
    destruct (Z.leb_spec 0 z); [|lia]. destruct (Z.ltb_spec z (2 ^ 32)); [|lia].
    split; [done|]. split; [apply le_bytes_length|].
    by rewrite le_value_le_bytes.
  - exists b. cbn [pack_item item_size unpack_item]. subst n.
    rewrite take_ge by lia. rewrite Nat.sub_diag. cbn. by rewrite app_nil_r.
Qed.

Lemma unpack_cons_app (f : fmt_item) (fmt : format) (b rest : bytes) :
  length b = item_size f ->
  unpack (f :: fmt) (b ++ rest) = unpack_item f b :: unpack fmt rest.
Proof.
  intros Hb. cbn [unpack].
  by rewrite take_app_length', drop_app_length'.
Qed.

Lemma pack_fits (fmt : format) (vs : list pyval) :
  Forall2 fits fmt vs ->
  exists out,
    pack fmt vs = Ok out /\ length out = calcsize fmt /\
    forall rest, unpack fmt (out ++ rest) = vs.
Proof.
  induction 1 as [|f v fmt vs Hf _ (out & Hp & Hl & Hu)].
  - exists []. done.
  - apply pack_item_fits in Hf as (b & Hb & Hlb & Hub).
    exists (b ++ out). cbn [pack]. rewrite Hb, Hp. cbn [bind].
    split; [done|]. split.
    + rewrite length_app, Hlb, Hl. reflexivity.
    + intros rest. rewrite <- app_assoc, unpack_cons_app by done.
      by rewrite Hub, Hu.
Qed.

Lemma unpack_app (f1 f2 : format) (data : bytes) :
  unpack (f1 ++ f2) data = unpack f1 data ++ unpack f2 (drop (calcsize f1) data).
Proof.
  revert data. induction f1 as [|f f1 IH]; intros data; [done|].
  cbn [app unpack]. rewrite IH, drop_drop. reflexivity.
Qed.

(** ** Export followed by parse, fixed-layout classes *)

Lemma get_class_VERSION (k : klass) (socc : Z) :
  is_n4 k = false -> socc <> 4 -> _get_class (VERSION k) socc = Ok k.
Proof.
  intros Hk Hs. unfold _get_class.
  destruct (Z.eqb_spec socc 4); [done|].
  by destruct k.
Qed.

Lemma fixed_export_parse (c : DebugCredential) :
  fixed_fields_fit c ->
  exists out,
    export c = Ok out /\
    parse (dc_class c) out 0 = Ok (set_signature_provider c (Some None)).
Proof.
  intros (Hn & Hs & v & sig & Hv & Hsig & Hne & Hfit).
  destruct (pack_fits _ _ Hfit) as (out & Hp & Hl & Hu).
  specialize (Hu []). rewrite app_nil_r in Hu.
  exists out. split.
  { unfold export, base_export. rewrite Hn, Hsig.
    destruct sig; [done|]. cbn [truthy]. rewrite Hv. cbn [bind opt_bytes].
    exact Hp. }
  unfold parse, base_parse. rewrite Hn.
  destruct c as [k so uu rm dk cs cv cb rp sg sp]. cbn in *. subst sg.
  assert (H8 : (8 <= length out)%nat).
  { rewrite Hl. destruct k; unfold calcsize; cbn; lia. }
  rewrite unpack_from_0 by (cbn; lia).
  cbn [unpack unpack_item item_size bind].
  change (0 + 4) with (Z.of_nat 4).
  rewrite (unpack_from_nat [FL] out 4) by (cbn; lia).
  cbn [unpack unpack_item item_size bind].
  destruct k; try discriminate; injection Hv as <-; cbn [map app fixed_values] in Hu.
  all: cbn [fixed_FORMAT fixed_FORMAT_NO_SIG app unpack unpack_item item_size] in Hu.
  all: rewrite !drop_drop in Hu; cbn [Nat.add] in Hu.
  all: injection Hu as Hv0 Hv1 Hso Huu Hrm Hdk Hcs Hcv Hcb Hrp Hsg.
  all: rewrite Hv0, Hv1, Hso.
  all: match type of Hn with
       | is_n4 ?K = false =>
           match goal with
           | |- context [_get_class ?s ?z] =>
               change s with (VERSION K); rewrite (get_class_VERSION K z Hn Hs)
           end
       end.
  all: cbn [bind class_FORMAT is_n4].
  all: rewrite unpack_from_0 by (rewrite Hl; lia).
  all: cbn [fixed_FORMAT fixed_FORMAT_NO_SIG app unpack unpack_item item_size bind].
  all: rewrite !drop_drop; cbn [Nat.add].
  all: rewrite Hso, Huu, Hrm, Hdk, Hcs, Hcv, Hcb, Hrp, Hsg.
  all: reflexivity.
Qed.

Lemma base_eq_provider (c1 c2 : DebugCredential) :
  signature_provider c1 <> signature_provider c2 -> base_eq c1 c2 = false.
Proof.
  intros Hp. unfold base_eq, vars. apply bool_decide_eq_false.
  intros Heq. apply Hp. congruence.
Qed.

(** C1. A signed credential of a fixed-layout class, every field at the
    width of its format, is exported and the export is parsed back to the
    same class with the same serialized fields; the parsed object has no
    signature provider, the original has one, and DebugCredential.__eq__
    compares that attribute too: the two objects are not equal. *)
Theorem fixed_round_trip_not_equal (c : DebugCredential) (p : provider) :
  fixed_fields_fit c ->
  signature_provider c = Some (Some p) ->
  exists out parsed,
    export c = Ok out /\
    parse (dc_class c) out 0 = Ok parsed /\
    dc_class parsed = dc_class c /\
    vars (del_signature_provider parsed) = vars (del_signature_provider c) /\
    base_eq parsed c = false /\ base_eq c parsed = false /\
    forall (h : heap) (l1 l2 : loc),
      h !! l1 = Some parsed -> h !! l2 = Some c ->
      py_eq h l1 l2 = (h, Ok false) /\ py_eq h l2 l1 = (h, Ok false).
Proof.
  intros Hfit Hp. pose proof Hfit as (Hn & _).
  destruct (fixed_export_parse c Hfit) as (out & He & Hparse).
  exists out, (set_signature_provider c (Some None)).
  assert (H1 : base_eq (set_signature_provider c (Some None)) c = false)
    by (apply base_eq_provider; cbn; rewrite Hp; discriminate).
  assert (H2 : base_eq c (set_signature_provider c (Some None)) = false)
    by (apply base_eq_provider; cbn; rewrite Hp; discriminate).
  do 6 (split; [done|]).
  intros h l1 l2 Hl1 Hl2. unfold py_eq. rewrite Hl1, Hl2.
  cbn [dc_class set_signature_provider]. by rewrite Hn, H1, H2.
Qed.

(** ** Export followed by parse, N4 classes *)

Lemma calcsize_N4_FORMAT (k : klass) (L : nat) :
  calcsize (N4_FORMAT k L) = (36 + L + 3 * (HASH_LENGTH k * 2))%nat.
Proof. unfold calcsize, N4_FORMAT. cbn [map item_size]. simpl sum_list. lia. Qed.

Lemma unpack_three (a : nat) (data : bytes) (pos : nat) :
  unpack [FS a; FS a; FS a] (drop pos data) =
    [VBytes (take a (drop pos data)); VBytes (take a (drop (pos + a) data));
     VBytes (take a (drop (pos + a + a) data))].
Proof.
  cbn [unpack unpack_item item_size]. rewrite !drop_drop.
  repeat f_equal; lia.
Qed.

Lemma get_class_no_version_0_0 (socc : Z) :
  _get_class "0.0" socc = Raise (UnsupportedVariant "0.0").
Proof. unfold _get_class. by destruct (socc =? 4). Qed.

(** The bytes an N4 credential exports are parsed back by the parser of
    its class; the parser of the base class, which resolves the class
    from the first eight bytes, finds the version 0.0 there and raises. *)
Lemma n4_export_parse (c : DebugCredential) :
  n4_fields_fit c ->
  exists out,
    export c = Ok out /\
    parse (dc_class c) out 0 = Ok (set_signature_provider c (Some None)) /\
    base_parse out 0 = Raise (UnsupportedVariant "0.0").
Proof.
  intros (Hn & (flags & table & Hm & Hfr & Hbit & Htl) & sig & Hsig & Hfit).
  destruct (pack_fits _ _ Hfit) as (out & Hp & Hl & Hu).
  specialize (Hu []). rewrite app_nil_r in Hu.
  exists out. split.
  { unfold export, N4_export. rewrite Hn, (version_ints_n4 _ Hn), Hsig.
    cbn [bind opt_bytes]. exact Hp. }
  clear Hp Hfit.
  unfold parse, N4_parse. rewrite Hn.
  destruct c as [k so uu rm dk cs cv cb rp sg sp].
  cbn [dc_class socc uuid rot_meta dck_pub cc_socu cc_vu cc_beacon rot_pub
       signature signature_provider n4_values set_signature_provider map app] in *.
  subst sg.
  rewrite calcsize_N4_FORMAT in Hl.
  assert (HL : length rm = (4 + length table)%nat)
    by (rewrite Hm, length_app, le_bytes_length; reflexivity).
  set (L := length rm) in *. clearbody L.
  set (HL2 := (HASH_LENGTH k * 2)%nat) in *.
  change (N4_FORMAT k L)
    with ([FH; FH; FL; FS 16; FL; FL; FL] ++ [FS L] ++ [FS HL2; FS HL2; FS HL2]) in Hu.
  rewrite !unpack_app in Hu.
  change (calcsize [FH; FH; FL; FS 16; FL; FL; FL]) with 36%nat in Hu.
  replace (calcsize [FS L]) with L in Hu by (unfold calcsize; simpl; lia).
  set (d36 := drop 36 out) in Hu.
  cbn [unpack unpack_item item_size app] in Hu.
  rewrite !drop_drop in Hu. cbn [Nat.add] in Hu.
  injection Hu as Hv0 Hv1 Hso Huu Hcs Hcv Hcb Hrm Hrp Hdk Hsg.
  subst d36.
  (* the flags and the table inside the exported bytes *)
  assert (Hflags : take 4 (drop 36 out) = le_bytes 4 flags).
  { replace (take 4 (drop 36 out)) with (take 4 (take L (drop 36 out)))
      by (rewrite take_take; f_equal; lia).
    rewrite Hrm, Hm. by rewrite take_app_length' by (by rewrite le_bytes_length). }
  assert (Htable : take (length table) (drop 40 out) = table).
  { replace (drop 40 out) with (drop 4 (drop 36 out)) by (by rewrite drop_drop).
    rewrite take_drop_commute, <- HL, Hrm, Hm.
    by rewrite drop_app_length' by (by rewrite le_bytes_length). }
  split; [|
    unfold base_parse;
    rewrite unpack_from_0 by (unfold calcsize; simpl; lia);
    cbn [bind unpack unpack_item item_size];
    rewrite Hv0, Hv1;
    change (0 + 4) with (Z.of_nat 4);
    rewrite (unpack_from_nat [FL] out 4) by (unfold calcsize; simpl; lia);
    cbn [bind unpack unpack_item item_size];
    change (string_of_Z 0 +:+ "." +:+ string_of_Z 0) with "0.0";
    by rewrite get_class_no_version_0_0 ].
  (* the header *)
  rewrite unpack_from_0 by (change (calcsize format_head) with 40%nat; lia).
  cbn [bind unpack format_head unpack_item item_size].
  rewrite !drop_drop. cbn [Nat.add].
  rewrite Hflags, le_value_le_bytes by exact Hfr.
  destruct (Z.eqb_spec (Z.land flags 0x80000000) 0) as [|_]; [done|].
  change (Z.of_nat (calcsize format_head)) with (Z.of_nat 40).
  change (0 + Z.of_nat 40) with (Z.of_nat 40).
  rewrite (pack_L_total flags Hfr).
  set (n := Z.shiftr (Z.land flags 0xF0) 4) in *.
  assert (Hctrk :
    (if 1 <? n
     then let* t := unpack_from [FS (Z.to_nat n * HASH_LENGTH k)] out (Z.of_nat 40) in
          match t with [VBytes b] => Ok b | _ => Raise TypeError end
     else Ok []) = Ok table).
  { destruct (1 <? n).
    - rewrite unpack_from_nat by (unfold calcsize; simpl; lia).
      cbn [bind unpack unpack_item item_size]. by rewrite <- Htl, Htable.
    - by destruct table. }
  rewrite Hctrk. cbn [bind].
  replace (Z.of_nat 40 + blen (le_bytes 4 flags ++ table) - 4)
    with (Z.of_nat (36 + L))
    by (unfold blen; rewrite length_app, le_bytes_length; lia).
  rewrite unpack_from_nat by (unfold calcsize; simpl; lia).
  rewrite unpack_three. cbn [bind set_signature_provider dc_class socc uuid
    rot_meta dck_pub cc_socu cc_vu cc_beacon rot_pub signature].
  rewrite drop_drop in Hrp, Hdk, Hsg.
  replace (36 + (L + HL2))%nat with (36 + L + HL2)%nat in Hdk by lia.
  replace (36 + (L + HL2 + HL2))%nat with (36 + L + HL2 + HL2)%nat in Hsg by lia.
  by rewrite Hso, Huu, Hcs, Hcv, Hcb, Hrp, Hdk, Hsg, Hm.
Qed.

(** X6. For the N4 classes the round trip holds: the parsed object compares
    equal to the original, the comparison leaving both without their
    signature-provider attribute. *)
Theorem n4_round_trip_equal (c : DebugCredential) :
  n4_fields_fit c ->
  signature_provider c <> None ->
  exists out parsed,
    export c = Ok out /\
    parse (dc_class c) out 0 = Ok parsed /\
    dc_class parsed = dc_class c /\
    vars (del_signature_provider parsed) = vars (del_signature_provider c) /\
    forall (h : heap) (l1 l2 : loc),
      l1 <> l2 -> h !! l1 = Some parsed -> h !! l2 = Some c ->
      exists h', py_eq h l1 l2 = (h', Ok true).
Proof.
  intros Hfit Hp. pose proof Hfit as (Hn & _).
  destruct (n4_export_parse c Hfit) as (out & He & Hparse & _).
  exists out, (set_signature_provider c (Some None)).
  do 4 (split; [done|]).
  intros h l1 l2 Hne Hl1 Hl2. unfold py_eq. rewrite Hl1, Hl2.
  cbn [dc_class set_signature_provider]. rewrite Hn.
  unfold N4_eq, del_provider_at. rewrite Hl1.
  cbn [signature_provider set_signature_provider].
  rewrite lookup_insert_ne, Hl2 by done.
  destruct (signature_provider c); [|done].
  rewrite lookup_insert_eq, lookup_insert_ne, lookup_insert_eq by done.
  eexists. f_equal. f_equal. by apply bool_decide_eq_true.
Qed.

Lemma demo_ecc256_fields_fit : fixed_fields_fit demo_ecc256_signed.
Proof.
  split; [reflexivity|]. split; [discriminate|].
  eexists _, _. split; [reflexivity|]. split; [reflexivity|].
  split; [discriminate|].
  cbn [dc_class demo_ecc256_signed fixed_FORMAT fixed_FORMAT_NO_SIG app map fixed_values
       socc uuid rot_meta dck_pub cc_socu cc_vu cc_beacon rot_pub].
  repeat (apply List.Forall2_cons;
          [vm_compute; first [reflexivity | split; [discriminate|reflexivity]]|]).
  apply List.Forall2_nil.
Qed.

Lemma demo_n4_fields_fit : n4_fields_fit demo_n4_signed.
Proof.
  split; [reflexivity|]. split.
  - exists 0x80000130, (drop 4 (rot_meta demo_n4_signed)).
    split; [reflexivity|]. split; [lia|]. split; [discriminate|]. reflexivity.
  - eexists. split; [reflexivity|].
    cbn [dc_class demo_n4_signed N4_FORMAT app map n4_values
       socc uuid rot_meta dck_pub cc_socu cc_vu cc_beacon rot_pub].
    repeat (apply List.Forall2_cons;
            [vm_compute; first [reflexivity | split; [discriminate|reflexivity]]|]).
    apply List.Forall2_nil.
Qed.

Lemma fixed_round_trip_not_equal_witness :
  fixed_fields_fit demo_ecc256_signed /\
  signature_provider demo_ecc256_signed = Some (Some 1%positive) /\
  exists out parsed,
    export demo_ecc256_signed = Ok out /\
    parse (dc_class demo_ecc256_signed) out 0 = Ok parsed /\
    dc_class parsed = dc_class demo_ecc256_signed /\
    vars (del_signature_provider parsed) = vars (del_signature_provider demo_ecc256_signed) /\
    base_eq parsed demo_ecc256_signed = false /\
    base_eq demo_ecc256_signed parsed = false /\
    forall (h : heap) (l1 l2 : loc),
      h !! l1 = Some parsed -> h !! l2 = Some demo_ecc256_signed ->
      py_eq h l1 l2 = (h, Ok false) /\ py_eq h l2 l1 = (h, Ok false).
Proof.
  split; [exact demo_ecc256_fields_fit|]. split; [reflexivity|].
  exact (fixed_round_trip_not_equal demo_ecc256_signed 1%positive
           demo_ecc256_fields_fit eq_refl).
Defined.

(** * Further properties of the credential codec *)

(** ** Signing and exporting *)

Lemma set_signature_eta (c : DebugCredential) : set_signature c (signature c) = c.
Proof. by destruct c. Qed.

Lemma pack_snoc (fmt : format) (vs : list pyval) (f : fmt_item) (v : pyval)
    (data b : bytes) :
  pack fmt vs = Ok data -> pack_item f v = Ok b ->
  pack (fmt ++ [f]) (vs ++ [v]) = Ok (data ++ b).
Proof.
  revert vs data. induction fmt as [|g fmt IH]; intros [|w vs] data; cbn [pack app];
    try discriminate.
  - intros [= <-] ->. cbn [bind]. by rewrite app_nil_r.
  - destruct (pack_item g w) as [bg|]; [|discriminate]. cbn [bind].
    destruct (pack fmt vs) as [bs|] eqn:Hp; [|discriminate]. cbn [bind].
    intros [= <-] Hb. rewrite (IH vs bs Hp Hb). cbn [bind].
    by rewrite app_assoc.
Qed.

Lemma export_after_data (c : DebugCredential) (data sig : bytes) :
  _get_data_to_sign c = Ok data ->
  signature c = Some sig -> sig <> [] ->
  export c = Ok (data ++ take (signature_size (dc_class c)) sig
                      ++ zeros (signature_size (dc_class c) - length sig)).
Proof.
  intros Hd Hs Hne. unfold export, _get_data_to_sign in *.
  destruct (is_n4 (dc_class c)) eqn:Hn.
  - unfold N4_export, N4_get_data_to_sign in *.
    destruct (version_ints (dc_class c)) as [v|]; [|discriminate].
    cbn [bind] in *. rewrite Hs. cbn [opt_bytes].
    change (N4_FORMAT (dc_class c) (length (rot_meta c)))
      with (N4_FORMAT_NO_SIG (dc_class c) (length (rot_meta c))
            ++ [FS (HASH_LENGTH (dc_class c) * 2)]).
    match goal with
    | |- pack _ (?a ++ ?l) = _ =>
        change l with ([VInt (socc c); VBytes (uuid c); VInt (cc_socu c); VInt (cc_vu c);
                        VInt (cc_beacon c); VBytes (rot_meta c); VBytes (rot_pub c);
                        VBytes (dck_pub c)] ++ [VBytes sig])
    end.
    rewrite app_assoc. erewrite pack_snoc; [|exact Hd|reflexivity].
    by destruct (dc_class c).
  - unfold base_export, base_get_data_to_sign in *. rewrite Hs.
    destruct sig as [|b sig]; [done|]. cbn [truthy opt_bytes].
    destruct (version_ints (dc_class c)) as [v|]; [|discriminate].
    cbn [bind] in *.
    unfold fixed_FORMAT.
    match goal with
    | |- pack _ (?a ++ ?l) = _ =>
        change l with ([VInt (socc c); VBytes (uuid c); VBytes (rot_meta c);
                        VBytes (dck_pub c); VInt (cc_socu c); VInt (cc_vu c);
                        VInt (cc_beacon c); VBytes (rot_pub c)] ++ [VBytes (b :: sig)])
    end.
    rewrite app_assoc.
    destruct (dc_class c); try discriminate;
      (erewrite pack_snoc; [|exact Hd|reflexivity]); reflexivity.
Qed.

Section SignExport.
Context `{Crypto}.

Lemma sign_frame (c c' : DebugCredential) (r : result unit) :
  sign c = (c', r) -> c' = set_signature c (signature c').
Proof.
  unfold sign, ECC_sign, base_sign.
  destruct (is_rsa (dc_class c));
    destruct (signature_provider c) as [[p|]|];
    try (intros [= <- <-]; by rewrite set_signature_eta).
  all: destruct (_get_data_to_sign c) as [data|];
    try (intros [= <- <-]; by rewrite set_signature_eta).
  all: destruct (SignatureProvider_sign p data) as [[|b raw]|];
    try (intros [= <- <-]; by rewrite ?set_signature_eta).
  cbn [signature set_signature dc_class].
  destruct (decode_dss_signature (b :: raw)) as [[r0 s0]|];
    try (intros [= <- <-]; reflexivity).
  destruct (ecc_public_numbers_to_bytes r0 s0 _); intros [= <- <-]; reflexivity.
Qed.

Lemma sign_ok (c c' : DebugCredential) :
  sign c = (c', Ok tt) ->
  exists data sig,
    _get_data_to_sign c = Ok data /\ signature c' = Some sig /\ sig <> [] /\
    (is_rsa (dc_class c) = false -> length sig = signature_size (dc_class c)).
Proof.
  unfold sign. destruct (is_rsa (dc_class c)) eqn:Hr; intros Hs.
  - apply base_sign_ok in Hs as (p & data & raw & _ & Hd & _ & Hne & ->).
    exists data, raw. done.
  - apply ECC_sign_ok in Hs as (p & data & raw & r & s & sig & _ & Hd & _ & _ & _ & He & ->).
    exists data, sig. split; [done|]. split; [done|].
    apply ecc_public_numbers_to_bytes_length in He.
    split.
    + intros ->. destruct (dc_class c); try discriminate; discriminate.
    + intros _. rewrite He. by destruct (dc_class c).
Qed.

(** X1. sign changes no attribute but the signature, whether it returns
    or raises; when it returns, export gives the bytes that were signed
    followed by the signature field, which for the ECC classes is the
    stored signature itself. *)
Theorem sign_then_export (c c' : DebugCredential) (r : result unit) :
  sign c = (c', r) ->
  c' = set_signature c (signature c') /\
  (r = Ok tt ->
   exists data sig,
     _get_data_to_sign c = Ok data /\ signature c' = Some sig /\
     export c' = Ok (data ++ take (signature_size (dc_class c)) sig
                          ++ zeros (signature_size (dc_class c) - length sig)) /\
     (is_rsa (dc_class c) = false -> export c' = Ok (data ++ sig))).
Proof.
  intros Hs. pose proof (sign_frame _ _ _ Hs) as Hf. split; [exact Hf|].
  intros ->. destruct (sign_ok _ _ Hs) as (data & sig & Hd & Hsig & Hne & Hlen).
  assert (Hd' : _get_data_to_sign c' = Ok data).
  { rewrite Hf. unfold _get_data_to_sign, N4_get_data_to_sign, base_get_data_to_sign.
    exact Hd. }
  assert (Hk : dc_class c' = dc_class c) by (rewrite Hf; reflexivity).
  pose proof (export_after_data c' data sig Hd' Hsig Hne) as He. rewrite Hk in He.
  exists data, sig. split; [done|]. split; [done|]. split; [done|].
  intros Hr. specialize (Hlen Hr).
  rewrite He, take_ge by lia. rewrite Hlen, Nat.sub_diag.
  cbn. by rewrite app_nil_r.
Qed.

End SignExport.

Lemma sign_then_export_witness :
  sign (H := Demo.crypto) demo_ecc256_unsigned = (demo_ecc256_signed, Ok tt) /\
  demo_ecc256_signed =
    set_signature demo_ecc256_unsigned (signature demo_ecc256_signed) /\
  (Ok tt = Ok tt ->
   exists data sig,
     _get_data_to_sign demo_ecc256_unsigned = Ok data /\
     signature demo_ecc256_signed = Some sig /\
     export demo_ecc256_signed
       = Ok (data ++ take (signature_size (dc_class demo_ecc256_unsigned)) sig
                  ++ zeros (signature_size (dc_class demo_ecc256_unsigned) - length sig)) /\
     (is_rsa (dc_class demo_ecc256_unsigned) = false ->
      export demo_ecc256_signed = Ok (data ++ sig))).
Proof.
  split; [vm_compute; reflexivity|].
  apply (sign_then_export (H := Demo.crypto) demo_ecc256_unsigned demo_ecc256_signed (Ok tt)).
  vm_compute. reflexivity.
Defined.

(** ** What the parsers return *)

Lemma fixed_FORMAT_calcsize (k : klass) :
  calcsize (fixed_FORMAT k) =
    match k with
    | DebugCredentialRSA2048 => 940%nat
    | DebugCredentialRSA4096 => 1708%nat
    | _ => 832%nat
    end.
Proof. by destruct k. Qed.

Lemma fixed_FORMAT_calcsize_ge (k : klass) :
  (832 <= calcsize (fixed_FORMAT k))%nat.
Proof. destruct k; vm_compute; lia. Qed.

Lemma buffer_pos_add (data : bytes) (offset : Z) (n size : nat) :
  (n < size)%nat ->
  (buffer_pos data offset + size <= length data)%nat ->
  (offset < 0 -> 0 <= offset + blen data) ->
  buffer_pos data (offset + Z.of_nat n) = (buffer_pos data offset + n)%nat.
Proof.
  unfold buffer_pos, blen. intros Hn Hs Hneg.
  destruct (Z.ltb_spec offset 0); destruct (Z.ltb_spec (offset + Z.of_nat n) 0); lia.
Qed.

Lemma unpack_from_neg_ok (fmt : format) (data : bytes) (offset : Z) (vs : list pyval) :
  unpack_from fmt data offset = Ok vs -> offset < 0 -> 0 <= offset + blen data.
Proof.
  unfold unpack_from. intros Hv Hneg.
  destruct (Z.ltb_spec offset 0); [|lia].
  destruct (Z.ltb_spec (offset + blen data) 0); [discriminate|lia].
Qed.

(** The value DebugCredential.parse returns, written out. *)
Lemma base_parse_inv (data : bytes) (offset : Z) (c : DebugCredential) :
  base_parse data offset = Ok c ->
  exists vh vl sig,
    is_n4 (dc_class c) = false /\
    _get_class (string_of_Z vh +:+ "." +:+ string_of_Z vl) (socc c) = Ok (dc_class c) /\
    (buffer_pos data offset + calcsize (fixed_FORMAT (dc_class c)) <= length data)%nat /\
    unpack (fixed_FORMAT (dc_class c)) (drop (buffer_pos data offset) data)
      = VInt vh :: VInt vl :: fixed_values c sig /\
    signature c = Some sig /\ signature_provider c = Some None.
Proof.
  unfold base_parse.
  destruct (unpack_from [FH; FH] data offset) as [v|] eqn:Hv; [|discriminate].
  pose proof (unpack_from_neg_ok _ _ _ _ Hv) as Hneg.
  apply unpack_from_pos in Hv as (_ & ->).
  set (pos := buffer_pos data offset) in *.
  cbn [bind unpack unpack_item item_size].
  destruct (unpack_from [FL] data (offset + 4)) as [s|] eqn:Hs; [|discriminate].
  apply unpack_from_pos in Hs as (_ & ->).
  cbn [bind unpack unpack_item item_size].
  set (vh := le_value (take 2 (drop pos data))).
  set (vl := le_value (take 2 (drop 2 (drop pos data)))).
  destruct (_get_class _ _) as [k|] eqn:Hk; [|discriminate]. cbn [bind].
  unfold class_FORMAT.
  destruct (is_n4 k) eqn:Hn; [discriminate|]. cbn [bind].
  destruct (unpack_from (fixed_FORMAT k) data offset) as [vals|] eqn:Hvals; [|discriminate].
  apply unpack_from_pos in Hvals as (Hlen & ->). fold pos in Hlen |- *.
  assert (Hpos4 : buffer_pos data (offset + 4) = (pos + 4)%nat).
  { change 4 with (Z.of_nat 4).
    apply (buffer_pos_add data offset 4 (calcsize (fixed_FORMAT k))); try done.
    pose proof (fixed_FORMAT_calcsize_ge k). lia. }
  rewrite Hpos4 in Hk.
  cbn [bind].
  destruct k; try discriminate;
    cbn [fixed_FORMAT fixed_FORMAT_NO_SIG app unpack unpack_item item_size];
    intros [= <-];
    cbn [dc_class socc signature signature_provider fixed_values
         uuid rot_meta dck_pub cc_socu cc_vu cc_beacon rot_pub];
    eexists vh, vl, _;
    (split; [reflexivity|]); (split; [|split; [exact Hlen|split; [reflexivity|done]]]);
    rewrite <- Hk; rewrite !drop_drop; repeat f_equal; lia.
Qed.

(** ** Parsing followed by export *)

Lemma pack_item_unpack_item (f : fmt_item) (b : bytes) :
  length b = item_size f -> pack_item f (unpack_item f b) = Ok b.
Proof.
  intros Hb. pose proof (le_value_range b) as Hr. unfold blen in Hr.
  destruct f; cbn [pack_item unpack_item item_size] in *.
  - rewrite Hb in Hr. change (2 ^ (8 * Z.of_nat 2)) with (2 ^ 16) in Hr.
    destruct (Z.leb_spec 0 (le_value b)); [|lia].
    destruct (Z.ltb_spec (le_value b) (2 ^ 16)); [|lia].
    cbn [andb]. by rewrite <- Hb, le_bytes_le_value.
  - rewrite Hb in Hr. change (2 ^ (8 * Z.of_nat 4)) with (2 ^ 32) in Hr.
    destruct (Z.leb_spec 0 (le_value b)); [|lia].
    destruct (Z.ltb_spec (le_value b) (2 ^ 32)); [|lia].
    cbn [andb]. by rewrite <- Hb, le_bytes_le_value.
  - rewrite take_ge by lia. rewrite Hb, Nat.sub_diag. cbn. by rewrite app_nil_r.
Qed.

Lemma pack_unpack (fmt : format) (d : bytes) :
  (calcsize fmt <= length d)%nat ->
  pack fmt (unpack fmt d) = Ok (take (calcsize fmt) d).
Proof.
  revert d. induction fmt as [|f fmt IH]; intros d Hd; [done|].
  unfold calcsize in *. cbn [map sum_list sum_list_with] in Hd |- *.
  change (sum_list_with id (map item_size fmt)) with (calcsize fmt) in *.
  change (id (item_size f)) with (item_size f) in *.
  cbn [unpack pack].
  rewrite pack_item_unpack_item by (rewrite length_take; lia). cbn [bind].
  rewrite IH by (rewrite length_drop; lia). cbn [bind].
  by rewrite take_take_drop.
Qed.

(** Decimal printing of a 16-bit number is read back by [int], and has
    no dot in it. *)
Lemma decimal_ok_from_spec (n : nat) (a v : Z) :
  decimal_ok_from n a = true -> a <= v < a + Z.of_nat n -> decimal_ok v = true.
Proof.
  revert a. induction n as [|n IH]; intros a; cbn [decimal_ok_from]; [lia|].
  intros [Hn Hb]%andb_true_iff Hv.
  destruct (decide (v = a)) as [->|Hne]; [done|].
  apply (IH (a + 1)); [done|lia].
Qed.

Lemma decimal_ok_u16 (v : Z) : 0 <= v < 2 ^ 16 -> decimal_ok v = true.
Proof.
  intros Hv. apply (decimal_ok_from_spec (Z.to_nat (2 ^ 16)) 0).
  - vm_compute. reflexivity.
  - lia.
Qed.

Lemma append_cons (a : ascii) (s t : string) :
  String a s +:+ t = String a (s +:+ t).
Proof. reflexivity. Qed.

Lemma append_nil (s : string) : "" +:+ s = s.
Proof. reflexivity. Qed.

Lemma append_empty_r (s : string) : s +:+ "" = s.
Proof. induction s as [|a s IH]; [done|]. by rewrite append_cons, IH. Qed.

Lemma append_String_assoc (cur : string) (a : ascii) (s : string) :
  (cur +:+ String a "") +:+ s = cur +:+ String a s.
Proof.
  induction cur as [|b cur IH]; [done|]. by rewrite !append_cons, IH.
Qed.

Lemma split_dot_no_dot (cur s : string) :
  has_dot s = false -> split_dot cur s = [cur +:+ s].
Proof.
  revert cur. induction s as [|a s IH]; intros cur; cbn [has_dot split_dot].
  - intros _. by rewrite append_empty_r.
  - destruct (Ascii.eqb a "."); [done|]. cbn [orb]. intros Hs.
    by rewrite IH, append_String_assoc.
Qed.

Lemma split_dot_two (cur a b : string) :
  has_dot a = false -> has_dot b = false ->
  split_dot cur (a +:+ "." +:+ b) = [cur +:+ a; b].
Proof.
  revert cur. induction a as [|x a IH]; intros cur Ha Hb.
  - rewrite append_nil, append_cons, append_nil. cbn [split_dot].
    change (Ascii.eqb "." ".") with true. cbn iota.
    rewrite append_empty_r. f_equal. by apply split_dot_no_dot.
  - cbn [has_dot] in Ha. rewrite append_cons. cbn [split_dot].
    destruct (Ascii.eqb x "."); [done|]. cbn [orb] in Ha.
    by rewrite IH, append_String_assoc.
Qed.

Lemma fixed_registry_VERSION (version : string) (k : klass) :
  fixed_registry version k -> version = VERSION k.
Proof. by intros [[-> ->]|[[-> ->]|[[-> ->]|[[-> ->]|[-> ->]]]]]. Qed.

Lemma version_ints_of_format (vh vl socc : Z) (k : klass) :
  0 <= vh < 2 ^ 16 -> 0 <= vl < 2 ^ 16 ->
  is_n4 k = false ->
  _get_class (string_of_Z vh +:+ "." +:+ string_of_Z vl) socc = Ok k ->
  version_ints k = Ok [vh; vl] /\ socc <> 4.
Proof.
  intros Hh Hl Hn Hk.
  assert (Hs : socc <> 4).
  { intros ->. apply get_class_variable in Hk as [[_ ->]|[_ ->]]; discriminate. }
  split; [|exact Hs].
  apply (get_class_fixed _ _ _ Hs), fixed_registry_VERSION in Hk.
  unfold version_ints. rewrite <- Hk.
  pose proof (decimal_ok_u16 vh Hh) as Dh. pose proof (decimal_ok_u16 vl Hl) as Dl.
  unfold decimal_ok in Dh, Dl.
  destruct (py_int (string_of_Z vh)) as [vh'|] eqn:Eh; [|discriminate].
  destruct (py_int (string_of_Z vl)) as [vl'|] eqn:El; [|discriminate].
  apply andb_true_iff in Dh as [Dh1 Dh2], Dl as [Dl1 Dl2].
  apply Z.eqb_eq in Dh1, Dl1. apply negb_true_iff in Dh2, Dl2. subst.
  rewrite split_dot_two by done. rewrite append_nil. cbn [mapM].
  rewrite Eh, El. reflexivity.
Qed.

(** X4. What the parser of the fixed-layout classes returns exports to the
    very bytes it was read from: the bytes of the format's size at the
    offset given, also a negative one. *)
Theorem fixed_parse_export (data : bytes) (offset : Z) (c : DebugCredential) :
  base_parse data offset = Ok c ->
  export c = Ok (take (calcsize (fixed_FORMAT (dc_class c)))
                   (drop (buffer_pos data offset) data)).
Proof.
  intros Hc. apply base_parse_inv in Hc as (vh & vl & sig & Hn & Hk & Hlen & Hu & Hs & _).
  set (d := drop (buffer_pos data offset) data) in *.
  assert (Hd : (calcsize (fixed_FORMAT (dc_class c)) <= length d)%nat)
    by (unfold d; rewrite length_drop; lia).
  assert (Hv : vh = le_value (take 2 d) /\ vl = le_value (take 2 (drop 2 d))).
  { destruct (dc_class c); try discriminate;
      cbn [fixed_FORMAT fixed_FORMAT_NO_SIG app unpack unpack_item item_size] in Hu;
      injection Hu as -> ->; done. }
  assert (Hh : 0 <= vh < 2 ^ 16 /\ 0 <= vl < 2 ^ 16).
  { pose proof (fixed_FORMAT_calcsize_ge (dc_class c)).
    destruct Hv as [-> ->]. split.
    - pose proof (le_value_range (take 2 d)) as Hr. unfold blen in Hr.
      rewrite length_take in Hr. replace (2 `min` length d)%nat with 2%nat in Hr by lia.
      exact Hr.
    - pose proof (le_value_range (take 2 (drop 2 d))) as Hr. unfold blen in Hr.
      rewrite length_take, length_drop in Hr.
      replace (2 `min` (length d - 2))%nat with 2%nat in Hr by lia.
      exact Hr. }
  destruct Hh as [Hh Hl].
  destruct (version_ints_of_format vh vl (socc c) (dc_class c) Hh Hl Hn Hk) as [Hvi _].
  assert (Hsig : sig <> []).
  { intros ->. pose proof (fixed_FORMAT_calcsize_ge (dc_class c)).
    destruct (dc_class c); try discriminate;
      cbn [fixed_FORMAT fixed_FORMAT_NO_SIG app unpack unpack_item item_size fixed_values] in Hu;
      injection Hu as _ _ _ _ _ _ _ _ _ _ Hsg;
      apply (f_equal length) in Hsg; rewrite length_take, !length_drop in Hsg;
      rewrite fixed_FORMAT_calcsize in Hd; cbn [length] in Hsg; lia. }
  unfold export, base_export. rewrite Hn, Hs.
  destruct sig as [|b sig]; [done|]. cbn [truthy opt_bytes]. rewrite Hvi. cbn [bind map app].
  change ([VInt (socc c); VBytes (uuid c); VBytes (rot_meta c); VBytes (dck_pub c);
           VInt (cc_socu c); VInt (cc_vu c); VInt (cc_beacon c); VBytes (rot_pub c);
           VBytes (b :: sig)]) with (fixed_values c (b :: sig)).
  rewrite <- Hu. by apply pack_unpack.
Qed.

Lemma fixed_parse_export_witness :
  base_parse demo_ecc256_blob 0 = Ok demo_ecc256_parsed /\
  export demo_ecc256_parsed
    = Ok (take (calcsize (fixed_FORMAT (dc_class demo_ecc256_parsed)))
            (drop (buffer_pos demo_ecc256_blob 0) demo_ecc256_blob)).
Proof.
  split; [vm_compute; reflexivity|].
  apply (fixed_parse_export demo_ecc256_blob 0 demo_ecc256_parsed).
  vm_compute. reflexivity.
Defined.

Lemma N4_FORMAT_split (k : klass) (L : nat) :
  N4_FORMAT k L =
    [FH; FH] ++ [FL; FS 16; FL; FL; FL] ++ [FS L] ++
    [FS (HASH_LENGTH k * 2); FS (HASH_LENGTH k * 2); FS (HASH_LENGTH k * 2)].
Proof. reflexivity. Qed.

(** What N4 export writes for a credential parsed at offset 0: the four
    version bytes become zero, everything after them is as it was
    read. *)
Lemma n4_parse_export_bytes (cls : klass) (data : bytes) (c : DebugCredential) :
  is_n4 cls = true ->
  N4_parse cls data 0 = Ok c ->
  (36 + length (rot_meta c) + 3 * (HASH_LENGTH cls * 2) <= length data)%nat /\
  export c = Ok (zeros 4 ++
                 take (32 + length (rot_meta c) + 3 * (HASH_LENGTH cls * 2))
                      (drop 4 data)).
Proof.
  intros Hn Hc. apply N4_parse_inv in Hc as (Hlen & _ & Htail & Htl & ->).
  cbv zeta in *.
  set (n := Z.shiftr (Z.land (le_value (take 4 (drop 36 data))) 0xF0) 4) in *.
  set (table := if 1 <? n then _ else _) in *.
  set (HL2 := (HASH_LENGTH cls * 2)%nat) in *.
  assert (Hpos : buffer_pos data (0 + 40 + (4 + blen table) - 4) = (40 + length table)%nat)
    by (unfold buffer_pos, blen; destruct (Z.ltb_spec (0 + 40 + (4 + Z.of_nat (length table)) - 4) 0); lia).
  rewrite Hpos in *.
  assert (Ht : table = take (length table) (drop 40 data)).
  { unfold table in *. destruct (1 <? n); [|done].
    rewrite Htl. reflexivity. }
  unfold export. cbn [dc_class]. rewrite Hn. unfold N4_export.
  cbn [dc_class socc uuid rot_meta dck_pub cc_socu cc_vu cc_beacon rot_pub signature].
  rewrite (version_ints_n4 _ Hn). cbn [bind map app opt_bytes].
  assert (Hl4 : length (take 4 (drop 36 data)) = 4%nat)
    by (rewrite length_take, length_drop; lia).
  rewrite length_app, Hl4.
  set (L := (4 + length table)%nat).
  set (d' := zeros 4 ++ drop 4 data).
  assert (Hd' : (calcsize (N4_FORMAT cls L) <= length d')%nat).
  { rewrite calcsize_N4_FORMAT. unfold d', zeros.
    rewrite length_app, length_replicate, length_drop. fold HL2. unfold L. lia. }
  assert (Hu : unpack (N4_FORMAT cls L) d' =
    [VInt 0; VInt 0; VInt (le_value (take 4 (drop 4 data)));
     VBytes (take 16 (drop 8 data));
     VInt (le_value (take 4 (drop 24 data)));
     VInt (le_value (take 4 (drop 28 data)));
     VInt (le_value (take 4 (drop 32 data)));
     VBytes (take 4 (drop 36 data) ++ table);
     VBytes (take HL2 (drop (40 + length table) data));
     VBytes (take HL2 (drop (40 + length table + HL2) data));
     VBytes (take HL2 (drop (40 + length table + HL2 + HL2) data))]).
  { rewrite N4_FORMAT_split, !unpack_app. fold HL2.
    change (calcsize [FH; FH]) with 4%nat.
    change (calcsize [FL; FS 16; FL; FL; FL]) with 32%nat.
    replace (calcsize [FS L]) with L by (unfold calcsize; simpl; lia).
    replace (drop 4 d') with (drop 4 data)
      by (unfold d'; by rewrite drop_app_length').
    change (unpack [FH; FH] d') with [VInt 0; VInt 0].
    rewrite unpack_three.
    cbn [unpack unpack_item item_size app].
    rewrite !drop_drop. cbn [Nat.add].
    repeat f_equal; try lia.
    unfold L. rewrite <- take_take_drop, drop_drop. cbn [Nat.add].
    by rewrite <- Ht. }
  split; [fold HL2; unfold L; lia|].
  rewrite <- Hu, pack_unpack by exact Hd'.
  rewrite calcsize_N4_FORMAT. fold HL2. unfold d'.
  rewrite take_app_ge by (unfold zeros; rewrite length_replicate; lia).
  repeat f_equal.
Qed.

(** X5. N4 export of a credential parsed at offset 0 writes four zero
    bytes for the version and, after them, every byte of the credential
    as it was read: so it gives the bytes read back exactly when the
    version bytes read were zero.  The version a buffer carries is not
    kept by parse. *)
Theorem n4_parse_export (cls : klass) (data : bytes) (c : DebugCredential) :
  is_n4 cls = true ->
  N4_parse cls data 0 = Ok c ->
  export c = Ok (zeros 4 ++
                 take (32 + length (rot_meta c) + 3 * (HASH_LENGTH cls * 2))
                      (drop 4 data)) /\
  (export c = Ok (take (36 + length (rot_meta c) + 3 * (HASH_LENGTH cls * 2)) data)
   <-> take 4 data = zeros 4).
Proof.
  intros Hn Hc. destruct (n4_parse_export_bytes cls data c Hn Hc) as [Hlen He].
  split; [exact He|]. rewrite He.
  set (k := (32 + length (rot_meta c) + 3 * (HASH_LENGTH cls * 2))%nat) in *.
  replace (36 + length (rot_meta c) + 3 * (HASH_LENGTH cls * 2))%nat
    with (4 + k)%nat by (unfold k; lia).
  rewrite <- (take_take_drop data 4 k). split.
  - intros Heq.
    assert (H4 : zeros 4 ++ take k (drop 4 data) = take 4 data ++ take k (drop 4 data))
      by congruence.
    apply app_inv_tail in H4. by symmetry.
  - by intros ->.
Qed.

Lemma n4_parse_export_witness :
  is_n4 DebugCredentialECC256N4Analog = true /\
  N4_parse DebugCredentialECC256N4Analog demo_n4_blob_v2 0 = Ok demo_n4_parsed /\
  take 4 demo_n4_blob_v2 <> zeros 4 /\
  export demo_n4_parsed
    = Ok (zeros 4 ++
          take (32 + length (rot_meta demo_n4_parsed)
                + 3 * (HASH_LENGTH DebugCredentialECC256N4Analog * 2))
               (drop 4 demo_n4_blob_v2)) /\
  (export demo_n4_parsed
   = Ok (take (36 + length (rot_meta demo_n4_parsed)
               + 3 * (HASH_LENGTH DebugCredentialECC256N4Analog * 2))
              demo_n4_blob_v2)
   <-> take 4 demo_n4_blob_v2 = zeros 4).
Proof.
  split; [reflexivity|]. split; [vm_compute; reflexivity|].
  split; [discriminate|].
  apply (n4_parse_export DebugCredentialECC256N4Analog demo_n4_blob_v2 demo_n4_parsed).
  - reflexivity.
  - vm_compute. reflexivity.
Defined.

(** ** Parsed credentials *)

Section Parsed.
Context `{Crypto}.

Lemma sign_no_signer (c : DebugCredential) :
  signature_provider c = Some None -> sign c = (c, Raise NoSignerConfigured).
Proof.
  intros Hp. unfold sign, ECC_sign, base_sign. rewrite Hp.
  by destruct (is_rsa (dc_class c)).
Qed.

(** X3. Whatever either parser returns has a signature and no signature
    provider: sign() on it raises the provider assertion and leaves it as
    it is. *)
Theorem parsed_credential_cannot_be_signed (cls : klass) (data : bytes)
    (offset : Z) (c : DebugCredential) :
  parse cls data offset = Ok c ->
  (exists sig, signature c = Some sig) /\
  signature_provider c = Some None /\
  sign c = (c, Raise NoSignerConfigured).
Proof.
  unfold parse. intros Hc.
  assert (Hs : (exists sig, signature c = Some sig) /\ signature_provider c = Some None).
  { destruct (is_n4 cls).
    - apply N4_parse_inv in Hc as (_ & _ & _ & _ & ->). cbn. eauto.
    - apply base_parse_inv in Hc as (vh & vl & sig & _ & _ & _ & _ & Hs & Hp). eauto. }
  destruct Hs as [Hs Hp]. split; [done|]. split; [done|]. by apply sign_no_signer.
Qed.

End Parsed.

Lemma parsed_credential_cannot_be_signed_witness :
  parse DebugCredentialECC256N4Analog demo_n4_blob 0 = Ok demo_n4_parsed /\
  (exists sig, signature demo_n4_parsed = Some sig) /\
  signature_provider demo_n4_parsed = Some None /\
  sign (H := Demo.crypto) demo_n4_parsed = (demo_n4_parsed, Raise NoSignerConfigured).
Proof.
  split; [vm_compute; reflexivity|].
  apply (parsed_credential_cannot_be_signed (H := Demo.crypto)
           DebugCredentialECC256N4Analog demo_n4_blob 0 demo_n4_parsed).
  vm_compute. reflexivity.
Defined.

(** ** Equality of N4 credentials, again *)

(** X11. A comparison of two N4 credentials that has returned cannot be
    repeated: either operand as left operand now raises KeyError, whatever
    the right operand is. *)
Theorem N4_eq_not_repeatable (h h' : heap) (self other : loc) (r : bool) :
  N4_eq h self other = (h', Ok r) ->
  forall third : loc,
    N4_eq h' self third = (h', Raise (KeyError "signature_provider")) /\
    N4_eq h' other third = (h', Raise (KeyError "signature_provider")).
Proof.
  intros Heq third.
  apply N4_eq_ok in Heq as (cs & co & Hne & _ & _ & _ & _ & -> & _).
  unfold N4_eq, del_provider_at.
  rewrite lookup_insert_ne, !lookup_insert_eq by done.
  done.
Qed.

Lemma N4_eq_not_repeatable_witness :
  exists h',
    N4_eq demo_heap 1%positive 2%positive = (h', Ok true) /\
    forall third : loc,
      N4_eq h' 1%positive third = (h', Raise (KeyError "signature_provider")) /\
      N4_eq h' 2%positive third = (h', Raise (KeyError "signature_provider")).
Proof.
  eexists. split; [vm_compute; reflexivity|].
  apply (N4_eq_not_repeatable demo_heap _ 1%positive 2%positive true).
  vm_compute. reflexivity.
Defined.

(** ** The record count in the flags *)

Lemma flags_word_record_count (used_root_cert count : Z) :
  0 <= count ->
  Z.shiftr (Z.land (flags_word used_root_cert count) 0xF0) 4 = count mod 16.
Proof.
  intros Hc. unfold flags_word. apply Z.bits_inj'. intros k Hk.
  rewrite Z.shiftr_spec, Z.land_spec, !Z.lor_spec by lia.
  change 16 with (2 ^ 4).
  destruct (Z.lt_ge_cases k 4) as [Hlt|Hge].
  - rewrite Z.mod_pow2_bits_low by lia.
    rewrite Z.bits_0. rewrite (Z.shiftl_spec_low 1 31) by lia.
    rewrite (Z.shiftl_spec_low used_root_cert 8) by lia.
    rewrite (Z.shiftl_spec count 4) by lia.
    replace (k + 4 - 4) with k by lia. cbn [orb].
    assert (Hb : Z.testbit 240 (k + 4) = true).
    { assert (k = 0 \/ k = 1 \/ k = 2 \/ k = 3) as [->|[->|[->| ->]]] by lia;
        reflexivity. }
    rewrite Hb. apply andb_true_r.
  - rewrite Z.mod_pow2_bits_high by lia.
    replace (Z.testbit 240 (k + 4)) with false; [apply andb_false_r|].
    symmetry. change 240 with (240 mod 2 ^ 8).
    apply Z.mod_pow2_bits_high. lia.
Qed.

(** X12. The record count the parser reads in flags the builder packed is
    the number of RoT keys modulo 16. *)
Theorem built_flags_record_count (used_root_cert : Z) (rot_pub_keys : list string)
    (b table : bytes) :
  calculate_flags used_root_cert rot_pub_keys = Ok b ->
  records_num_of (b ++ table) = Z.of_nat (length rot_pub_keys) mod 16.
Proof.
  unfold calculate_flags. intros Hb. apply pack_L_ok in Hb as [Hr ->].
  rewrite records_num_of_app by exact Hr.
  apply flags_word_record_count. lia.
Qed.

Lemma built_flags_record_count_witness :
  calculate_flags 1 ["k0"; "k1"; "k2"] = Ok [x30; x01; x00; x80]%byte /\
  records_num_of ([x30; x01; x00; x80]%byte ++ zeros 96)
    = Z.of_nat (length ["k0"; "k1"; "k2"]) mod 16.
Proof.
  split; [reflexivity|].
  apply (built_flags_record_count 1 ["k0"; "k1"; "k2"] [x30; x01; x00; x80]%byte (zeros 96)).
  reflexivity.
Defined.

(** ** Which RoT key a built credential selects *)

Lemma py_index_bounds {A} (l : list A) (i : Z) (a : A) :
  py_index l i = Ok a -> - Z.of_nat (length l) <= i < Z.of_nat (length l).
Proof.
  unfold py_index.
  destruct (Z.ltb_spec i 0).
  - destruct (Z.ltb_spec (i + Z.of_nat (length l)) 0); [discriminate|]. lia.
  - destruct (Z.ltb_spec i 0); [lia|].
    destruct (l !! Z.to_nat i) eqn:Hl; [|discriminate].
    apply lookup_lt_Some in Hl. lia.
Qed.

Lemma flags_word_neg (used_root_cert count : Z) :
  used_root_cert < 0 -> flags_word used_root_cert count < 0.
Proof.
  intros Hi. unfold flags_word.
  apply Z.lor_neg. left. apply Z.lor_neg. right. by apply Z.shiftl_neg.
Qed.

Section SelectedKey.
Context `{Crypto}.

(** X13. A credential is built only if the selected index lies in the key
    list, counted from the end when negative; the ECC and N4 classes
    accept no negative index. *)
Theorem built_credential_selects_a_key (version : string) (cfg : yaml_config)
    (c : DebugCredential) :
  create_from_yaml_config version cfg = Ok c ->
  - Z.of_nat (length (cfg_rot_meta cfg)) <= cfg_rot_id cfg
    < Z.of_nat (length (cfg_rot_meta cfg)) /\
  (is_rsa (dc_class c) = false -> 0 <= cfg_rot_id cfg).
Proof.
  intros Hc.
  apply create_from_yaml_config_fields in Hc as (_ & _ & _ & Hm & _ & Hr & _).
  unfold _get_rot_pub, _get_rot_meta in *.
  assert (Hi : exists path, py_index (cfg_rot_meta cfg) (cfg_rot_id cfg) = Ok path).
  { destruct (is_rsa (dc_class c)); [|destruct (is_n4 (dc_class c))].
    - unfold RSA_get_rot_pub in Hr. destruct (py_index _ _); [eauto|discriminate].
    - unfold N4_get_rot_pub in Hr. destruct (py_index _ _); [eauto|discriminate].
    - unfold ECC_get_rot_pub in Hr. destruct (py_index _ _); [eauto|discriminate]. }
  destruct Hi as (path & Hi). split; [by apply py_index_bounds in Hi|].
  intros Hrsa. rewrite Hrsa in *.
  destruct (is_n4 (dc_class c)).
  - unfold N4_get_rot_meta in Hm.
    destruct (create_ctrk_table _); [|discriminate]. cbn [bind] in Hm.
    destruct (calculate_flags _ _) as [fb|] eqn:Hf; [|discriminate].
    unfold calculate_flags in Hf. apply pack_L_ok in Hf as [Hrange _].
    destruct (Z.lt_ge_cases (cfg_rot_id cfg) 0) as [Hneg|]; [|done].
    pose proof (flags_word_neg _ (Z.of_nat (length (cfg_rot_meta cfg))) Hneg). lia.
  - unfold ECC_get_rot_pub in Hr. rewrite Hi in Hr. cbn [bind] in Hr.
    destruct (load_public_key path) as [[|x y s]|]; try discriminate.
    cbn [bind] in Hr. destruct (curve_index_table !! s); [|discriminate].
    cbn [bind pack pack_item] in Hr.
    destruct (Z.leb_spec 0 (cfg_rot_id cfg)); [done|discriminate].
Qed.

(** X14. The fixed-layout ECC classes build no credential for a selected
    RoT key on a 384-bit curve: the curve table is asked for 384 and has
    386. *)
Theorem ecc_rot_pub_384_raises (rot_pub_id : Z) (rot_pub_keys : list string)
    (path : string) (x y : Z) :
  py_index rot_pub_keys rot_pub_id = Ok path ->
  load_public_key path = Ok (EllipticCurvePublicKey x y 384) ->
  ECC_get_rot_pub rot_pub_id rot_pub_keys = Raise (KeyError "384") /\
  _get_rot_pub DebugCredentialECC384 rot_pub_id rot_pub_keys = Raise (KeyError "384").
Proof.
  intros Hi Hl. unfold _get_rot_pub. cbn [is_rsa is_n4].
  unfold ECC_get_rot_pub. rewrite Hi. cbn [bind]. rewrite Hl. by cbn [bind].
Qed.

(** X2. When the decoding of the provider's signature raises, sign raises
    the same exception but the raw signature stays stored: export then
    passes its signature check and puts that raw signature, cut or padded
    to the signature field, after the signed bytes. *)
Theorem ecc_sign_failure_keeps_raw_signature (c : DebugCredential) (p : provider)
    (data raw : bytes) (e : exn) :
  is_rsa (dc_class c) = false ->
  signature_provider c = Some (Some p) ->
  _get_data_to_sign c = Ok data ->
  SignatureProvider_sign p data = Ok raw -> raw <> [] ->
  decode_dss_signature raw = Raise e ->
  sign c = (set_signature c (Some raw), Raise e) /\
  export (set_signature c (Some raw))
    = Ok (data ++ take (signature_size (dc_class c)) raw
               ++ zeros (signature_size (dc_class c) - length raw)).
Proof.
  intros Hrsa Hp Hd Hs Hne Hdec. split.
  - unfold sign. rewrite Hrsa. unfold ECC_sign, base_sign. rewrite Hp, Hd, Hs.
    destruct raw as [|b raw]; [done|]. cbn [signature set_signature]. by rewrite Hdec.
  - by apply (export_after_data (set_signature c (Some raw)) data raw).
Qed.

End SelectedKey.

Lemma built_credential_selects_a_key_witness :
  create_from_yaml_config (H := Demo.crypto) "2.0" cfg_ecc256 = Ok demo_ecc256_unsigned /\
  - Z.of_nat (length (cfg_rot_meta cfg_ecc256)) <= cfg_rot_id cfg_ecc256
    < Z.of_nat (length (cfg_rot_meta cfg_ecc256)) /\
  (is_rsa (dc_class demo_ecc256_unsigned) = false -> 0 <= cfg_rot_id cfg_ecc256).
Proof.
  split; [vm_compute; reflexivity|].
  apply (built_credential_selects_a_key (H := Demo.crypto) "2.0" cfg_ecc256
           demo_ecc256_unsigned).
  vm_compute. reflexivity.
Defined.

Lemma ecc_rot_pub_384_raises_witness :
  py_index ["p384_a.pem"] 0 = Ok "p384_a.pem" /\
  load_public_key (Crypto := Demo.crypto) "p384_a.pem"
    = Ok (EllipticCurvePublicKey 41 42 384) /\
  ECC_get_rot_pub (H := Demo.crypto) 0 ["p384_a.pem"] = Raise (KeyError "384") /\
  _get_rot_pub (H := Demo.crypto) DebugCredentialECC384 0 ["p384_a.pem"]
    = Raise (KeyError "384").
Proof.
  split; [reflexivity|]. split; [reflexivity|].
  apply (ecc_rot_pub_384_raises (H := Demo.crypto) 0 ["p384_a.pem"] "p384_a.pem" 41 42);
    reflexivity.
Defined.

Lemma ecc_sign_failure_keeps_raw_signature_witness :
  exists data,
    _get_data_to_sign demo_ecc256_unsigned = Ok data /\
    sign (H := DemoShort.crypto) demo_ecc256_unsigned
      = (set_signature demo_ecc256_unsigned
           (Some [byte_of_Z 1; byte_of_Z 2; byte_of_Z 3]), Raise ValueError) /\
    export (set_signature demo_ecc256_unsigned
              (Some [byte_of_Z 1; byte_of_Z 2; byte_of_Z 3]))
      = Ok (data ++ take (signature_size (dc_class demo_ecc256_unsigned))
                      [byte_of_Z 1; byte_of_Z 2; byte_of_Z 3]
                 ++ zeros (signature_size (dc_class demo_ecc256_unsigned)
                           - length [byte_of_Z 1; byte_of_Z 2; byte_of_Z 3])).
Proof.
  eexists. split; [vm_compute; reflexivity|].
  apply (ecc_sign_failure_keeps_raw_signature (H := DemoShort.crypto)
           demo_ecc256_unsigned 1%positive _
           [byte_of_Z 1; byte_of_Z 2; byte_of_Z 3] ValueError).
  - reflexivity.
  - reflexivity.
  - vm_compute. reflexivity.
  - reflexivity.
  - discriminate.
  - reflexivity.
Defined.

(** ** What N4 parse rejects *)

(** X9. N4 parse raises struct.error on a buffer of fewer than 40 bytes
    and the bare assertion when bit 31 of the flags at position 36 is
    clear, whatever the offset is. *)
Theorem N4_parse_rejects (cls : klass) (data : bytes) (offset : Z) :
  ((length data < 40)%nat -> N4_parse cls data offset = Raise StructError) /\
  ((40 <= length data)%nat ->
   Z.testbit (le_value (take 4 (drop 36 data))) 31 = false ->
   N4_parse cls data offset = Raise (AssertionError "")).
Proof.
  split.
  - intros Hl. unfold N4_parse, unpack_from, blen.
    change (calcsize format_head) with 40%nat. cbn [Z.ltb Z.compare orb].
    destruct (Z.ltb_spec (Z.of_nat (length data) - 0) (Z.of_nat 40)); [done|lia].
  - intros Hl Hb. unfold N4_parse.
    rewrite unpack_from_0 by (change (calcsize format_head) with 40%nat; lia).
    cbn [bind unpack format_head unpack_item item_size].
    rewrite !drop_drop. cbn [Nat.add].
    set (flags := le_value (take 4 (drop 36 data))) in *.
    replace (Z.land flags 0x80000000 =? 0) with true; [done|].
    symmetry. apply Z.eqb_eq. apply Z.bits_inj'. intros k Hk.
    rewrite Z.land_spec, Z.bits_0.
    destruct (decide (k = 31)) as [->|Hne]; [by rewrite Hb|].
    replace (Z.testbit 0x80000000 k) with false; [apply andb_false_r|].
    symmetry. change 0x80000000 with (2 ^ 31). by apply Z.pow2_bits_false.
Qed.

Lemma N4_parse_rejects_witness :
  N4_parse DebugCredentialECC256N4Analog (zeros 39) 0 = Raise StructError /\
  N4_parse DebugCredentialECC256N4Analog (zeros 40) 8 = Raise (AssertionError "").
Proof.
  split.
  - apply (N4_parse_rejects DebugCredentialECC256N4Analog (zeros 39) 0).
    vm_compute. lia.
  - apply (N4_parse_rejects DebugCredentialECC256N4Analog (zeros 40) 8).
    + vm_compute. lia.
    + reflexivity.
Defined.

(** ** info *)

Lemma le_value_low_nibble (b0 : Byte.byte) (rest : bytes) :
  Z.shiftr (Z.land (le_value (b0 :: rest)) 0xF0) 4 = Z.shiftr (Z_of_byte b0) 4.
Proof.
  cbn [le_value]. pose proof (Z_of_byte_range b0) as Hb.
  apply Z.bits_inj'. intros k Hk.
  rewrite !Z.shiftr_spec, Z.land_spec, Z.lor_spec by lia.
  destruct (Z.lt_ge_cases k 4) as [Hlt|Hge].
  - rewrite Z.shiftl_spec_low by lia. rewrite orb_false_r.
    assert (Hb4 : Z.testbit 240 (k + 4) = true).
    { assert (k = 0 \/ k = 1 \/ k = 2 \/ k = 3) as [->|[->|[->| ->]]] by lia;
        reflexivity. }
    rewrite Hb4. apply andb_true_r.
  - replace (Z.testbit 240 (k + 4)) with false.
    + rewrite andb_false_r. symmetry.
      replace (Z_of_byte b0) with (Z_of_byte b0 mod 2 ^ 8)
        by (apply Z.mod_small; change (2 ^ 8) with 256; lia).
      apply Z.mod_pow2_bits_high. lia.
    + symmetry. change 240 with (240 mod 2 ^ 8).
      apply Z.mod_pow2_bits_high. lia.
Qed.

(** X15. info() of a credential N4 parse returned does not raise; it is the
    text of the base class followed by one line, the record line, whose
    count is the record count the parser read in the flags; no CA-flag
    line is ever part of it. *)
Theorem N4_info_of_parsed (cls : klass) (data : bytes) (offset : Z)
    (c : DebugCredential) :
  N4_parse cls data offset = Ok c ->
  N4_info c = Ok (base_info c +:+ ctrk_line (records_num_of (rot_meta c))).
Proof.
  intros Hc. apply N4_parse_inv in Hc as (Hlen & _ & _ & _ & ->).
  unfold N4_info, base_info, records_num_of. cbn [rot_meta dc_class socc uuid cc_socu cc_vu cc_beacon].
  set (table := if _ <? _ then _ else _).
  assert (Hl4 : length (take 4 (drop 36 data)) = 4%nat)
    by (rewrite length_take, length_drop; lia).
  rewrite take_app_length' by done.
  destruct (take 4 (drop 36 data)) as [|b0 [|b1 [|b2 [|b3 [|]]]]] eqn:Ht;
    try discriminate.
  unfold py_index. cbn [Z.ltb Z.compare app length lookup list_lookup Z.to_nat Pos.to_nat
                        Pos.iter_op Nat.add bind int_eq_bytes].
  by rewrite le_value_low_nibble.
Qed.

Lemma N4_info_of_parsed_witness :
  N4_parse DebugCredentialECC256N4Analog demo_n4_blob 0 = Ok demo_n4_parsed /\
  N4_info demo_n4_parsed
    = Ok (base_info demo_n4_parsed +:+ ctrk_line (records_num_of (rot_meta demo_n4_parsed))).
Proof.
  split; [vm_compute; reflexivity|].
  apply (N4_info_of_parsed DebugCredentialECC256N4Analog demo_n4_blob 0 demo_n4_parsed).
  vm_compute. reflexivity.
Defined.

(** X16. N4 info is decided by the RoT metadata alone: with fewer than four
    bytes there it raises IndexError, with four or more it returns the
    text of the base class followed by the record line, whose count is
    the high half of the first byte; no CA-flag line is ever part of
    it. *)
Theorem N4_info_by_rot_meta (c : DebugCredential) :
  ((length (rot_meta c) < 4)%nat -> N4_info c = Raise IndexError) /\
  (forall b0 : Byte.byte,
     (4 <= length (rot_meta c))%nat -> rot_meta c !! 0%nat = Some b0 ->
     N4_info c = Ok (base_info c +:+ ctrk_line (Z.shiftr (Z_of_byte b0) 4))).
Proof.
  split.
  - intros Hl. unfold N4_info, py_index. cbn [Z.ltb Z.compare bind].
    destruct (rot_meta c !! Z.to_nat 3) eqn:E; [|done].
    apply lookup_lt_Some in E. change (Z.to_nat 3) with 3%nat in E. lia.
  - intros b0 Hl H0. unfold N4_info, base_info, py_index.
    cbn [Z.ltb Z.compare bind]. change (Z.to_nat 3) with 3%nat.
    change (Z.to_nat 0) with 0%nat. rewrite H0.
    destruct (rot_meta c !! 3%nat) eqn:E; [done|].
    apply lookup_ge_None in E. lia.
Qed.

Lemma N4_info_by_rot_meta_witness :
  N4_info demo_short_uuid = Raise IndexError /\
  N4_info demo_n4_parsed
    = Ok (base_info demo_n4_parsed +:+ ctrk_line (Z.shiftr (Z_of_byte x30) 4)).
Proof.
  split.
  - apply (N4_info_by_rot_meta demo_short_uuid). vm_compute. lia.
  - apply (proj2 (N4_info_by_rot_meta demo_n4_parsed) x30); [vm_compute; lia|reflexivity].
Defined.

(** ** Export cuts and pads *)

Lemma pack_item_packable (f : fmt_item) (v : pyval) :
  packable f v -> exists b, pack_item f v = Ok b /\ length b = item_size f.
Proof.
  destruct f, v; cbn [packable]; try done; intros Hf.
  - exists (le_bytes 2 z). cbn [pack_item item_size].
    destruct (Z.leb_spec 0 z); [|lia]. destruct (Z.ltb_spec z (2 ^ 16)); [|lia].
    by rewrite le_bytes_length.
  - exists (le_bytes 4 z). cbn [pack_item item_size].
    destruct (Z.leb_spec 0 z); [|lia]. destruct (Z.ltb_spec z (2 ^ 32)); [|lia].
    by rewrite le_bytes_length.
  - eexists. split; [reflexivity|]. cbn [item_size]. unfold zeros.
    rewrite length_app, length_take, length_replicate.
    lia.
Qed.

Lemma pack_packable (fmt : format) (vs : list pyval) :
  Forall2 packable fmt vs ->
  exists out, pack fmt vs = Ok out /\ length out = calcsize fmt.
Proof.
  induction 1 as [|f v fmt vs Hf _ (out & Hp & Hl)].
  - by exists [].
  - apply pack_item_packable in Hf as (b & Hb & Hlb).
    exists (b ++ out). cbn [pack]. rewrite Hb, Hp. cbn [bind].
    split; [done|]. by rewrite length_app, Hlb, Hl.
Qed.

Lemma pack_app (f1 f2 : format) (v1 v2 : list pyval) (b1 b2 : bytes) :
  pack f1 v1 = Ok b1 -> pack f2 v2 = Ok b2 ->
  pack (f1 ++ f2) (v1 ++ v2) = Ok (b1 ++ b2).
Proof.
  revert v1 b1. induction f1 as [|f f1 IH]; intros [|v v1] b1; cbn [pack app];
    try discriminate.
  - by intros [= <-] ->.
  - destruct (pack_item f v) as [b|]; [|discriminate]. cbn [bind].
    destruct (pack f1 v1) as [bs|] eqn:Hp; [|discriminate]. cbn [bind].
    intros [= <-] H2. rewrite (IH v1 bs Hp H2). cbn [bind]. by rewrite app_assoc.
Qed.

Lemma calcsize_app (f1 f2 : format) :
  calcsize (f1 ++ f2) = (calcsize f1 + calcsize f2)%nat.
Proof. unfold calcsize. by rewrite map_app, sum_list_with_app. Qed.

Lemma take_pad (n : nat) (b : bytes) :
  take n b ++ zeros (n - length b) = take n (b ++ zeros n).
Proof.
  rewrite take_app. f_equal. unfold zeros. rewrite take_replicate. f_equal. lia.
Qed.

(** X8. Export of a fixed-layout credential with a non-empty signature and
    32-bit integer fields returns whatever the lengths of its byte fields
    are, always the size of the format: a field too long is cut, one too
    short is padded with zero bytes, as the device identifier at position
    8 shows. *)
Theorem export_cuts_and_pads (c : DebugCredential) :
  is_n4 (dc_class c) = false ->
  truthy (signature c) = true ->
  0 <= socc c < 2 ^ 32 -> 0 <= cc_socu c < 2 ^ 32 ->
  0 <= cc_vu c < 2 ^ 32 -> 0 <= cc_beacon c < 2 ^ 32 ->
  exists out,
    export c = Ok out /\
    length out = calcsize (fixed_FORMAT (dc_class c)) /\
    take 16 (drop 8 out) = take 16 (uuid c ++ zeros 16).
Proof.
  intros Hn Ht Hs Hcs Hcv Hcb.
  destruct (signature c) as [sig|] eqn:Hsig; [|done].
  assert (Hfmt : exists tl, fixed_FORMAT (dc_class c) = [FH; FH; FL] ++ [FS 16] ++ tl /\
            Forall2 packable tl
              [VBytes (rot_meta c); VBytes (dck_pub c); VInt (cc_socu c);
               VInt (cc_vu c); VInt (cc_beacon c); VBytes (rot_pub c); VBytes sig])
    by (destruct (dc_class c); try discriminate; eexists; (split; [reflexivity|]);
        repeat (apply List.Forall2_cons; [done|]); apply List.Forall2_nil).
  destruct Hfmt as (tl & Hfmt & Htl).
  assert (Hv : exists vh vl, version_ints (dc_class c) = Ok [vh; vl] /\
                 0 <= vh < 2 ^ 16 /\ 0 <= vl < 2 ^ 16)
    by (destruct (dc_class c); try discriminate; eexists _, _;
        (split; [reflexivity|]); vm_compute; repeat split; discriminate).
  destruct Hv as (vh & vl & Hv & Hvh & Hvl).
  destruct (pack_packable [FH; FH; FL] [VInt vh; VInt vl; VInt (socc c)])
    as (h & Hh & Hhl); [repeat (apply List.Forall2_cons; [done|]); apply List.Forall2_nil|].
  destruct (pack_packable _ _ Htl) as (t & Hpt & Htlen).
  assert (Hu : pack [FS 16] [VBytes (uuid c)]
               = Ok (take 16 (uuid c) ++ zeros (16 - length (uuid c))))
    by (cbn [pack pack_item bind]; by rewrite app_nil_r).
  pose proof (pack_app _ _ _ _ _ _ Hh (pack_app _ _ _ _ _ _ Hu Hpt)) as Hp.
  eexists. split.
  { unfold export, base_export. rewrite Hn, Hsig, Ht, Hv. cbn [bind opt_bytes map app].
    rewrite Hfmt. exact Hp. }
  change (calcsize [FH; FH; FL]) with 8%nat in Hhl.
  split.
  - rewrite Hfmt, !calcsize_app. rewrite !length_app, Hhl, Htlen. unfold zeros.
    rewrite length_take, length_replicate.
    change (calcsize [FH; FH; FL]) with 8%nat.
    change (calcsize [FS 16]) with 16%nat. lia.
  - rewrite drop_app_length' by done. rewrite take_pad.
    rewrite take_app_length'; [done|].
    rewrite length_take, length_app. unfold zeros. rewrite length_replicate. lia.
Qed.

Lemma export_cuts_and_pads_witness :
  exists out,
    export demo_short_uuid = Ok out /\
    length out = calcsize (fixed_FORMAT (dc_class demo_short_uuid)) /\
    take 16 (drop 8 out) = take 16 (uuid demo_short_uuid ++ zeros 16).
Proof.
  apply (export_cuts_and_pads demo_short_uuid);
    first [reflexivity | vm_compute; split; [discriminate|reflexivity]].
Defined.

(** ** Round trips of the N4 classes, again *)

Lemma n4_round_trip_equal_witness :
  n4_fields_fit demo_n4_signed /\
  signature_provider demo_n4_signed <> None /\
  exists out parsed,
    export demo_n4_signed = Ok out /\
    parse (dc_class demo_n4_signed) out 0 = Ok parsed /\
    dc_class parsed = dc_class demo_n4_signed /\
    vars (del_signature_provider parsed) = vars (del_signature_provider demo_n4_signed) /\
    forall (h : heap) (l1 l2 : loc),
      l1 <> l2 -> h !! l1 = Some parsed -> h !! l2 = Some demo_n4_signed ->
      exists h', py_eq h l1 l2 = (h', Ok true).
Proof.
  split; [exact demo_n4_fields_fit|]. split; [discriminate|].
  apply (n4_round_trip_equal demo_n4_signed demo_n4_fields_fit). discriminate.
Defined.



Lemma N4_eq_same_object_witness :
  demo_heap !! 2%positive = Some demo_n4_signed /\
  signature_provider demo_n4_signed <> None /\
  snd (N4_eq demo_heap 2%positive 2%positive) = Raise (KeyError "signature_provider").
Proof.
  split; [reflexivity|]. split; [discriminate|].
  apply (N4_eq_same_object demo_heap 2%positive demo_n4_signed); [reflexivity|discriminate].
Defined.

Module El2goFacts.
Import El2go.

Lemma exact_ceil_div_bounds (a b : Z) :
  0 < b ->
  a <= b * exact_ceil_div a b /\ b * (exact_ceil_div a b - 1) < a.
Proof.
  intros Hb. unfold exact_ceil_div.
  pose proof (Z.div_mod (a + b - 1) b ltac:(lia)) as Hdm.
  pose proof (Z.mod_pos_bound (a + b - 1) b Hb) as Hm.
  split; lia.
Qed.

Lemma decrement_loop_app (n : nat) (pre rest : list Z) :
  (n <= length rest)%nat ->
  decrement_loop n (length pre) (pre ++ rest) =
  Ok (pre ++ map (fun x => x - 1) (take n rest) ++ drop n rest).
Proof.
  revert pre rest. induction n as [|n IH]; intros pre rest Hn.
  - cbn. by rewrite drop_0.
  - destruct rest as [|x rest]; [cbn in Hn; lia|].
    cbn [decrement_loop].
    rewrite list_lookup_middle by reflexivity.
    replace (<[length pre := x - 1]> (pre ++ x :: rest))
      with ((pre ++ [x - 1]) ++ rest).
    2:{ rewrite <- (Nat.add_0_r (length pre)) at 1.
        rewrite insert_app_r. cbn. by rewrite <- app_assoc. }
    replace (S (length pre)) with (length (pre ++ [x - 1]))
      by (rewrite length_app; cbn; lia).
    rewrite IH by (cbn in Hn; lia).
    cbn. by rewrite <- app_assoc.
Qed.

Lemma sum_replicate (n : nat) (x : Z) :
  foldr Z.add 0 (replicate n x) = Z.of_nat n * x.
Proof. induction n as [|n IH]; [reflexivity|]. cbn [replicate foldr]. lia. Qed.

Lemma sum_app (l1 l2 : list Z) :
  foldr Z.add 0 (l1 ++ l2) = foldr Z.add 0 l1 + foldr Z.add 0 l2.
Proof. induction l1 as [|a l1 IH]; cbn; lia. Qed.

Lemma exact_ceil_meets_spec : ceil_div_spec exact_ceil.
Proof.
  split.
  - intros a. reflexivity.
  - intros a b Ha Hb. unfold exact_ceil.
    destruct (Z.eqb_spec b 0); [lia|reflexivity].
Qed.

Section JobsFacts.
Variable ceil_div : Z -> Z -> result Z.
Hypothesis ceil_div_ok : ceil_div_spec ceil_div.

(** The closed form of the list of sizes. *)
Lemma calculate_jobs_closed (c m : Z) :
  0 < c < 2 ^ 53 -> 0 < m < 2 ^ 53 ->
  let jobs := exact_ceil_div c m in
  let size := exact_ceil_div c jobs in
  let extra := size * jobs - c in
  0 < jobs <= c /\ 0 < size <= m /\ 0 <= extra < jobs /\
  (0 < extra -> 2 <= size) /\
  calculate_jobs ceil_div c m =
  Ok (replicate (Z.to_nat extra) (size - 1) ++
      replicate (Z.to_nat (jobs - extra)) size).
Proof.
  intros Hc Hm jobs size extra.
  destruct ceil_div_ok as [_ Hexact].
  pose proof (exact_ceil_div_bounds c m ltac:(lia)) as [Hj1 Hj2].
  fold jobs in Hj1, Hj2.
  assert (Hjobs : 0 < jobs <= c) by nia.
  pose proof (exact_ceil_div_bounds c jobs ltac:(lia)) as [Hs1 Hs2].
  fold size in Hs1, Hs2.
  assert (Hsize : 0 < size <= m) by nia.
  assert (Hextra : 0 <= extra < jobs) by (unfold extra; nia).
  assert (Htwo : 0 < extra -> 2 <= size) by (unfold extra; nia).
  repeat split; try lia.
  unfold calculate_jobs.
  rewrite (Hexact c m) by lia. cbn [bind]. fold jobs.
  rewrite (Hexact c jobs) by lia. cbn [bind]. fold size. fold extra.
  pose proof (decrement_loop_app (Z.to_nat extra) [] (replicate (Z.to_nat jobs) size))
    as Hloop.
  cbn [app length] in Hloop. rewrite Hloop by (rewrite length_replicate; lia).
  f_equal.
  rewrite take_replicate, drop_replicate.
  rewrite Nat.min_l by lia.
  replace (Z.to_nat jobs - Z.to_nat extra)%nat with (Z.to_nat (jobs - extra)) by lia.
  f_equal. clear. induction (Z.to_nat extra) as [|n IH]; [reflexivity|].
  cbn. by rewrite IH.
Qed.

Lemma calculate_jobs_sizes (c m : Z) :
  0 < c < 2 ^ 53 -> 0 < m < 2 ^ 53 ->
  exists sizes,
    calculate_jobs ceil_div c m = Ok sizes /\
    Z.of_nat (length sizes) = exact_ceil_div c m /\
    foldr Z.add 0 sizes = c /\
    Forall (fun s => 1 <= s <= m) sizes.
Proof.
  intros Hc Hm.
  destruct (calculate_jobs_closed c m Hc Hm) as (Hj & Hs & He & Htwo & Heq).
  set (jobs := exact_ceil_div c m) in *.
  set (size := exact_ceil_div c jobs) in *.
  set (extra := size * jobs - c) in *.
  eexists. split; [exact Heq|].
  split; [rewrite length_app, !length_replicate; lia|].
  split.
  { rewrite sum_app, !sum_replicate. unfold extra. nia. }
  apply Forall_app. split.
  - destruct (decide (0 < extra)) as [Hpos|Hzero].
    + apply Forall_replicate. lia.
    + replace (Z.to_nat extra) with 0%nat by lia. constructor.
  - apply Forall_replicate. lia.
Qed.

(** X17. calculate_jobs, for a positive number of devices and a positive
    maximal job size (both below 2^53): it returns the least number of
    jobs that keeps every job within the maximum, the sizes add up to
    the number of devices, every job has at least one device and at most
    the maximum, any two sizes differ by at most one, and the smaller
    jobs come first. *)
Theorem calculate_jobs_balanced (c m : Z) :
  0 < c < 2 ^ 53 -> 0 < m < 2 ^ 53 ->
  exists sizes,
    calculate_jobs ceil_div c m = Ok sizes /\
    Z.of_nat (length sizes) = exact_ceil_div c m /\
    foldr Z.add 0 sizes = c /\
    Forall (fun s => 1 <= s <= m) sizes /\
    (forall i j s t, (i <= j)%nat -> sizes !! i = Some s -> sizes !! j = Some t ->
                     s <= t <= s + 1).
Proof.
  intros Hc Hm.
  destruct (calculate_jobs_closed c m Hc Hm) as (Hj & Hs & He & Htwo & Heq).
  set (jobs := exact_ceil_div c m) in *.
  set (size := exact_ceil_div c jobs) in *.
  set (extra := size * jobs - c) in *.
  eexists. split; [exact Heq|].
  split; [rewrite length_app, !length_replicate; lia|].
  split.
  { rewrite sum_app, !sum_replicate. unfold extra. nia. }
  split.
  { apply Forall_app. split.
    - destruct (decide (0 < extra)) as [Hpos|Hzero].
      + apply Forall_replicate. lia.
      + replace (Z.to_nat extra) with 0%nat by lia. constructor.
    - apply Forall_replicate. lia. }
  intros i j s t Hij Hi Hjx.
  assert (Hval : forall k v,
    (replicate (Z.to_nat extra) (size - 1) ++
     replicate (Z.to_nat (jobs - extra)) size) !! k = Some v ->
    (k < Z.to_nat extra)%nat /\ v = size - 1 \/
    (Z.to_nat extra <= k)%nat /\ v = size).
  { intros k v Hk. apply lookup_app_Some in Hk as [Hk|[Hge Hk]].
    - apply lookup_replicate in Hk as [-> Hlt]. left. split; [lia|reflexivity].
    - apply lookup_replicate in Hk as [-> Hlt]. right.
      rewrite length_replicate in Hge. split; [lia|reflexivity]. }
  apply Hval in Hi as [[Hi ->]|[Hi ->]], Hjx as [[Hjx ->]|[Hjx ->]]; lia.
Qed.

(** X18. calculate_jobs for no device: with a positive maximal job size the
    number of jobs is zero and the division by it raises. *)
Theorem calculate_jobs_no_device (m : Z) :
  0 < m < 2 ^ 53 ->
  calculate_jobs ceil_div 0 m = Raise ZeroDivisionError /\
  split_uuids_to_jobs ceil_div [] m = Raise ZeroDivisionError.
Proof.
  intros Hm. destruct ceil_div_ok as [Hzero Hexact].
  assert (H0 : calculate_jobs ceil_div 0 m = Raise ZeroDivisionError).
  { unfold calculate_jobs. rewrite (Hexact 0 m) by lia. cbn [bind].
    replace (exact_ceil_div 0 m) with 0.
    - by rewrite Hzero.
    - unfold exact_ceil_div. symmetry. apply Z.div_small. lia. }
  split; [exact H0|].
  unfold split_uuids_to_jobs.
  change (Z.of_nat (length (@nil string))) with 0. by rewrite H0.
Qed.

Lemma next_n_ok (n : nat) (iterator : list string) :
  (n <= length iterator)%nat ->
  next_n n iterator = Ok (take n iterator, drop n iterator).
Proof.
  revert iterator. induction n as [|n IH]; intros iterator Hn.
  - cbn. by rewrite drop_0.
  - destruct iterator as [|x rest]; [cbn in Hn; lia|].
    cbn [next_n]. rewrite IH by (cbn in Hn; lia). reflexivity.
Qed.

Lemma split_loop_ok (sizes : list Z) (iterator : list string) :
  Forall (fun s => 0 <= s) sizes ->
  foldr Z.add 0 sizes <= Z.of_nat (length iterator) ->
  exists jobs,
    split_loop sizes iterator = Ok jobs /\
    concat jobs = take (Z.to_nat (foldr Z.add 0 sizes)) iterator /\
    Forall2 (fun job s => Z.of_nat (length job) = s) jobs sizes.
Proof.
  revert iterator. induction sizes as [|s sizes IH]; intros iterator Hpos Hsum.
  - exists []. split; [reflexivity|]. split; [|constructor].
    cbn. by rewrite take_0.
  - apply Forall_cons in Hpos as [Hs Hpos]. cbn [foldr] in Hsum |- *.
    assert (Hrest : 0 <= foldr Z.add 0 sizes).
    { clear -Hpos. induction Hpos; cbn; lia. }
    cbn [split_loop]. rewrite next_n_ok by lia. cbn [bind fst snd].
    destruct (IH (drop (Z.to_nat s) iterator) Hpos) as (jobs & Hjobs & Hcat & Hlen).
    { rewrite length_drop. lia. }
    rewrite Hjobs. cbn [bind]. eexists. split; [reflexivity|]. split.
    + cbn [concat]. rewrite Hcat.
      rewrite Z2Nat.inj_add by lia.
      rewrite <- (take_drop (Z.to_nat s) iterator) at 3.
      rewrite take_app_add'; [reflexivity|].
      rewrite length_take. lia.
    + constructor; [|exact Hlen]. rewrite length_take. lia.
Qed.

(** X19. split_uuids_to_jobs, for a non-empty list of identifiers and a
    positive maximal job size: the jobs, put one after the other, are the
    identifiers in their order; there are as few jobs as the maximum
    allows; no job is empty or larger than the maximum. *)
Theorem split_uuids_to_jobs_partition (uuids : list string) (m : Z) :
  uuids <> [] -> Z.of_nat (length uuids) < 2 ^ 53 -> 0 < m < 2 ^ 53 ->
  exists jobs,
    split_uuids_to_jobs ceil_div uuids m = Ok jobs /\
    concat jobs = uuids /\
    Z.of_nat (length jobs) = exact_ceil_div (Z.of_nat (length uuids)) m /\
    Forall (fun job => 1 <= Z.of_nat (length job) <= m) jobs.
Proof.
  intros Hne Hlen Hm.
  assert (Hc : 0 < Z.of_nat (length uuids) < 2 ^ 53).
  { destruct uuids; [done|]. cbn [length] in *. lia. }
  destruct (calculate_jobs_sizes _ m Hc Hm)
    as (sizes & Hsizes & Hcount & Hsum & Hrange).
  unfold split_uuids_to_jobs. rewrite Hsizes. cbn [bind].
  destruct (split_loop_ok sizes uuids) as (jobs & Hjobs & Hcat & Hl).
  { eapply Forall_impl; [exact Hrange|]. cbn. lia. }
  { lia. }
  exists jobs. split; [exact Hjobs|]. split.
  { rewrite Hcat, Hsum, Nat2Z.id. apply firstn_all. }
  split.
  { rewrite <- Hcount. f_equal. eapply Forall2_length; exact Hl. }
  clear -Hl Hrange. induction Hl as [|job s jobs sizes Hjs Hl IH]; [constructor|].
  apply Forall_cons in Hrange as [Hs Hrange].
  constructor; [lia|auto].
Qed.

End JobsFacts.

Lemma calculate_jobs_balanced_witness :
  ceil_div_spec exact_ceil /\ 0 < 1201 < 2 ^ 53 /\ 0 < 500 < 2 ^ 53 /\
  exists sizes,
    calculate_jobs exact_ceil 1201 500 = Ok sizes /\
    Z.of_nat (length sizes) = exact_ceil_div 1201 500 /\
    foldr Z.add 0 sizes = 1201 /\
    Forall (fun s => 1 <= s <= 500) sizes /\
    (forall i j s t, (i <= j)%nat -> sizes !! i = Some s -> sizes !! j = Some t ->
                     s <= t <= s + 1).
Proof.
  split; [exact exact_ceil_meets_spec|]. split; [lia|]. split; [lia|].
  apply (calculate_jobs_balanced exact_ceil exact_ceil_meets_spec 1201 500); lia.
Defined.

Lemma calculate_jobs_no_device_witness :
  0 < 500 < 2 ^ 53 /\
  calculate_jobs exact_ceil 0 500 = Raise ZeroDivisionError /\
  split_uuids_to_jobs exact_ceil [] 500 = Raise ZeroDivisionError.
Proof.
  split; [lia|].
  apply (calculate_jobs_no_device exact_ceil exact_ceil_meets_spec 500). lia.
Defined.

Lemma split_uuids_to_jobs_partition_witness :
  exists jobs,
    split_uuids_to_jobs exact_ceil ["a"; "b"; "c"; "d"; "e"] 2 = Ok jobs /\
    concat jobs = ["a"; "b"; "c"; "d"; "e"] /\
    Z.of_nat (length jobs) = exact_ceil_div (Z.of_nat (length ["a"; "b"; "c"; "d"; "e"])) 2 /\
    Forall (fun job => 1 <= Z.of_nat (length job) <= 2) jobs.
Proof.
  apply (split_uuids_to_jobs_partition exact_ceil exact_ceil_meets_spec
           ["a"; "b"; "c"; "d"; "e"] 2); [discriminate|cbn; lia|lia].
Defined.

Section DomainsFacts.
Variable unicode_upper : string -> string.

Lemma domain_upper_fixed (d : string) :
  d ∈ EL2GO_DOMAINS -> py_upper unicode_upper d = d.
Proof.
  unfold EL2GO_DOMAINS. intros Hd.
  apply elem_of_cons in Hd as [->|Hd]; [reflexivity|].
  apply list_elem_of_singleton in Hd as ->. reflexivity.
Qed.

(** On ASCII text the upper case is letter by letter. *)
Lemma py_upper_ascii (s : string) :
  ascii_text s = true -> py_upper unicode_upper s = ascii_upper s.
Proof. unfold py_upper. by intros ->. Qed.

Lemma check_domains_ok (l : list string) :
  check_domains l = Ok tt <-> Forall (fun d => d ∈ EL2GO_DOMAINS) l.
Proof.
  induction l as [|d l IH]; cbn [check_domains].
  - split; [constructor|reflexivity].
  - case_bool_decide as Hd.
    + rewrite IH. split; [by constructor|]. by intros [_ ?]%Forall_cons.
    + split; [discriminate|]. by intros [? _]%Forall_cons.
Qed.

Lemma check_domains_raise (l : list string) (e : exn) :
  check_domains l = Raise e ->
  exists pre d post,
    l = pre ++ d :: post /\ Forall (fun d => d ∈ EL2GO_DOMAINS) pre /\
    (d ∉ EL2GO_DOMAINS) /\ e = SPSDKError ("Invalid domain type: " +:+ d).
Proof.
  induction l as [|d l IH]; cbn [check_domains]; [discriminate|].
  case_bool_decide as Hd.
  - intros (pre & d' & post & -> & Hpre & Hd' & ->)%IH.
    exists (d :: pre), d', post. repeat split; [by constructor|done].
  - intros [= <-]. exists [], d, l. repeat split; [constructor|done].
Qed.

(** X20. _sanitize_domains accepts a list exactly when every name, put in
    upper case, is one of the two known domains; it then returns the
    upper-cased names in their order, and sanitizing its result again
    changes nothing.  The empty list is accepted. *)
Theorem sanitize_domains_accepts (domains : list string) :
  (forall r, _sanitize_domains unicode_upper domains = Ok r <->
             Forall (fun d => py_upper unicode_upper d = "MATTER" \/
                              py_upper unicode_upper d = "RTP") domains /\
             r = map (py_upper unicode_upper) domains) /\
  (forall r, _sanitize_domains unicode_upper domains = Ok r ->
             _sanitize_domains unicode_upper r = Ok r) /\
  _sanitize_domains unicode_upper [] = Ok [].
Proof.
  assert (Hiff : forall ds r, _sanitize_domains unicode_upper ds = Ok r <->
             Forall (fun d => py_upper unicode_upper d ∈ EL2GO_DOMAINS) ds /\
             r = map (py_upper unicode_upper) ds).
  { intros ds r. unfold _sanitize_domains.
    destruct (check_domains (map (py_upper unicode_upper) ds)) as [[]|e] eqn:Hc;
      cbn [bind].
    - apply check_domains_ok in Hc. rewrite List.Forall_map in Hc.
      split; [by intros [= <-]|by intros [_ ->]].
    - split; [discriminate|]. intros [Hall _].
      assert (check_domains (map (py_upper unicode_upper) ds) = Ok tt)
        by (apply check_domains_ok, List.Forall_map; exact Hall).
      congruence. }
  split; [|split].
  - intros r. rewrite Hiff. split; intros [Hall ->]; (split; [|reflexivity]);
      (eapply Forall_impl; [exact Hall|]); cbn; intros d; unfold EL2GO_DOMAINS;
      rewrite elem_of_cons, list_elem_of_singleton; done.
  - intros r [Hall ->]%Hiff. apply Hiff.
    assert (Hfix : map (py_upper unicode_upper) (map (py_upper unicode_upper) domains)
                   = map (py_upper unicode_upper) domains).
    { induction Hall as [|d ds Hd _ IH]; [reflexivity|].
      cbn [map]. by rewrite IH, (domain_upper_fixed _ Hd). }
    split; [|by rewrite Hfix].
    apply List.Forall_map. eapply Forall_impl; [exact Hall|].
    cbn. intros d Hd. by rewrite (domain_upper_fixed _ Hd).
  - reflexivity.
Qed.

(** X21. When _sanitize_domains refuses a list, the error names the first
    entry that is not a known domain, in the upper case str.upper gives
    it. *)
Theorem sanitize_domains_names_first_invalid (domains : list string) (e : exn) :
  _sanitize_domains unicode_upper domains = Raise e ->
  exists pre d post,
    domains = pre ++ d :: post /\
    Forall (fun d => py_upper unicode_upper d ∈ EL2GO_DOMAINS) pre /\
    (py_upper unicode_upper d ∉ EL2GO_DOMAINS) /\
    e = SPSDKError ("Invalid domain type: " +:+ py_upper unicode_upper d).
Proof.
  unfold _sanitize_domains.
  destruct (check_domains (map (py_upper unicode_upper) domains)) as [[]|e'] eqn:Hc;
    cbn [bind]; [discriminate|]. intros [= ->].
  apply check_domains_raise in Hc as (pre & d & post & Hl & Hpre & Hd & ->).
  apply map_eq_app in Hl as (pre0 & rest & -> & <- & Hrest).
  apply map_eq_cons in Hrest as (d0 & post0 & -> & <- & <-).
  exists pre0, d0, post0. repeat split; [|done].
  by apply List.Forall_map in Hpre.
Qed.

End DomainsFacts.

Lemma sanitize_domains_names_first_invalid_witness :
  _sanitize_domains (fun s => s) ["rtp"; "wifi"; "x"]
    = Raise (SPSDKError "Invalid domain type: WIFI") /\
  exists pre d post,
    ["rtp"; "wifi"; "x"] = pre ++ d :: post /\
    Forall (fun d => py_upper (fun s => s) d ∈ EL2GO_DOMAINS) pre /\
    (py_upper (fun s => s) d ∉ EL2GO_DOMAINS) /\
    SPSDKError "Invalid domain type: WIFI"
      = SPSDKError ("Invalid domain type: " +:+ py_upper (fun s => s) d).
Proof.
  split; [reflexivity|].
  apply (sanitize_domains_names_first_invalid (fun s => s) ["rtp"; "wifi"; "x"]
           (SPSDKError "Invalid domain type: WIFI")).
  reflexivity.
Defined.

Lemma pairs_ind {A} (P : list A -> Prop) :
  P [] -> (forall a, P [a]) -> (forall a b l, P l -> P (a :: b :: l)) ->
  forall l, P l.
Proof.
  intros Hnil Hone Hstep.
  assert (H : forall l, P l /\ forall a, P (a :: l)).
  { induction l as [|b l [IH1 IH2]]; split; auto. }
  intros l. apply H.
Qed.

Lemma zip_evens_odds_lookup (l : list Z) (k : nat) (s e : Z) :
  zip (evens l) (odds l) !! k = Some (s, e) <->
  l !! (2 * k)%nat = Some s /\ l !! (2 * k + 1)%nat = Some e.
Proof.
  revert k. induction l as [|a|a b l IH] using pairs_ind; intros k.
  - change (zip (evens []) (odds [])) with (@nil (Z * Z)).
    rewrite !lookup_nil. split; [discriminate|]. by intros [? _].
  - change (zip (evens [a]) (odds [a])) with (@nil (Z * Z)).
    rewrite lookup_nil. split; [discriminate|]. intros [_ H].
    replace (2 * k + 1)%nat with (S (2 * k)) in H by lia.
    cbn [lookup list_lookup] in H. discriminate H.
  - change (zip (evens (a :: b :: l)) (odds (a :: b :: l)))
      with ((a, b) :: zip (evens l) (odds l)).
    destruct k as [|k].
    + cbn. split.
      * intros H. injection H as -> ->. done.
      * intros [H1 H2]. injection H1 as ->. injection H2 as ->. done.
    + replace (2 * S k)%nat with (S (S (2 * k))) by lia.
      replace (S (S (2 * k)) + 1)%nat with (S (S (2 * k + 1))) by lia.
      cbn [lookup list_lookup]. apply IH.
Qed.

Lemma elem_of_py_range (a b i : Z) : i ∈ py_range a b <-> a <= i < b.
Proof.
  unfold py_range. rewrite list_elem_of_In, in_map_iff. split.
  - intros (n & <- & Hn). apply in_seq in Hn. lia.
  - intros Hi. exists (Z.to_nat (i - a)). split; [lia|].
    apply in_seq. lia.
Qed.

(** X22. _get_ignored_otp_indexes: an index is ignored exactly when it is
    listed by itself or lies between the two ends, both included, of a
    pair of the ranges list; pairs are made of the entries at positions
    2k and 2k+1, so a last entry without a partner counts for nothing. *)
Theorem ignored_otp_membership (ignored_otp ranges : list Z) (idx : Z) :
  idx ∈ _get_ignored_otp_indexes ignored_otp ranges <->
  idx ∈ ignored_otp \/
  exists (k : nat) (first last : Z),
    ranges !! (2 * k)%nat = Some first /\ ranges !! (2 * k + 1)%nat = Some last /\
    first <= idx <= last.
Proof.
  unfold _get_ignored_otp_indexes.
  rewrite elem_of_app. apply or_iff_compat_l.
  rewrite list_elem_of_In, in_concat. split.
  - intros (r & Hr & Hidx). apply in_map_iff in Hr as ([s e] & <- & Hse).
    apply list_elem_of_In, list_elem_of_lookup in Hse as [k Hk].
    apply zip_evens_odds_lookup in Hk as [Hs He].
    apply list_elem_of_In, elem_of_py_range in Hidx. cbn [fst snd] in Hidx.
    exists k, s, e. repeat split; [done|done|lia|lia].
  - intros (k & s & e & Hs & He & Hidx).
    exists (py_range s (e + 1)). split.
    + apply in_map_iff. exists (s, e). split; [reflexivity|].
      apply list_elem_of_In, list_elem_of_lookup. exists k.
      by apply zip_evens_odds_lookup.
    + apply list_elem_of_In, elem_of_py_range. lia.
Qed.

Lemma status_loop_skip (cid : string) (pre rest : list string) :
  Forall neutral pre -> status_loop cid (pre ++ rest) = status_loop cid rest.
Proof.
  induction 1 as [|s pre [Hb Hw] _ IH]; [reflexivity|].
  cbn [app status_loop]. by rewrite !bool_decide_eq_false_2.
Qed.

Lemma status_loop_split (cid : string) (l : list string) :
  Forall neutral l \/
  exists pre s post, l = pre ++ s :: post /\ Forall neutral pre /\
                     (s ∈ BAD_STATES \/ s ∈ WAIT_STATES).
Proof.
  induction l as [|s l IH]; [left; constructor|].
  destruct (decide (s ∈ BAD_STATES)) as [Hb|Hb].
  { right. exists [], s, l. repeat split; [constructor|by left]. }
  destruct (decide (s ∈ WAIT_STATES)) as [Hw|Hw].
  { right. exists [], s, l. repeat split; [constructor|by right]. }
  destruct IH as [Hall|(pre & s' & post & -> & Hpre & Hs')].
  - left. by constructor.
  - right. exists (s :: pre), s', post. repeat split; [by constructor|done].
Qed.

(** X23. get_generation_status is decided by the first entry whose state is
    a failure or a waiting state: a failure there raises, a waiting state
    there is returned, whatever the later entries are, so that a failure
    after a waiting entry is not reported.  With no such entry, and at
    least one entry, the answer is GENERATION_COMPLETED; states the
    module does not know count as completed. *)
Theorem generation_status_first_decides
    (cid device_id : string) (domains : list string) (r : status_response) :
  status_code r < 400 ->
  (forall pre s post,
     content r = pre ++ s :: post -> Forall neutral pre ->
     (s ∈ BAD_STATES ->
      get_generation_status cid device_id domains r =
      Raise (SPSDKError ("Generating of Secure Objects failed. Correlation ID: " +:+ cid))) /\
     (s ∈ WAIT_STATES ->
      get_generation_status cid device_id domains r = Ok "GENERATION_TRIGGERED")) /\
  (content r <> [] -> Forall neutral (content r) ->
   get_generation_status cid device_id domains r = Ok "GENERATION_COMPLETED").
Proof.
  intros Hcode. unfold get_generation_status, response_handling.
  replace (400 <=? status_code r) with false by (symmetry; apply Z.leb_gt; lia).
  cbn [bind]. split.
  - intros pre s post Hc Hpre.
    assert (Hloop : match content r with
                    | [] => Raise (SPSDKError ("No Secure Objects found for device " +:+
                              device_id +:+ " using domain(s): " +:+ join_comma domains))
                    | _ => status_loop cid (content r)
                    end = status_loop cid (s :: post)).
    { rewrite Hc, <- (status_loop_skip cid pre (s :: post) Hpre).
      destruct pre; reflexivity. }
    rewrite Hloop. cbn [status_loop]. split; intros Hs.
    + by rewrite bool_decide_eq_true_2.
    + assert (s = "GENERATION_TRIGGERED") as ->
        by (by apply list_elem_of_singleton in Hs).
      reflexivity.
  - intros Hne Hall. destruct (content r) as [|s l] eqn:Hc; [done|].
    rewrite <- (app_nil_r (s :: l)). by rewrite status_loop_skip.
Qed.

Lemma generation_status_first_decides_witness :
  get_generation_status "cid" "dev" ["RTP"]
    (mkStatusResponse 200
       ["GENERATION_COMPLETED"; "GENERATION_TRIGGERED"; "GENERATION_FAILED"])
  = Ok "GENERATION_TRIGGERED".
Proof.
  refine (proj2 (proj1 (generation_status_first_decides "cid" "dev" ["RTP"]
           (mkStatusResponse 200
              ["GENERATION_COMPLETED"; "GENERATION_TRIGGERED"; "GENERATION_FAILED"])
           _) ["GENERATION_COMPLETED"] "GENERATION_TRIGGERED" ["GENERATION_FAILED"]
           eq_refl _) _).
  - cbn. lia.
  - constructor; [|constructor]. split; vm_compute; intros Hx; inversion Hx as [|? ? ? Hy];
      subst; inversion Hy as [|? ? ? Hz]; subst; inversion Hz.
  - apply list_elem_of_singleton. reflexivity.
Defined.

(** X24. get_generation_status returns nothing but GENERATION_TRIGGERED or
    GENERATION_COMPLETED, and only for a response below 400 with at least
    one entry. *)
Theorem generation_status_answers
    (cid device_id : string) (domains : list string) (r : status_response)
    (answer : string) :
  get_generation_status cid device_id domains r = Ok answer ->
  status_code r < 400 /\ content r <> [] /\
  (answer = "GENERATION_TRIGGERED" /\ "GENERATION_TRIGGERED" ∈ content r \/
   answer = "GENERATION_COMPLETED" /\ Forall neutral (content r)).
Proof.
  unfold get_generation_status, response_handling.
  destruct (400 <=? status_code r) eqn:Hcode; cbn [bind]; [discriminate|].
  apply Z.leb_gt in Hcode. intros H. split; [lia|].
  destruct (content r) as [|s0 l0] eqn:Hc; [discriminate|]. split; [done|].
  destruct (status_loop_split cid (s0 :: l0))
    as [Hall|(pre & s & post & Hl & Hpre & Hs)].
  - right. split; [|exact Hall].
    rewrite <- (app_nil_r (s0 :: l0)), status_loop_skip in H by done.
    cbn in H. congruence.
  - rewrite Hl, status_loop_skip in H by done. cbn [status_loop] in H.
    destruct Hs as [Hs|Hs].
    + by rewrite bool_decide_eq_true_2 in H.
    + assert (s = "GENERATION_TRIGGERED") as ->
        by (by apply list_elem_of_singleton in Hs).
      change (bool_decide ("GENERATION_TRIGGERED" ∈ BAD_STATES)) with false in H.
      change (bool_decide ("GENERATION_TRIGGERED" ∈ WAIT_STATES)) with true in H.
      left. split; [congruence|].
      rewrite Hl. apply elem_of_app. right. left.
Qed.

Lemma generation_status_answers_witness :
  get_generation_status "cid" "dev" ["RTP"]
    (mkStatusResponse 200 ["PROVISIONING_COMPLETED"]) = Ok "GENERATION_COMPLETED" /\
  200 < 400 /\ ["PROVISIONING_COMPLETED"] <> [] /\
  ("GENERATION_COMPLETED" = "GENERATION_TRIGGERED" /\
   "GENERATION_TRIGGERED" ∈ ["PROVISIONING_COMPLETED"] \/
   "GENERATION_COMPLETED" = "GENERATION_COMPLETED" /\
   Forall neutral ["PROVISIONING_COMPLETED"]).
Proof.
  split; [reflexivity|].
  apply (generation_status_answers "cid" "dev" ["RTP"]
           (mkStatusResponse 200 ["PROVISIONING_COMPLETED"]) "GENERATION_COMPLETED").
  reflexivity.
Defined.

Section SerializeFacts.
Variable b64decode : string -> result bytes.

Lemma serialize_entries_app (data : bytes) (ps qs : list rtp_prov) :
  serialize_entries b64decode data (ps ++ qs) =
  do* data' := serialize_entries b64decode data ps in
  serialize_entries b64decode data' qs.
Proof.
  revert data. induction ps as [|p ps IH]; intros data; [reflexivity|].
  cbn [app serialize_entries].
  destruct (serialize_entry b64decode data p); cbn [bind]; [apply IH|reflexivity].
Qed.

Lemma serialize_devices_flat (data : bytes) (provisionings : list (list rtp_prov)) :
  serialize_devices b64decode data provisionings =
  serialize_entries b64decode data (concat provisionings).
Proof.
  revert data. induction provisionings as [|d ds IH]; intros data; [reflexivity|].
  cbn [serialize_devices concat]. rewrite serialize_entries_app.
  destruct (serialize_entries b64decode data d); cbn [bind]; [apply IH|reflexivity].
Qed.

Lemma warn_provisioning_id_ok (p : rtp_prov) :
  warn_provisioning_id p = Ok tt <-> provisioningId p <> None.
Proof.
  unfold warn_provisioning_id. destruct (provisioningId p); split; try done.
Qed.

(** The body of the loop returns exactly when the entry adds its bytes. *)
Lemma serialize_entry_ok (data out : bytes) (p : rtp_prov) :
  serialize_entry b64decode data p = Ok out <->
  exists chunk, entry_bytes b64decode p chunk /\ out = data ++ chunk.
Proof.
  unfold serialize_entry, entry_bytes, get_state.
  destruct (state p) as [st|]; cbn [bind].
  2:{ split; [discriminate|]. by intros (chunk & (st & Hst & _) & _). }
  destruct (String.eqb_spec st "GENERATION_COMPLETED") as [->|Hc].
  - change (String.eqb "GENERATION_COMPLETED" "GENERATION_ON_CONNECTION") with false.
    change (String.eqb "GENERATION_COMPLETED" "PROVISIONING_COMPLETED") with false.
    destruct (apdu p) as [text|e]; cbn [bind].
    + destruct (b64decode text) as [decoded|e] eqn:Hd; cbn [bind].
      * split.
        -- intros [= <-]. exists decoded. split; [|reflexivity].
           exists "GENERATION_COMPLETED". split; [reflexivity|].
           rewrite String.eqb_refl. by exists text.
        -- intros (chunk & (st & [= <-] & Hb) & ->).
           rewrite String.eqb_refl in Hb. destruct Hb as (text' & [= <-] & Hd').
           congruence.
      * split; [discriminate|].
        intros (chunk & (st & [= <-] & Hb) & _).
        rewrite String.eqb_refl in Hb. destruct Hb as (text' & [= <-] & Hd').
        congruence.
    + split; [discriminate|].
      intros (chunk & (st & [= <-] & Hb) & _).
      rewrite String.eqb_refl in Hb. by destruct Hb as (text' & [=] & _).
  - assert (Hcb : String.eqb st "GENERATION_COMPLETED" = false)
      by (by apply String.eqb_neq).
    assert (Hwarn :
      (do* _ := if String.eqb st "GENERATION_ON_CONNECTION"
                then warn_provisioning_id p else Ok tt in
       do* _ := if String.eqb st "PROVISIONING_COMPLETED"
                then warn_provisioning_id p else Ok tt in
       Ok data) = Ok out <->
      out = data /\
      (st = "GENERATION_ON_CONNECTION" \/ st = "PROVISIONING_COMPLETED" ->
       provisioningId p <> None)).
    { destruct (String.eqb_spec st "GENERATION_ON_CONNECTION") as [->|Hg].
      - change (String.eqb "GENERATION_ON_CONNECTION" "PROVISIONING_COMPLETED")
          with false.
        destruct (warn_provisioning_id p) as [[]|e] eqn:Hw; cbn [bind].
        + apply warn_provisioning_id_ok in Hw. split.
          * intros [= <-]. done.
          * by intros [-> _].
        + split; [discriminate|]. intros [_ Hid].
          assert (warn_provisioning_id p = Ok tt)
            by (apply warn_provisioning_id_ok, Hid; by left).
          congruence.
      - cbn [bind].
        destruct (String.eqb_spec st "PROVISIONING_COMPLETED") as [->|Hp].
        + destruct (warn_provisioning_id p) as [[]|e] eqn:Hw; cbn [bind].
          * apply warn_provisioning_id_ok in Hw. split.
            -- intros [= <-]. done.
            -- by intros [-> _].
          * split; [discriminate|]. intros [_ Hid].
            assert (warn_provisioning_id p = Ok tt)
              by (apply warn_provisioning_id_ok, Hid; by right).
            congruence.
        + cbn [bind]. split.
          * intros [= <-]. split; [done|]. by intros [?|?]. 
          * by intros [-> _]. }
    cbn [bind]. rewrite Hwarn. split.
    + intros [-> Hid]. exists []. split; [|by rewrite app_nil_r].
      exists st. split; [reflexivity|]. by rewrite Hcb.
    + intros (chunk & (st' & [= <-] & Hb) & ->). rewrite Hcb in Hb.
      destruct Hb as [-> Hid]. split; [by rewrite app_nil_r|exact Hid].
Qed.

Lemma serialize_entries_ok (data out : bytes) (ps : list rtp_prov) :
  serialize_entries b64decode data ps = Ok out <->
  exists chunks,
    Forall2 (entry_bytes b64decode) ps chunks /\ out = data ++ concat chunks.
Proof.
  revert data. induction ps as [|p ps IH]; intros data.
  - cbn. split.
    + intros [= <-]. exists []. split; [constructor|]. by rewrite app_nil_r.
    + intros (chunks & Hf & ->). apply Forall2_nil_inv_l in Hf as ->.
      cbn. by rewrite app_nil_r.
  - cbn [serialize_entries]. split.
    + destruct (serialize_entry b64decode data p) as [data'|e] eqn:He;
        cbn [bind]; [|discriminate].
      apply serialize_entry_ok in He as (chunk & Hchunk & ->).
      intros (chunks & Hf & ->)%IH. exists (chunk :: chunks). split.
      * by constructor.
      * cbn. by rewrite app_assoc.
    + intros (chunks & Hf & ->).
      apply Forall2_cons_inv_l in Hf as (chunk & chunks' & Hchunk & Hf & ->).
      assert (He : serialize_entry b64decode data p = Ok (data ++ chunk))
        by (apply serialize_entry_ok; by exists chunk).
      rewrite He. cbn [bind]. apply IH. exists chunks'. split; [exact Hf|].
      cbn. by rewrite app_assoc.
Qed.

(** X26. serialize_provisionings, the loop over devices and their entries,
    gives what _serialize_single_provisioning gives on all the entries
    put in one list, be it bytes or an error. *)
Theorem serialize_provisionings_flattens (provisionings : list (list rtp_prov)) :
  serialize_provisionings b64decode provisionings =
  _serialize_single_provisioning b64decode (concat provisionings).
Proof. apply serialize_devices_flat. Qed.

(** X27. _serialize_single_provisioning returns bytes exactly when every
    entry has its state, every entry in state GENERATION_COMPLETED
    carries an APDU text that decodes, and every entry in state
    GENERATION_ON_CONNECTION or PROVISIONING_COMPLETED carries the
    provisioningId the warning prints; the bytes are the decoded texts of
    the completed entries, in their order, the other entries adding
    nothing. *)
Theorem serialize_single_completed_only (provisioning : list rtp_prov) (out : bytes) :
  _serialize_single_provisioning b64decode provisioning = Ok out <->
  exists chunks,
    Forall2 (entry_bytes b64decode) provisioning chunks /\ out = concat chunks.
Proof. unfold _serialize_single_provisioning. apply serialize_entries_ok. Qed.

(** An entry the serializers warn about and that lacks its
    provisioningId makes them raise, whatever the other entries are. *)
Lemma serialize_single_missing_id (before after : list rtp_prov) (st : string)
    (text : result string) :
  st = "GENERATION_ON_CONNECTION" \/ st = "PROVISIONING_COMPLETED" ->
  forall out,
    _serialize_single_provisioning b64decode
      (before ++ mkRtpProv (Some st) text None :: after) <> Ok out.
Proof.
  intros Hst out Hout. apply serialize_entries_ok in Hout as (chunks & Hf & _).
  apply Forall2_app_inv_l in Hf as (c1 & c2 & _ & Hf & _).
  apply Forall2_cons_inv_l in Hf as (chunk & c3 & (st' & [= <-] & Hb) & _).
  destruct Hst as [-> | ->]; cbn in Hb; destruct Hb as [_ Hid];
    apply Hid; auto.
Qed.

End SerializeFacts.

(** X28. create_user_config with the user-configuration method: with both
    addresses in 32 bits the block has 32 bytes, the tag ELUC, the two
    addresses in little-endian order and 20 zero bytes, and the address
    returned last is that of the user data; an address out of 32 bits
    raises.  With the two other methods the block is empty and the
    address returned last is that of the secure objects. *)
Theorem user_config_block (method : ProvisioningMethod) (fw ud tp : Z) :
  (method = FW_USER_CONFIG -> 0 <= ud < 2 ^ 32 -> 0 <= tp < 2 ^ 32 ->
   exists blob,
     create_user_config method fw ud tp = Ok (blob, fw, ud) /\
     length blob = 32%nat /\
     take 4 blob = ELUC /\
     le_value (take 4 (drop 4 blob)) = ud /\
     le_value (take 4 (drop 8 blob)) = tp /\
     drop 12 blob = zeros 20) /\
  (method = FW_USER_CONFIG -> ~ (0 <= ud < 2 ^ 32 /\ 0 <= tp < 2 ^ 32) ->
   create_user_config method fw ud tp = Raise OverflowError) /\
  (method <> FW_USER_CONFIG ->
   exists address,
     create_user_config method fw ud tp = Ok ([], address, tp) /\
     (method = DISPATCH_FW -> address = 0) /\
     (method = FW_DATA_SPLIT -> address = fw)).
Proof.
  split; [|split].
  - intros -> Hud Htp. cbn [create_user_config]. unfold to_bytes_le4.
    replace ((0 <=? ud) && (ud <? 2 ^ 32)) with true by (symmetry; apply andb_true_iff; lia).
    replace ((0 <=? tp) && (tp <? 2 ^ 32)) with true by (symmetry; apply andb_true_iff; lia).
    cbn [bind]. eexists. split; [reflexivity|].
    pose proof (le_bytes_length 4 ud) as Hlu.
    pose proof (le_bytes_length 4 tp) as Hlt.
    destruct (le_bytes 4 ud) as [|u0 [|u1 [|u2 [|u3 [|]]]]] eqn:Hu; try discriminate.
    destruct (le_bytes 4 tp) as [|t0 [|t1 [|t2 [|t3 [|]]]]] eqn:Ht; try discriminate.
    split; [reflexivity|]. split; [reflexivity|]. split; [|split; [|reflexivity]].
    + change (le_value [u0; u1; u2; u3] = ud).
      rewrite <- Hu. apply le_value_le_bytes. lia.
    + change (le_value [t0; t1; t2; t3] = tp).
      rewrite <- Ht. apply le_value_le_bytes. lia.
  - intros -> Hbad. cbn [create_user_config]. unfold to_bytes_le4.
    destruct ((0 <=? ud) && (ud <? 2 ^ 32)) eqn:Hud; cbn [bind]; [|reflexivity].
    destruct ((0 <=? tp) && (tp <? 2 ^ 32)) eqn:Htp; cbn [bind]; [|reflexivity].
    apply andb_true_iff in Hud, Htp. exfalso. apply Hbad. lia.
  - intros Hm. destruct method; [| done |]; eexists; (split; [reflexivity|]);
      split; intros; congruence.
Qed.

Lemma user_config_block_witness :
  exists blob,
    create_user_config FW_USER_CONFIG 0x20000000 0x20001000 0x20002000
      = Ok (blob, 0x20000000, 0x20001000) /\
    length blob = 32%nat /\
    take 4 blob = ELUC /\
    le_value (take 4 (drop 4 blob)) = 0x20001000 /\
    le_value (take 4 (drop 8 blob)) = 0x20002000 /\
    drop 12 blob = zeros 20.
Proof.
  apply (user_config_block FW_USER_CONFIG 0x20000000 0x20001000 0x20002000);
    [reflexivity|lia|lia].
Defined.

Section FindFacts.
Variable request : string -> groups_response.
Variable repr_list : list group_id -> string.
Variable nc12 : string.

Lemma find_loop_found (device_id : string) (candidates : list group_id) (s : string) :
  find_loop request nc12 device_id candidates = Ok (Some s) ->
  exists pre c post,
    candidates = pre ++ c :: post /\ s = str_id c /\
    code (request (device_url nc12 c device_id)) = 200 /\
    Forall (passed request nc12 device_id) pre.
Proof.
  induction candidates as [|c rest IH]; cbn [find_loop]; [discriminate|].
  destruct (Z.eqb_spec (code (request (device_url nc12 c device_id))) 200) as [H200|H200].
  { intros [= <-]. exists [], c, rest. repeat split; [done|constructor]. }
  assert (Hstep : find_loop request nc12 device_id rest = Ok (Some s) ->
                  code (request (device_url nc12 c device_id)) = 404 \/
                  code (request (device_url nc12 c device_id)) < 400 ->
                  exists pre c0 post,
                    c :: rest = pre ++ c0 :: post /\ s = str_id c0 /\
                    code (request (device_url nc12 c0 device_id)) = 200 /\
                    Forall (passed request nc12 device_id) pre).
  { intros Hr Hc. destruct (IH Hr) as (pre & c0 & post & -> & Hs & Hc0 & Hpre).
    exists (c :: pre), c0, post. repeat split; [done|done|].
    constructor; [by split|exact Hpre]. }
  destruct (Z.eqb_spec (code (request (device_url nc12 c device_id))) 404) as [H404|H404].
  { intros Hr. apply Hstep; [done|by left]. }
  unfold response_handling.
  destruct (Z.leb_spec 400 (code (request (device_url nc12 c device_id))));
    cbn [bind]; [discriminate|].
  intros Hr. apply Hstep; [done|by right].
Qed.

(** The search goes past every candidate that is answered 404 or another
    code below 400 other than 200. *)
Lemma find_loop_passed (device_id : string) (pre rest : list group_id) :
  Forall (passed request nc12 device_id) pre ->
  find_loop request nc12 device_id (pre ++ rest) = find_loop request nc12 device_id rest.
Proof.
  induction 1 as [|c pre [H200 Hc] _ IH]; [reflexivity|].
  cbn [app find_loop].
  destruct (Z.eqb_spec (code (request (device_url nc12 c device_id))) 200); [done|].
  destruct (Z.eqb_spec (code (request (device_url nc12 c device_id))) 404); [exact IH|].
  unfold response_handling.
  destruct (Z.leb_spec 400 (code (request (device_url nc12 c device_id))));
    [lia|exact IH].
Qed.

(** X25. _find_device_group_id searches the candidate groups in their
    order: the group given or, when none is given (also when it is given
    as 0 or as the empty text), the groups the server lists, an answer of
    400 or more to the listing being raised.  It goes past every
    candidate answered 404 or another code below 400 other than 200; it
    returns, as text, the first candidate answered 200; it raises the
    HTTP error of the first candidate answered 400 or more other than
    404; with every candidate gone past it raises SPSDKError.  What it
    returns is always such a first candidate. *)
Theorem find_device_group_first_match (device_id : string) (group : option group_id) :
  (forall g, group = Some g -> truthy_id group = true ->
             find_candidates request nc12 group = Ok [g]) /\
  (truthy_id group = false ->
   find_candidates request nc12 group =
     (if 400 <=? code (request (groups_url nc12))
      then Raise (SPSDKHTTPClientError (code (request (groups_url nc12))))
      else Ok (ids (request (groups_url nc12)))) /\
   _find_device_group_id request repr_list nc12 device_id group =
   _find_device_group_id request repr_list nc12 device_id None) /\
  (forall e, find_candidates request nc12 group = Raise e ->
             _find_device_group_id request repr_list nc12 device_id group = Raise e) /\
  (forall candidates,
     find_candidates request nc12 group = Ok candidates ->
     (forall pre c post,
        candidates = pre ++ c :: post ->
        Forall (passed request nc12 device_id) pre ->
        (code (request (device_url nc12 c device_id)) = 200 ->
         _find_device_group_id request repr_list nc12 device_id group
         = Ok (str_id c)) /\
        (400 <= code (request (device_url nc12 c device_id)) ->
         code (request (device_url nc12 c device_id)) <> 404 ->
         _find_device_group_id request repr_list nc12 device_id group
         = Raise (SPSDKHTTPClientError (code (request (device_url nc12 c device_id)))))) /\
     (Forall (passed request nc12 device_id) candidates ->
      _find_device_group_id request repr_list nc12 device_id group
      = Raise (SPSDKError ("Device " +:+ device_id +:+ " was not found in product " +:+
                           nc12 +:+ " for group(s): " +:+ repr_list candidates)))) /\
  (forall s,
     _find_device_group_id request repr_list nc12 device_id group = Ok s ->
     exists candidates pre c post,
       find_candidates request nc12 group = Ok candidates /\
       candidates = pre ++ c :: post /\ s = str_id c /\
       code (request (device_url nc12 c device_id)) = 200 /\
       Forall (passed request nc12 device_id) pre).
Proof.
  split; [|split; [|split; [|split]]].
  - intros g -> Ht. cbn [find_candidates]. by rewrite Ht.
  - intros Ht.
    assert (Hc : find_candidates request nc12 group = listed_groups request nc12).
    { unfold find_candidates. destruct group as [g|]; [|reflexivity]. by rewrite Ht. }
    split.
    + rewrite Hc. unfold listed_groups, response_handling.
      by destruct (400 <=? code (request (groups_url nc12))).
    + unfold _find_device_group_id. by rewrite Hc.
  - intros e He. unfold _find_device_group_id. by rewrite He.
  - intros candidates Hc. unfold _find_device_group_id. rewrite Hc. cbn [bind]. split.
    + intros pre c post -> Hpre. rewrite (find_loop_passed _ _ _ Hpre).
      cbn [find_loop]. split.
      * intros ->. reflexivity.
      * intros H400 H404.
        destruct (Z.eqb_spec (code (request (device_url nc12 c device_id))) 200); [lia|].
        destruct (Z.eqb_spec (code (request (device_url nc12 c device_id))) 404); [done|].
        unfold response_handling.
        by destruct (Z.leb_spec 400 (code (request (device_url nc12 c device_id))));
          [|lia].
    + intros Hall. rewrite <- (app_nil_r candidates) at 1.
      rewrite (find_loop_passed _ _ _ Hall). reflexivity.
  - intros s. unfold _find_device_group_id.
    destruct (find_candidates request nc12 group) as [candidates|] eqn:Hc;
      cbn [bind]; [|discriminate].
    destruct (find_loop request nc12 device_id candidates) as [[s'|]|] eqn:Hl;
      cbn [bind]; try discriminate.
    intros [= <-]. apply find_loop_found in Hl as (pre & c & post & H1 & H2 & H3 & H4).
    by exists candidates, pre, c, post.
Qed.

End FindFacts.

Lemma find_device_group_first_match_witness :
  find_candidates demo_request "123" (Some (GInt 0)) = Ok [GInt 7; GInt 8; GInt 9] /\
  Forall (passed demo_request "123" "dev") [GInt 7] /\
  code (demo_request (device_url "123" (GInt 8) "dev")) = 200 /\
  _find_device_group_id demo_request (fun _ => "") "123" "dev" (Some (GInt 0)) = Ok "8".
Proof.
  split; [reflexivity|].
  assert (Hpre : Forall (passed demo_request "123" "dev") [GInt 7]).
  { constructor; [|constructor]. split; [discriminate|by left]. }
  split; [exact Hpre|]. split; [reflexivity|].
  exact (proj1 (proj1 (proj1 (proj2 (proj2 (proj2
           (find_device_group_first_match demo_request (fun _ => "") "123" "dev"
              (Some (GInt 0))))))
           [GInt 7; GInt 8; GInt 9] eq_refl) [GInt 7] (GInt 8) [GInt 9] eq_refl Hpre)
           eq_refl).
Defined.

Lemma otp_loop_ok (ignored : list Z) (user_regs : list RegsRegister) (data out : bytes) :
  otp_loop ignored user_regs data = Ok out <->
  exists records,
    Forall2 (fun user_reg record => otp_record user_reg = Ok record)
            (filter (fun user_reg => otp_index user_reg ∉ ignored) user_regs) records /\
    out = data ++ concat records.
Proof.
  revert data. induction user_regs as [|r rest IH]; intros data.
  - cbn. split.
    + intros [= <-]. exists []. split; [constructor|]. by rewrite app_nil_r.
    + intros (records & Hf & ->). apply Forall2_nil_inv_l in Hf as ->.
      cbn. by rewrite app_nil_r.
  - cbn [otp_loop]. rewrite filter_cons. case_bool_decide as Hi.
    + rewrite decide_False by (intros Hn; by apply Hn). apply IH.
    + rewrite decide_True by done. unfold otp_record.
      destruct (pack_BBHBB _ _ _ _ _) as [head|e] eqn:Hh; cbn [bind].
      * destruct (to_bytes_be _ _) as [value|e] eqn:Hv; cbn [bind].
        -- rewrite IH. split.
           ++ intros (records & Hf & ->). exists ((head ++ value) :: records). split.
              ** constructor; [|exact Hf]. by rewrite Hh, Hv.
              ** cbn. by rewrite !app_assoc.
           ++ intros (records & Hf & ->).
              apply Forall2_cons_inv_l in Hf as (rec & records' & Hrec & Hf & ->).
              rewrite Hh in Hrec. cbn [bind] in Hrec. rewrite Hv in Hrec.
              injection Hrec as <-.
              exists records'. split; [exact Hf|]. cbn. by rewrite !app_assoc.
        -- split; [discriminate|]. intros (records & Hf & _).
           apply Forall2_cons_inv_l in Hf as (rec & records' & Hrec & _).
           rewrite Hh in Hrec. cbn [bind] in Hrec. rewrite Hv in Hrec. discriminate.
      * split; [discriminate|]. intros (records & Hf & _).
        apply Forall2_cons_inv_l in Hf as (rec & records' & Hrec & _).
        rewrite Hh in Hrec. discriminate.
Qed.

(** X29. The OTP binary is made of one record per register that is not
    ignored, in the order of the registers: it is returned exactly when
    there is at least one register and the record of every register kept
    can be written.  Ignored registers are not looked into; with every
    register ignored the binary is empty, with no register at all the
    function raises. *)
Theorem otp_binary_records (ignored_otp ignored_otp_ranges : list Z)
    (user_regs : list RegsRegister) (out : bytes) :
  otp_binary ignored_otp ignored_otp_ranges user_regs = Ok out <->
  user_regs <> [] /\
  exists records,
    Forall2 (fun user_reg record => otp_record user_reg = Ok record)
            (filter (fun user_reg =>
                       otp_index user_reg ∉
                       _get_ignored_otp_indexes ignored_otp ignored_otp_ranges)
                    user_regs) records /\
    out = concat records.
Proof.
  unfold otp_binary. destruct user_regs as [|r rest].
  - split; [discriminate|]. by intros [? _].
  - rewrite otp_loop_ok. split.
    + intros (records & Hf & ->). split; [done|]. by exists records.
    + intros (_ & records & Hf & ->). by exists records.
Qed.

Lemma be_value_two (h : Z) :
  0 <= h < 65536 -> be_value [byte_of_Z (h / 256); byte_of_Z h] = h.
Proof.
  intros Hh. unfold be_value. cbn [rev app].
  change [byte_of_Z h; byte_of_Z (h / 256)] with
    (byte_of_Z h :: byte_of_Z (h / 2 ^ 8) :: []).
  rewrite <- Z.shiftr_div_pow2 by lia.
  change (byte_of_Z h :: byte_of_Z (Z.shiftr h 8) :: []) with (le_bytes 2 h).
  apply le_value_le_bytes. lia.
Qed.

(** X30. A record of the OTP binary reads back as the register it was
    written from: tag 0x40 and length 2, the fuse index on two big-endian
    bytes, tag 0x41 and the width in bytes, then the value on that many
    big-endian bytes.  It is written only for an index of 16 bits, a
    width below 2048 bits and a value that fits the width rounded down to
    whole bytes. *)
Theorem otp_record_reads_back (user_reg : RegsRegister) (record : bytes) :
  otp_record user_reg = Ok record ->
  0 <= otp_index user_reg < 65536 /\
  0 <= width user_reg / 8 < 256 /\
  0 <= reg_value user_reg < 2 ^ (8 * (width user_reg / 8)) /\
  length record = (6 + Z.to_nat (width user_reg / 8))%nat /\
  take 2 record = [x40; x02]%byte /\
  be_value (take 2 (drop 2 record)) = otp_index user_reg /\
  take 2 (drop 4 record) = [x41; byte_of_Z (width user_reg / 8)]%byte /\
  be_value (drop 6 record) = reg_value user_reg.
Proof.
  unfold otp_record, pack_BBHBB, to_bytes_be.
  set (n := width user_reg / 8).
  destruct (_ && _) eqn:Hrange; cbn [bind]; [|discriminate].
  repeat (apply andb_true_iff in Hrange as [Hrange ?]).
  destruct (Z.ltb_spec n 0); [discriminate|].
  destruct (_ && _) eqn:Hv; cbn [bind]; [|discriminate].
  apply andb_true_iff in Hv as [Hv1 Hv2].
  intros [= <-].
  split; [lia|]. split; [lia|]. split; [lia|].
  split; [cbn [app length]; rewrite List.length_rev, le_bytes_length; lia|].
  split; [reflexivity|].
  split; [apply be_value_two; lia|].
  split; [reflexivity|].
  change (be_value (rev (le_bytes (Z.to_nat n) (reg_value user_reg))) = reg_value user_reg).
  unfold be_value. rewrite List.rev_involutive.
  apply le_value_le_bytes. rewrite Z2Nat.id by lia. lia.
Qed.

Lemma otp_record_reads_back_witness :
  exists record,
    otp_record (mkRegsRegister 0x1234 32 0xCAFE) = Ok record /\
    0 <= 0x1234 < 65536 /\
    0 <= 32 / 8 < 256 /\
    0 <= 0xCAFE < 2 ^ (8 * (32 / 8)) /\
    length record = (6 + Z.to_nat (32 / 8))%nat /\
    take 2 record = [x40; x02]%byte /\
    be_value (take 2 (drop 2 record)) = 0x1234 /\
    take 2 (drop 4 record) = [x41; byte_of_Z (32 / 8)]%byte /\
    be_value (drop 6 record) = 0xCAFE.
Proof.
  eexists. split; [vm_compute; reflexivity|].
  apply (otp_record_reads_back (mkRegsRegister 0x1234 32 0xCAFE)).
  vm_compute. reflexivity.
Defined.

End El2goFacts.
